(** * AmbiMatter bridge: the command pipeline of [bridge/ambient_bridge.py]

    A shallow embedding of the unit converters, the bounded command queue,
    the UDP ingestion listener, the per-zone dispatch with deduplication and
    the reconnect loop, together with the properties stated about them.

    Conventions.
    - Python [int] is [Z]; Python [float] is an IEEE-754 binary64 value,
      modelled by [spec_float] with precision 53 and [emax] 1024, using the
      operations of [SpecFloat] (round to nearest, ties to even).
    - A Python call that may raise returns a [res]: [Ok v] or [Raise e].
    - Effects (log records, prints, downstream calls, sleeps) are collected
      in a trace, oldest first. *)

From Stdlib Require Import ZArith List Bool Lia.
From Stdlib Require Import Floats.SpecFloat.
From stdpp Require Import base option list gmap strings fin_maps pretty.

Set Warnings "-register-all".

Local Open Scope Z_scope.

(** ** Python exceptions and results *)

(** The exception classes the pipeline can meet.  [CancelledError],
    [SystemExit] and [KeyboardInterrupt] derive from [BaseException] only:
    an [except Exception] clause does not catch them. *)
Inductive exn : Type :=
  | UnicodeDecodeError
  | JSONDecodeError
  | TypeError
  | ValueError
  | OverflowError
  | ZeroDivisionError
  | KeyError
  | RecursionError
  | AttributeError
  | FileNotFoundError
  | QueueFull
  | QueueEmpty
  | CannotConnect
  | ConnectionFailed
  | ConnectionResetError
  | InvalidServerVersion
  | CancelledError
  | KeyboardInterrupt
  | SystemExit (code : Z)
  | OtherException (cls : string).

Definition is_Exception (e : exn) : bool :=
  match e with
  | CancelledError | KeyboardInterrupt | SystemExit _ => false
  | _ => true
  end.

Inductive res (A : Type) : Type :=
  | Ok (a : A)
  | Raise (e : exn).
Arguments Ok {A} a.
Arguments Raise {A} e.

#[global] Instance res_ret : MRet res := fun A a => Ok a.
#[global] Instance res_bind : MBind res := fun A B k r =>
  match r with
  | Ok a => k a
  | Raise e => Raise e
  end.

Definition returns {A : Type} (r : res A) : bool :=
  match r with Ok _ => true | Raise _ => false end.

(** ** Python floats *)

Abbreviation float := spec_float.

Definition prec : Z := 53.
Definition emax : Z := 1024.

Definition fmul : float -> float -> float := SFmul prec emax.
Definition fltb : float -> float -> bool := SFltb.

Definition is_finite (f : float) : bool :=
  match f with
  | S754_zero _ | S754_finite _ _ _ => true
  | S754_infinity _ | S754_nan => false
  end.

(** [float(n)] for an [int]: correctly rounded, [OverflowError] when the
    value is too large for a binary64. *)
Definition float_of_int (n : Z) : res float :=
  match binary_normalize prec emax n 0 false with
  | S754_infinity _ => Raise OverflowError
  | f => Ok f
  end.

(** [int(x)] for a [float]: truncation toward zero; [OverflowError] on an
    infinity and [ValueError] on a NaN. *)
Definition int_of_float (f : float) : res Z :=
  match f with
  | S754_zero _ => Ok 0
  | S754_infinity _ => Raise OverflowError
  | S754_nan => Raise ValueError
  | S754_finite s m e =>
      Ok (cond_Zopp s (if 0 <=? e then Z.pos m * 2 ^ e
                       else Z.pos m / 2 ^ (- e)))
  end.

(** Python's two-argument [min(a, b)]: [a], unless [b < a]. *)
Definition py_min (a b : float) : float := if fltb b a then b else a.

Definition f_one : float := S754_finite false 4503599627370496 (-52).
Definition f_two : float := S754_finite false 4503599627370496 (-51).
Definition f_sixty : float := S754_finite false 8444249301319680 (-47).
Definition f_hundred : float := S754_finite false 7036874417766400 (-46).

(** ** Writing an [int] as text

    [str(n)], and so an f-string field that holds an [int], raises
    [ValueError] when [n] has more than 4300 decimal digits, the
    interpreter's default limit on the conversion. *)
Definition int_max_str_digits : Z := 4300.

(** [10 ^ 4300], worked out once. *)
Definition int_str_limit : Z := Eval vm_compute in 10 ^ int_max_str_digits.

Definition str_int_ok (n : Z) : bool := Z.abs n <? int_str_limit.
Arguments str_int_ok : simpl never.

(** ** Data classes *)

Record ZoneConfig : Type := {
  name : string;
  node_ids : list Z;
  endpoint_id : Z;
  brightness_multiplier : float;
  min_kelvin : Z;
  max_kelvin : Z
}.

(** Tracks last-sent state for deduplication; [-1] means never sent. *)
Record ZoneState : Type := {
  last_mireds : Z;
  last_brightness : Z
}.

Definition ZoneState_default : ZoneState :=
  {| last_mireds := -1; last_brightness := -1 |}.

Record BridgeConfig : Type := {
  reconnect_initial_delay : float;
  reconnect_max_delay : float;
  reconnect_multiplier : float;
  dedup_mireds_threshold : Z;
  dedup_brightness_threshold : Z;
  zones : gmap string ZoneConfig
}.

Record UdpCommand : Type := {
  zone : string;
  kelvin : Z;
  brightness : Z;
  transition : Z
}.

(** ** Conversion utilities *)

(** [kelvin_to_mireds]: the source computes [int(1_000_000 / kelvin)] on
    the clamped value.  The true division of two ints is the correctly
    rounded quotient and [int] truncates it toward zero.  Every integer up
    to [1_000_000] is a binary64 value and a quotient that is not an integer
    is at least [1/|kelvin|] away from the nearest one, far more than the
    rounding error, so the truncated float equals the integer quotient
    rounded toward zero, [Z.quot].  A zero divisor raises. *)
Definition kelvin_to_mireds (kelvin min_kelvin max_kelvin : Z) : res Z :=
  let kelvin := Z.max min_kelvin (Z.min max_kelvin kelvin) in
  if kelvin =? 0 then Raise ZeroDivisionError
  else Ok (Z.quot 1000000 kelvin).

(** The same conversion carried out in binary64, as the interpreter does
    it, for divisors that are exact as floats (below [2^53]); it is
    compared with [kelvin_to_mireds] over the usual range below. *)
Definition kelvin_to_mireds_binary64 (kelvin min_kelvin max_kelvin : Z)
    : res Z :=
  let kelvin := Z.max min_kelvin (Z.min max_kelvin kelvin) in
  if kelvin =? 0 then Raise ZeroDivisionError
  else
    x ← float_of_int 1000000;
    y ← float_of_int kelvin;
    int_of_float (SFdiv prec emax x y).

(** [clamp_brightness]: [max(0, min(254, int(raw * multiplier)))].  The
    product of an [int] and a [float] first converts the [int]. *)
Definition clamp_brightness (raw : Z) (multiplier : float) : res Z :=
  x ← float_of_int raw;
  v ← int_of_float (fmul x multiplier);
  Ok (Z.max 0 (Z.min 254 v)).

(** The conversion as the specification words it: clamp, then
    [round(1_000_000 / kelvin)], Python's [round] taking ties to even. *)
Definition round_half_even_div (a b : Z) : Z :=
  let q := a / b in
  let r := a mod b in
  if 2 * r <? b then q
  else if b <? 2 * r then q + 1
  else if Z.even q then q else q + 1.

Definition spec_colorTemperatureToProtocolUnits
    (kelvin minKelvin maxKelvin : Z) : Z :=
  round_half_even_div 1000000 (Z.max minKelvin (Z.min maxKelvin kelvin)).

(** ** Effects *)

Inductive matter_command : Type :=
  | MoveToColorTemperature
      (colorTemperatureMireds transitionTime optionsMask optionsOverride : Z)
  | MoveToLevelWithOnOff
      (level transitionTime optionsMask optionsOverride : Z).

Inductive log_level : Type := DEBUG | INFO | WARNING | ERROR | CRITICAL.

Inductive log_msg : Type :=
  | MsgUdpPacket (nbytes : nat)
  | MsgNotUtf8
  | MsgMalformedJson
  | MsgNotObject
  | MsgMissingFields (missing : gset string)
  | MsgUnknownZone (z : string) (known : gset string)
  | MsgInvalidValues (e : exn)
  | MsgQueued (cmd : UdpCommand)
  | MsgQueueFull
  | MsgDedupSkip (z : string) (mireds_delta brightness_delta : Z)
  | MsgZone (z : string) (mireds brightness transition_ms : Z) (dry_run : bool)
  | MsgColorOk (node_id mireds : Z)
  | MsgColorFailed (node_id : Z) (e : exn)
  | MsgLevelOk (node_id brightness : Z)
  | MsgLevelFailed (node_id : Z) (e : exn)
  | MsgUnknownZoneSkipped (z : string)
  | MsgDrained (count : Z)
  | MsgConnecting
  | MsgConnected
  | MsgConnectionFailed (e : exn) (delay : float)
  | MsgConnectionDropped (e : exn) (delay : float)
  | MsgIncompatible (e : exn)
  | MsgDryRunActive
  | MsgCallbackException (e : exn).

Inductive effect : Type :=
  | Log (lvl : log_level) (msg : log_msg)
  | Print (cmd : UdpCommand) (mireds brightness transition_ms : Z)
      (nodes : list Z)
  | DeviceCommand (node_id endpoint_id : Z) (command : matter_command)
  | Sleep (delay : float).

Definition is_DeviceCommand (ev : effect) : bool :=
  match ev with DeviceCommand _ _ _ => true | _ => false end.

(** The downstream calls of a trace, in order. *)
Definition device_commands (tr : list effect) : list effect :=
  filter (fun ev => is_DeviceCommand ev = true) tr.

(** ** The command queue: [asyncio.Queue]

    The standard library's FIFO queue, as the bridge uses it: [maxsize]
    fixed at construction, [put_nowait] raising [QueueFull] when the queue
    is full, [get_nowait] removing the oldest item or raising
    [QueueEmpty]. *)
Record Queue (A : Type) : Type := {
  maxsize : Z;
  items : list A
}.
Arguments maxsize {A} q.
Arguments items {A} q.

Definition Queue_new {A : Type} (maxsize : Z) : Queue A :=
  {| maxsize := maxsize; items := [] |}.

Definition qsize {A : Type} (q : Queue A) : Z := Z.of_nat (length (items q)).

Definition empty {A : Type} (q : Queue A) : bool :=
  match items q with [] => true | _ => false end.

Definition full {A : Type} (q : Queue A) : bool :=
  if maxsize q <=? 0 then false else maxsize q <=? qsize q.

Definition put_nowait {A : Type} (q : Queue A) (item : A) : res (Queue A) :=
  if full q then Raise QueueFull
  else Ok {| maxsize := maxsize q; items := items q ++ [item] |}.

Definition get_nowait {A : Type} (q : Queue A) : res (A * Queue A) :=
  match items q with
  | [] => Raise QueueEmpty
  | x :: rest => Ok (x, {| maxsize := maxsize q; items := rest |})
  end.

(** ** JSON values and the Python built-ins the listener calls *)

Inductive json : Type :=
  | JNull
  | JBool (b : bool)
  | JInt (n : Z)
  | JFloat (x : float)
  | JString (s : string)
  | JArray (l : list json)
  | JObject (d : gmap string json).

(** What the listener takes from the Python runtime: the UTF-8 decoder
    ([None] is [UnicodeDecodeError]), [json.loads] (which raises
    [JSONDecodeError] on malformed text and may raise something else, such
    as [RecursionError] on deep nesting), [int] on a [str] ([None] is
    [ValueError]) and [str] on a value that is not already a [str]. *)
Class PyRuntime : Type := {
  utf8_decode : list Byte.byte -> option string;
  json_loads : string -> res json;
  int_of_str : string -> option Z;
  repr : json -> string
}.

Definition py_str {runtime : PyRuntime} (v : json) : string :=
  match v with
  | JString s => s
  | _ => repr v
  end.

(** [int(v)] on a decoded JSON value. *)
Definition py_int {runtime : PyRuntime} (v : json) : res Z :=
  match v with
  | JNull => Raise TypeError
  | JBool b => Ok (if b then 1 else 0)
  | JInt n => Ok n
  | JFloat x => int_of_float x
  | JString s =>
      match int_of_str s with
      | Some n => Ok n
      | None => Raise ValueError
      end
  | JArray _ => Raise TypeError
  | JObject _ => Raise TypeError
  end.

(** [payload[key]] on a [dict]. *)
Definition getitem (d : gmap string json) (key : string) : res json :=
  match d !! key with
  | Some v => Ok v
  | None => Raise KeyError
  end.

(** ** UDP protocol: [UdpCommandProtocol] *)

Definition REQUIRED_FIELDS : gset string :=
  {[ "zone"; "kelvin"; "brightness"; "transition" ]}%string.

(** Lines 192-202: [put_nowait], and on [QueueFull] drop the oldest
    command and put again. *)
Definition enqueue (q : Queue UdpCommand) (cmd : UdpCommand)
    : res (Queue UdpCommand) * list effect :=
  match put_nowait q cmd with
  | Ok q' => (Ok q', [Log DEBUG (MsgQueued cmd)])
  | Raise QueueFull =>
      let q1 :=
        match get_nowait q with
        | Ok (_, q1) => Ok q1
        | Raise QueueEmpty => Ok q
        | Raise e => Raise e
        end in
      (q1 ← q1; put_nowait q1 cmd, [Log WARNING MsgQueueFull])
  | Raise e => (Raise e, [])
  end.

(** The construction of the [UdpCommand] inside the [try] of lines
    181-190: the three [int(...)] calls, in order. *)
Definition make_command (zone : string) (payload : gmap string json)
    {runtime : PyRuntime} : res UdpCommand :=
  k ← (v ← getitem payload "kelvin"; py_int v);
  b ← (v ← getitem payload "brightness"; py_int v);
  t ← (v ← getitem payload "transition"; py_int v);
  Ok {| zone := zone; kelvin := k; brightness := b; transition := t |}.

(** Lines 150-190 of [datagram_received]: the packet is decoded and
    validated.  [Ok (Some cmd)] is the command to enqueue, [Ok None] a
    packet discarded with a warning, [Raise e] an exception that leaves the
    method.  The sender's address only appears in log records and is left
    out. *)
Definition decode_command {runtime : PyRuntime} (known_zones : gset string)
    (data : list Byte.byte) : res (option UdpCommand) * list effect :=
  let log0 := [Log DEBUG (MsgUdpPacket (length data))] in
  let discard msg := (Ok None, log0 ++ [Log WARNING msg]) in
  match utf8_decode data with
  | None => discard MsgNotUtf8
  | Some text =>
    match json_loads text with
    | Raise JSONDecodeError => discard MsgMalformedJson
    | Raise e => (Raise e, log0)
    | Ok (JObject payload) =>
        let missing := REQUIRED_FIELDS ∖ dom payload in
        if bool_decide (missing ≠ ∅) then discard (MsgMissingFields missing)
        else
          match getitem payload "zone" with
          | Raise e => (Raise e, log0)
          | Ok zv =>
            let zone := py_str zv in
            if bool_decide (zone ∉ known_zones) then
              discard (MsgUnknownZone zone known_zones)
            else
              match make_command zone payload with
              | Raise TypeError => discard (MsgInvalidValues TypeError)
              | Raise ValueError => discard (MsgInvalidValues ValueError)
              | Raise e => (Raise e, log0)
              | Ok cmd => (Ok (Some cmd), log0)
              end
          end
    | Ok _ => discard MsgNotObject
    end
  end.

(** [datagram_received]: the queue after the packet, or the exception that
    leaves the method, with the records logged on the way. *)
Definition datagram_received {runtime : PyRuntime} (known_zones : gset string)
    (q : Queue UdpCommand) (data : list Byte.byte)
    : res (Queue UdpCommand) * list effect :=
  match decode_command known_zones data with
  | (Raise e, tr) => (Raise e, tr)
  | (Ok None, tr) => (Ok q, tr)
  | (Ok (Some cmd), tr) =>
      let '(r, tr') := enqueue q cmd in (r, tr ++ tr')
  end.

(** ** Matter command dispatch *)

(** The downstream client: an opaque session whose [send_device_command]
    either returns or raises, and may change the session. *)
Class MatterClient (C : Type) : Type := {
  send_device_command : C -> Z -> Z -> matter_command -> res unit * C
}.

(** The f-string of lines 292-297 can be built: every [int] it holds,
    the node ids of the list included, can be written. *)
Definition printable (cmd : UdpCommand) (zone_cfg : ZoneConfig)
    (mireds level transition_ms : Z) : bool :=
  str_int_ok (kelvin cmd) && str_int_ok mireds
  && str_int_ok (brightness cmd) && str_int_ok level
  && str_int_ok transition_ms && forallb str_int_ok (node_ids zone_cfg).

(** The same for what the line takes from the command and the zone
    alone: the converted colour and level are always short enough. *)
Definition writable (cmd : UdpCommand) (zone_cfg : ZoneConfig) : bool :=
  str_int_ok (kelvin cmd) && str_int_ok (brightness cmd)
  && str_int_ok (transition cmd * 100)
  && forallb str_int_ok (node_ids zone_cfg).

Section Dispatch.
Context {C : Type} {client_ops : MatterClient C}.

(** [await client.send_device_command(...)].  In dry-run mode the client is
    [None], on which the attribute access raises before any call. *)
Definition call_client (client : option C) (node_id endpoint_id : Z)
    (command : matter_command) : res unit * option C * list effect :=
  match client with
  | None => (Raise AttributeError, None, [])
  | Some c =>
      let '(r, c') := send_device_command c node_id endpoint_id command in
      (r, Some c', [DeviceCommand node_id endpoint_id command])
  end.

(** One [try: await ... except Exception as exc: logger.error(...)]
    block: [Ok] when the block is left normally (the call returned, or its
    exception was caught), [Raise] when the exception is not an
    [Exception] and leaves the block. *)
Definition guarded_call (client : option C) (node_id endpoint_id : Z)
    (command : matter_command) (ok : log_msg) (failed : exn -> log_msg)
    : res unit * option C * list effect :=
  let '(r, client', tr) := call_client client node_id endpoint_id command in
  match r with
  | Ok _ => (Ok (), client', tr ++ [Log DEBUG ok])
  | Raise e =>
      if is_Exception e then (Ok (), client', tr ++ [Log ERROR (failed e)])
      else (Raise e, client', tr)
  end.

Definition _send_to_bulb (client : option C)
    (node_id endpoint_id mireds brightness transition : Z)
    : res unit * option C * list effect :=
  let '(r1, client1, tr1) :=
    guarded_call client node_id endpoint_id
      (MoveToColorTemperature mireds transition 1 1)
      (MsgColorOk node_id mireds) (MsgColorFailed node_id) in
  match r1 with
  | Raise e => (Raise e, client1, tr1)
  | Ok _ =>
      let '(r2, client2, tr2) :=
        guarded_call client1 node_id endpoint_id
          (MoveToLevelWithOnOff brightness transition 0 0)
          (MsgLevelOk node_id brightness) (MsgLevelFailed node_id) in
      (r2, client2, tr1 ++ tr2)
  end.

(** The [for node_id in zone_cfg.node_ids] loop of [send_zone_command]. *)
Fixpoint send_to_bulbs (client : option C) (nodes : list Z)
    (endpoint_id mireds brightness transition : Z)
    : res unit * option C * list effect :=
  match nodes with
  | [] => (Ok (), client, [])
  | node_id :: rest =>
      let '(r, client1, tr1) :=
        _send_to_bulb client node_id endpoint_id mireds brightness
          transition in
      match r with
      | Raise e => (Raise e, client1, tr1)
      | Ok _ =>
          let '(r', client2, tr2) :=
            send_to_bulbs client1 rest endpoint_id mireds brightness
              transition in
          (r', client2, tr1 ++ tr2)
      end
  end.

(** What a call of [send_zone_command] leaves behind: how it ended, the
    [ZoneState] object (mutated in place by the source), the client and
    the effects in order. *)
Record outcome : Type := {
  result : res unit;
  state_after : ZoneState;
  client_after : option C;
  effects : list effect
}.

(** The deduplication test of lines 274-278. *)
Definition dedup_skip (zone_state : ZoneState) (config : BridgeConfig)
    (mireds brightness : Z) : bool :=
  negb (last_mireds zone_state =? -1)
  && (Z.abs (mireds - last_mireds zone_state)
        <? dedup_mireds_threshold config)
  && (Z.abs (brightness - last_brightness zone_state)
        <? dedup_brightness_threshold config).

(** Lines 285-310: the command is sent (or printed) and the state
    updated.  In a dry run the line to print is built first: when that
    raises, nothing is printed and the state is not updated.  The log
    record before it is formatted inside [logging], which reports a
    failure to format on the error stream and carries on. *)
Definition transmit (client : option C) (zone_cfg : ZoneConfig)
    (zone_state : ZoneState) (cmd : UdpCommand) (mireds brightness : Z)
    (dry_run : bool) : outcome :=
  let transition_ms := transition cmd * 100 in
  let info :=
    Log INFO (MsgZone (zone cmd) mireds brightness transition_ms dry_run) in
  let sent := {| last_mireds := mireds; last_brightness := brightness |} in
  if dry_run then
    if printable cmd zone_cfg mireds brightness transition_ms then
      {| result := Ok ();
         state_after := sent;
         client_after := client;
         effects := [info; Print cmd mireds brightness transition_ms
                             (node_ids zone_cfg)] |}
    else
      {| result := Raise ValueError;
         state_after := zone_state;
         client_after := client;
         effects := [info] |}
  else
    let '(r, client', tr) :=
      send_to_bulbs client (node_ids zone_cfg) (endpoint_id zone_cfg)
        mireds brightness (transition cmd) in
    match r with
    | Raise e =>
        {| result := Raise e; state_after := zone_state;
           client_after := client'; effects := info :: tr |}
    | Ok _ =>
        {| result := Ok (); state_after := sent;
           client_after := client'; effects := info :: tr |}
    end.

Definition send_zone_command (client : option C) (zone_cfg : ZoneConfig)
    (zone_state : ZoneState) (cmd : UdpCommand) (config : BridgeConfig)
    (dry_run : bool) : outcome :=
  let stop e :=
    {| result := Raise e; state_after := zone_state;
       client_after := client; effects := [] |} in
  match clamp_brightness (brightness cmd) (brightness_multiplier zone_cfg)
  with
  | Raise e => stop e
  | Ok brightness =>
    match kelvin_to_mireds (kelvin cmd) (min_kelvin zone_cfg)
            (max_kelvin zone_cfg) with
    | Raise e => stop e
    | Ok mireds =>
        if dedup_skip zone_state config mireds brightness then
          {| result := Ok (); state_after := zone_state;
             client_after := client;
             effects :=
               [Log DEBUG
                  (MsgDedupSkip (zone cmd)
                     (Z.abs (mireds - last_mireds zone_state))
                     (Z.abs (brightness - last_brightness zone_state)))] |}
        else
          transmit client zone_cfg zone_state cmd mireds brightness dry_run
    end
  end.

(** One iteration of [_command_loop], once [queue.get()] has delivered
    [cmd]: the zone states after it, the client, the effects and how the
    iteration ended. *)
Definition command_loop_body (client : option C) (config : BridgeConfig)
    (zone_states : gmap string ZoneState) (cmd : UdpCommand)
    (dry_run : bool)
    : res unit * gmap string ZoneState * option C * list effect :=
  match zones config !! zone cmd with
  | None =>
      (Ok (), zone_states, client,
       [Log WARNING (MsgUnknownZoneSkipped (zone cmd))])
  | Some zone_cfg =>
      match zone_states !! zone cmd with
      | None => (Raise KeyError, zone_states, client, [])
      | Some zone_state =>
          let o :=
            send_zone_command client zone_cfg zone_state cmd config
              dry_run in
          (result o, <[zone cmd := state_after o]> zone_states,
           client_after o, effects o)
      end
  end.
End Dispatch.

(** ** The reconnect loop and the bridge as a whole *)

(** [_drain_queue]: the [while not queue.empty()] loop.  Each iteration
    removes one command, so the number of queued commands plus one bounds
    the iterations. *)
Fixpoint drain_loop {A : Type} (fuel : nat) (q : Queue A) (count : Z)
    : Queue A * Z :=
  match fuel with
  | O => (q, count)
  | S fuel' =>
      if empty q then (q, count)
      else
        match get_nowait q with
        | Ok (_, q') => drain_loop fuel' q' (count + 1)
        | Raise _ => (q, count)
        end
  end.

Definition _drain_queue {A : Type} (q : Queue A)
    : Queue A * Z * list effect :=
  let '(q', count) := drain_loop (S (length (items q))) q 0 in
  (q', count, if count =? 0 then [] else [Log INFO (MsgDrained count)]).

(** How [run_bridge] ends: the loop raises [SystemExit(code)] itself, or an
    exception leaves it (re-raised or never handled). *)
Inductive termination : Type :=
  | SysExit (code : Z)
  | Uncaught (e : exn).

Inductive phase (C : Type) : Type :=
  | DryRun
  | Connecting
  | Connected (client : C)
  | Backoff
  | Exited (t : termination).
Arguments DryRun {C}.
Arguments Connecting {C}.
Arguments Connected {C} client.
Arguments Backoff {C}.
Arguments Exited {C} t.

(** The state of a running bridge: where the reconnect loop stands, its
    local [delay], the shared queue, the zone states and the effects so
    far. *)
Record bridge (C : Type) : Type := {
  at_phase : phase C;
  delay : float;
  queue : Queue UdpCommand;
  zone_states : gmap string ZoneState;
  trace : list effect
}.
Arguments at_phase {C} b.
Arguments delay {C} b.
Arguments queue {C} b.
Arguments zone_states {C} b.
Arguments trace {C} b.

(** What the environment does next: a packet arrives; the connection
    attempt succeeds; an exception is raised at the point where the loop is
    suspended (the connection attempt, the session body, the sleep); the
    command loop receives the oldest queued command; the sleep ends. *)
Inductive event (C : Type) : Type :=
  | Datagram (data : list Byte.byte)
  | ConnectOk (client : C)
  | Raised (e : exn)
  | Dequeue
  | SleepDone.
Arguments Datagram {C} data.
Arguments ConnectOk {C} client.
Arguments Raised {C} e.
Arguments Dequeue {C}.
Arguments SleepDone {C}.

Section Bridge.
Context {C : Type} {client_ops : MatterClient C} {runtime : PyRuntime}.

(** [run_bridge]: the state before the first event. *)
Definition run_bridge (config : BridgeConfig) (dry_run : bool) : bridge C :=
  {| at_phase := if dry_run then DryRun else Connecting;
     delay := reconnect_initial_delay config;
     queue := Queue_new 100;
     zone_states := (fun _ => ZoneState_default) <$> zones config;
     trace := if dry_run then [Log INFO MsgDryRunActive]
              else [Log INFO MsgConnecting] |}.

Definition log (b : bridge C) (tr : list effect) : bridge C :=
  {| at_phase := at_phase b; delay := delay b; queue := queue b;
     zone_states := zone_states b; trace := trace b ++ tr |}.

Definition goto (b : bridge C) (p : phase C) : bridge C :=
  {| at_phase := p; delay := delay b; queue := queue b;
     zone_states := zone_states b; trace := trace b |}.

(** The [except] clauses of [_matter_reconnect_loop], lines 393-414, up to
    the start of the sleep. *)
Definition on_exception (b : bridge C) (e : exn) : bridge C :=
  match e with
  | CannotConnect | ConnectionFailed =>
      goto (log b [Log WARNING (MsgConnectionFailed e (delay b));
                   Sleep (delay b)]) Backoff
  | ConnectionResetError =>
      goto (log b [Log WARNING (MsgConnectionDropped e (delay b));
                   Sleep (delay b)]) Backoff
  | InvalidServerVersion =>
      goto (log b [Log CRITICAL (MsgIncompatible e)]) (Exited (SysExit 1))
  | _ => goto b (Exited (Uncaught e))
  end.

(** After the sleep: [delay = min(delay * multiplier, max_delay)], and
    the loop tries again. *)
Definition next_delay (config : BridgeConfig) (d : float) : float :=
  py_min (fmul d (reconnect_multiplier config)) (reconnect_max_delay config).

Definition after_sleep (config : BridgeConfig) (b : bridge C) : bridge C :=
  {| at_phase := Connecting;
     delay := next_delay config (delay b);
     queue := queue b;
     zone_states := zone_states b;
     trace := trace b ++ [Log INFO MsgConnecting] |}.

(** Lines 379-381: the connection is up. *)
Definition on_connected (config : BridgeConfig) (b : bridge C) (client : C)
    : bridge C :=
  let '(q', _, drained) := _drain_queue (queue b) in
  {| at_phase := Connected client;
     delay := reconnect_initial_delay config;
     queue := q';
     zone_states := zone_states b;
     trace := trace b ++ [Log INFO MsgConnected] ++ drained |}.

(** A packet reaches [datagram_received].  An exception leaving it goes to
    the event loop that called it, which reports it and carries on. *)
Definition on_datagram (config : BridgeConfig) (b : bridge C)
    (data : list Byte.byte) : bridge C :=
  match datagram_received (dom (zones config)) (queue b) data with
  | (Ok q', tr) =>
      {| at_phase := at_phase b; delay := delay b; queue := q';
         zone_states := zone_states b; trace := trace b ++ tr |}
  | (Raise e, tr) => log b (tr ++ [Log ERROR (MsgCallbackException e)])
  end.

(** The command loop takes the oldest command and dispatches it. *)
Definition on_dequeue (config : BridgeConfig) (b : bridge C)
    (client : option C) (dry_run : bool) : bridge C :=
  match get_nowait (queue b) with
  | Raise _ => b
  | Ok (cmd, q') =>
      let '(r, zs, client', tr) :=
        command_loop_body client config (zone_states b) cmd dry_run in
      let b' :=
        {| at_phase :=
             match client' with
             | Some c => Connected c
             | None => at_phase b
             end;
           delay := delay b; queue := q'; zone_states := zs;
           trace := trace b ++ tr |} in
      match r with
      | Ok _ => b'
      | Raise e =>
          if dry_run then goto b' (Exited (Uncaught e))
          else on_exception b' e
      end
  end.

Definition step (config : BridgeConfig) (b : bridge C) (ev : event C)
    : bridge C :=
  match at_phase b, ev with
  | Exited _, _ => b
  | _, Datagram data => on_datagram config b data
  | Connecting, ConnectOk client => on_connected config b client
  | Connecting, Raised e => on_exception b e
  | Connected _, Raised e => on_exception b e
  | Backoff, Raised e => goto b (Exited (Uncaught e))
  | DryRun, Raised e => goto b (Exited (Uncaught e))
  | Connected client, Dequeue => on_dequeue config b (Some client) false
  | DryRun, Dequeue => on_dequeue config b None true
  | Backoff, SleepDone => after_sleep config b
  | _, _ => b
  end.

Definition run (config : BridgeConfig) (b : bridge C) (evs : list (event C))
    : bridge C :=
  fold_left (step config) evs b.

(** The command the command loop takes at this step, if any. *)
Definition taken (b : bridge C) (ev : event C) : list UdpCommand :=
  match at_phase b, ev with
  | Connected _, Dequeue | DryRun, Dequeue =>
      match get_nowait (queue b) with
      | Ok (cmd, _) => [cmd]
      | Raise _ => []
      end
  | _, _ => []
  end.

(** The command this step puts in the queue, if any. *)
Definition accepted (config : BridgeConfig) (b : bridge C) (ev : event C)
    : list UdpCommand :=
  match at_phase b, ev with
  | Exited _, _ => []
  | _, Datagram data =>
      match decode_command (dom (zones config)) data with
      | (Ok (Some cmd), _) =>
          if returns (fst (enqueue (queue b) cmd)) then [cmd] else []
      | _ => []
      end
  | _, _ => []
  end.

(** The commands dispatched, and the commands enqueued, during a run. *)
Fixpoint dispatched (config : BridgeConfig) (b : bridge C)
    (evs : list (event C)) : list UdpCommand :=
  match evs with
  | [] => []
  | ev :: evs' => taken b ev ++ dispatched config (step config b ev) evs'
  end.

Fixpoint enqueued (config : BridgeConfig) (b : bridge C)
    (evs : list (event C)) : list UdpCommand :=
  match evs with
  | [] => []
  | ev :: evs' =>
      accepted config b ev ++ enqueued config (step config b ev) evs'
  end.
End Bridge.

(** ** [main]: the exit status of the process *)

(** The status the interpreter exits with when [e] is never caught. *)
Definition uncaught_status (e : exn) : Z :=
  match e with
  | SystemExit code => code
  | _ => 1
  end.

(** [main], lines 501-518: [loaded] is what [load_config] gave and
    [bridge_raises] the exception with which [asyncio.run(run_bridge(...))]
    ends ([run_bridge] never returns). *)
Definition main (loaded : res BridgeConfig)
    (bridge_raises : BridgeConfig -> exn) : Z :=
  match loaded with
  | Raise FileNotFoundError | Raise ValueError => 1
  | Raise e => uncaught_status e
  | Ok config =>
      match bridge_raises config with
      | KeyboardInterrupt => 0
      | SystemExit code => code
      | e => if is_Exception e then 1 else uncaught_status e
      end
  end.

(** The exception [run_bridge] ends with, from the way the loop ended. *)
Definition raised_by (t : termination) : exn :=
  match t with
  | SysExit code => SystemExit code
  | Uncaught e => e
  end.

(** ** Configuration loading: [load_config] *)

(** What [yaml.safe_load] returns for a configuration file: scalars,
    sequences and mappings.  A mapping is the list of the [items()] of the
    Python [dict], in the order of the file, which decides the zone whose
    defect is reported first; its keys are strings, as the keys of
    [config.yaml] are, and distinct, as the keys of a [dict] are.  The
    other values YAML can hold (dates, binary data, sets) have no place in
    a configuration file and are left out. *)
Inductive yaml : Type :=
  | YNull
  | YBool (b : bool)
  | YInt (n : Z)
  | YFloat (x : float)
  | YStr (s : string)
  | YSeq (l : list yaml)
  | YMap (d : list (string * yaml)).

(** What [load_config] takes from its environment: [Path(path).exists()],
    the opening of the file followed by [yaml.safe_load], either of which
    may raise, and [float] on a [str] ([None] is [ValueError]). *)
Class ConfigRuntime : Type := {
  path_exists : string -> bool;
  yaml_safe_load : string -> res yaml;
  float_of_str : string -> option float
}.

(** [d.get(key)]: the value at [key], [None] when the key is absent. *)
Fixpoint dict_get (d : list (string * yaml)) (key : string) : option yaml :=
  match d with
  | [] => None
  | (k, v) :: rest => if String.eqb k key then Some v else dict_get rest key
  end.

(** [d.get(key, fallback)]. *)
Definition get_or (d : list (string * yaml)) (key : string) (fallback : yaml)
    : yaml :=
  default fallback (dict_get d key).

(** [int(v)] and [float(v)] on a loaded value. *)
Definition yaml_int {runtime : PyRuntime} (v : yaml) : res Z :=
  match v with
  | YNull => Raise TypeError
  | YBool b => Ok (if b then 1 else 0)
  | YInt n => Ok n
  | YFloat x => int_of_float x
  | YStr s =>
      match int_of_str s with
      | Some n => Ok n
      | None => Raise ValueError
      end
  | YSeq _ => Raise TypeError
  | YMap _ => Raise TypeError
  end.

Definition yaml_float {config_runtime : ConfigRuntime} (v : yaml)
    : res float :=
  match v with
  | YNull => Raise TypeError
  | YBool b => Ok (if b then f_one else S754_zero false)
  | YInt n => float_of_int n
  | YFloat x => Ok x
  | YStr s =>
      match float_of_str s with
      | Some x => Ok x
      | None => Raise ValueError
      end
  | YSeq _ => Raise TypeError
  | YMap _ => Raise TypeError
  end.

(** The [BridgeConfig] of the source in full: the three connection
    settings, which the pipeline never reads and which are stored as
    loaded (the port through [int]), and the fields of [BridgeConfig]
    above. *)
Record LoadedConfig : Type := {
  matter_server_url : yaml;
  udp_listen_ip : yaml;
  udp_listen_port : Z;
  pipeline : BridgeConfig
}.

Section LoadConfig.
Context {runtime : PyRuntime} {config_runtime : ConfigRuntime}.

(** The inner [require(key, parent, context)]. *)
Definition require (key : string) (parent : list (string * yaml))
    : res yaml :=
  match dict_get parent key with
  | Some v => Ok v
  | None => Raise ValueError
  end.

(** [[int(n) for n in node_ids]]. *)
Fixpoint ints_of (l : list yaml) : res (list Z) :=
  match l with
  | [] => Ok []
  | v :: rest => n ← yaml_int v; ns ← ints_of rest; Ok (n :: ns)
  end.

(** The body of the [for zone_name, zone_data in zones_raw.items()] loop,
    lines 93-105. *)
Definition load_zone (zone_name : string) (zone_data : yaml)
    : res ZoneConfig :=
  match zone_data with
  | YMap zone_data =>
      node_ids ← require "node_ids" zone_data;
      match node_ids with
      | YSeq (first :: others) =>
          ids ← ints_of (first :: others);
          endpoint ← yaml_int (get_or zone_data "endpoint_id" (YInt 1));
          multiplier ←
            yaml_float
              (get_or zone_data "brightness_multiplier" (YFloat f_one));
          mn ← yaml_int (get_or zone_data "min_kelvin" (YInt 2700));
          mx ← yaml_int (get_or zone_data "max_kelvin" (YInt 6500));
          Ok {| name := zone_name; node_ids := ids; endpoint_id := endpoint;
                brightness_multiplier := multiplier; min_kelvin := mn;
                max_kelvin := mx |}
      | _ => Raise ValueError
      end
  | _ => Raise ValueError
  end.

Fixpoint load_zones (zones_raw : list (string * yaml))
    (zones : gmap string ZoneConfig) : res (gmap string ZoneConfig) :=
  match zones_raw with
  | [] => Ok zones
  | (zone_name, zone_data) :: rest =>
      zone_cfg ← load_zone zone_name zone_data;
      load_zones rest (<[zone_name := zone_cfg]> zones)
  end.

Definition load_config (path : string) : res LoadedConfig :=
  if negb (path_exists path) then Raise FileNotFoundError
  else
      raw ← yaml_safe_load path;
      match raw with
      | YMap raw =>
          zones_raw ← require "zones" raw;
          match zones_raw with
          | YMap (first :: others) =>
              zones ← load_zones (first :: others) ∅;
              port ← yaml_int (get_or raw "udp_listen_port" (YInt 10001));
              initial ←
                yaml_float
                  (get_or raw "reconnect_initial_delay" (YFloat f_two));
              maximum ←
                yaml_float
                  (get_or raw "reconnect_max_delay" (YFloat f_sixty));
              multiplier ←
                yaml_float (get_or raw "reconnect_multiplier" (YFloat f_two));
              mireds ← yaml_int (get_or raw "dedup_mireds_threshold"
                                   (YInt 10));
              level ← yaml_int (get_or raw "dedup_brightness_threshold"
                                  (YInt 5));
              Ok {| matter_server_url :=
                      get_or raw "matter_server_url"
                        (YStr "ws://localhost:5580/ws");
                    udp_listen_ip :=
                      get_or raw "udp_listen_ip" (YStr "127.0.0.1");
                    udp_listen_port := port;
                    pipeline :=
                      {| reconnect_initial_delay := initial;
                         reconnect_max_delay := maximum;
                         reconnect_multiplier := multiplier;
                         dedup_mireds_threshold := mireds;
                         dedup_brightness_threshold := level;
                         zones := zones |} |}
          | _ => Raise ValueError
          end
      | _ => Raise ValueError
      end.
End LoadConfig.

(** ** The test sender: [bridge/test_sender.py] *)

Module TestSender.

(** What the sender takes from the Python runtime: [json.dumps] and
    [str.encode("utf-8")]. *)
Class SenderRuntime : Type := {
  json_dumps : json -> string;
  utf8_encode : string -> list Byte.byte
}.

Definition f_three_halves : float := S754_finite false 6755399441055744 (-52).
Definition f_three : float := S754_finite false 6755399441055744 (-51).

(** A row of [DAY_CYCLE]: label, kelvin, brightness, transition and the
    sleep override, the last four possibly [None]. *)
Definition row : Type :=
  string * option Z * option Z * option Z * option float.

Definition DAY_CYCLE : list row :=
  [ ("Night start (baseline)", Some 2700, Some 20, Some 0, None);
    ("Pre-dawn", Some 2750, Some 30, Some 8, None);
    ("Dawn", Some 2900, Some 60, Some 8, None);
    ("Sunrise", Some 3200, Some 100, Some 8, None);
    ("Mid-morning", Some 4000, Some 160, Some 8, None);
    ("Late morning", Some 5000, Some 210, Some 4, None);
    ("Noon", Some 6500, Some 254, Some 8, None);
    ("Afternoon clouds", Some 5500, Some 180, Some 4, None);
    ("Heavy overcast", Some 5800, Some 130, Some 4, None);
    ("Cloud clear", Some 6000, Some 210, Some 8, None);
    ("Late afternoon", Some 4500, Some 180, Some 8, None);
    ("Sunset", Some 3000, Some 120, Some 8, None);
    ("Dusk", Some 2800, Some 60, Some 8, None);
    ("Night", Some 2700, Some 25, Some 8, None);
    ("TUNNEL ENTRY", Some 2700, Some 5, Some 0, Some f_three_halves);
    ("(in tunnel — no send)", None, None, None, Some f_three_halves);
    ("TUNNEL EXIT", Some 2700, Some 25, Some 0, Some f_three_halves);
    ("Return to night", Some 2700, Some 20, Some 8, None) ]%string.

(** The lines the sender prints, by what they report. *)
Inductive line : Type :=
  | LineSeparator
  | LineTitle
  | LineTarget (host : string) (port : Z)
  | LineZone (z : string)
  | LineSteps (total : Z)
  | LineSleep (default_sleep : float) (fast : bool)
  | LinePause (pause : bool)
  | LineStep (step_num total : Z) (label : string)
  | LinePauseOnly
  | LinePayload (text : string)
  | LineSent (host : string) (port : Z)
  | LineWaiting (sleep_secs : float)
  | LineAborted
  | LineComplete.

(** What the sender does, in order: [print], [sock.sendto], [time.sleep],
    [input] and [sock.close]. *)
Inductive action : Type :=
  | Say (l : line)
  | SendTo (data : list Byte.byte) (host : string) (port : Z)
  | Wait (sleep_secs : float)
  | AskEnter (label : string)
  | CloseSocket.

(** The datagrams among the actions, in order. *)
Definition packets (actions : list action) : list (list Byte.byte) :=
  flat_map (fun a => match a with SendTo data _ _ => [data] | _ => [] end)
    actions.

Definition _wait (sleep_secs : float) (pause : bool) (label : string)
    : list action :=
  if pause then [AskEnter label]
  else [Say (LineWaiting sleep_secs); Wait sleep_secs].

(** An [int | None] as the value [json.dumps] is given. *)
Definition json_of (v : option Z) : json :=
  match v with
  | Some n => JInt n
  | None => JNull
  end.

(** The [payload] dictionary of lines 80-85. *)
Definition payload_of (z : string) (kelvin : Z)
    (brightness transition : option Z) : json :=
  JObject (<["zone" := JString z]> (<["kelvin" := JInt kelvin]>
            (<["brightness" := json_of brightness]>
              (<["transition" := json_of transition]> ∅)))).

Definition send_step {sender_runtime : SenderRuntime}
    (host : string) (port : Z) (z : string) (step_num total : Z)
    (label : string) (kelvin brightness transition : option Z)
    (sleep_secs : float) (pause : bool) : list action :=
  Say (LineStep step_num total label) ::
  match kelvin with
  | None => Say LinePauseOnly :: _wait sleep_secs pause label
  | Some k =>
      let payload := payload_of z k brightness transition in
      let data := utf8_encode (json_dumps payload) in
      [Say (LinePayload (json_dumps payload)); SendTo data host port;
       Say (LineSent host port)]
      ++ _wait sleep_secs pause label
  end.

(** The parsed command line. *)
Record Namespace : Type := {
  arg_zone : string;
  arg_host : string;
  arg_port : Z;
  arg_fast : bool;
  arg_pause : bool
}.

(** The [for] loop of [run] over the rows from number [i] on. *)
Fixpoint cycle {sender_runtime : SenderRuntime} (args : Namespace)
    (default_sleep : float) (total : Z) (i : Z) (rows : list row)
    : list action :=
  match rows with
  | [] => []
  | (label, kelvin, brightness, transition, sleep_override) :: rest =>
      send_step (arg_host args) (arg_port args) (arg_zone args) i total
        label kelvin brightness transition
        (default default_sleep sleep_override) (arg_pause args)
      ++ cycle args default_sleep total (i + 1) rest
  end.

(** [run].  [stop] is where the [for] loop is cut short, if it is: the
    number of actions of the loop that complete and the exception raised
    in place of the next one (by the call itself, or [KeyboardInterrupt]
    from the terminal).  [KeyboardInterrupt] is caught, the socket is
    closed in any case, and any other exception leaves [run]. *)
Definition run {sender_runtime : SenderRuntime} (args : Namespace)
    (stop : option (nat * exn)) : res unit * list action :=
  let default_sleep := if arg_fast args then f_three_halves else f_three in
  let total_steps := Z.of_nat (length DAY_CYCLE) in
  let banner :=
    [Say LineSeparator; Say LineTitle;
     Say (LineTarget (arg_host args) (arg_port args));
     Say (LineZone (arg_zone args)); Say (LineSteps total_steps);
     Say (LineSleep default_sleep (arg_fast args));
     Say (LinePause (arg_pause args)); Say LineSeparator] in
  let loop := cycle args default_sleep total_steps 1 DAY_CYCLE in
  let footer := [Say LineSeparator; Say LineComplete; Say LineSeparator] in
  let completed := (Ok (), banner ++ loop ++ [CloseSocket] ++ footer) in
  match stop with
  | None => completed
  | Some (n, e) =>
      if (n <? length loop)%nat then
        match e with
        | KeyboardInterrupt =>
            (Ok (),
             banner ++ take n loop ++ [Say LineAborted; CloseSocket]
             ++ footer)
        | _ => (Raise e, banner ++ take n loop ++ [CloseSocket])
        end
      else completed
  end.

(** The command a row stands for, for a given zone: none on a row
    without kelvin, brightness or transition. *)
Definition row_command (z : string) (r : row) : option UdpCommand :=
  match r with
  | (_, Some k, Some b, Some t, _) =>
      Some {| zone := z; kelvin := k; brightness := b; transition := t |}
  | _ => None
  end.

(** The payloads of the rows that are sent. *)
Definition row_payload (z : string) (r : row) : option json :=
  match r with
  | (_, Some k, b, t, _) => Some (payload_of z k b t)
  | _ => None
  end.

End TestSender.

(** ** Fixtures for the examples

    Stand-ins for the Python runtime and the downstream client, used to
    run the definitions on concrete packets.  The decoder accepts ASCII
    only and the JSON reader knows the packets of [fixture_packets] and
    nothing else. *)

Definition json_command (z : string) (k b t : json) : json :=
  JObject (<["zone" := JString z]> (<["kelvin" := k]>
            (<["brightness" := b]> (<["transition" := t]> ∅)))).

Definition fixture_packets : list (string * json) :=
  [ ("noon", json_command "ceiling" (JInt 6500) (JInt 254) (JInt 8));
    ("noon2", json_command "ceiling" (JInt 6490) (JInt 250) (JInt 8));
    ("night", json_command "ceiling" (JInt 2700) (JInt 20) (JInt 0));
    ("inf", json_command "ceiling" (JFloat (S754_infinity false)) (JInt 1)
              (JInt 1));
    ("huge", json_command "ceiling" (JInt 4000) (JInt (10 ^ 400)) (JInt 8));
    ("extra", JObject (<["note" := JNull]>
                (<["zone" := JString "ceiling"]> (<["kelvin" := JInt 3000]>
                  (<["brightness" := JInt 7]>
                    (<["transition" := JString "8"]> ∅))))));
    ("nokelvin", JObject (<["zone" := JString "ceiling"]>
                   (<["brightness" := JInt 7]>
                     (<["transition" := JInt 8]> ∅))));
    ("attic", json_command "attic" (JInt 3000) (JInt 7) (JInt 8));
    ("list", JArray [JInt 1]) ]%string.

Fixpoint assoc {A : Type} (l : list (string * A)) (key : string) : option A :=
  match l with
  | [] => None
  | (k, v) :: rest => if String.eqb k key then Some v else assoc rest key
  end.

Definition fixture_runtime : PyRuntime :=
  {| utf8_decode := fun data =>
       if forallb (fun b => (Byte.to_N b <? 128)%N) data
       then Some (String.string_of_list_byte data) else None;
     json_loads := fun text =>
       match assoc fixture_packets text with
       | Some v => Ok v
       | None => Raise JSONDecodeError
       end;
     int_of_str := fun s => if String.eqb s "8" then Some 8 else None;
     repr := fun _ => "?"%string |}.

Definition packet (text : string) : list Byte.byte :=
  String.list_byte_of_string text.

(** A client whose every call fails, and one whose every call succeeds and
    is counted. *)
Inductive dead_client : Type := DeadClient.

Definition dead_client_sends : MatterClient dead_client :=
  {| send_device_command := fun c _ _ _ => (Raise ConnectionFailed, c) |}.

Record live_client : Type := { served : nat }.

Definition live_client_sends : MatterClient live_client :=
  {| send_device_command := fun c _ _ _ =>
       (Ok (), {| served := S (served c) |}) |}.

Definition ceiling : ZoneConfig :=
  {| name := "ceiling"; node_ids := [11; 12]; endpoint_id := 1;
     brightness_multiplier := f_one; min_kelvin := 2700;
     max_kelvin := 6500 |}.

(** The defaults of [load_config] with one zone of two bulbs. *)
Definition fixture_config : BridgeConfig :=
  {| reconnect_initial_delay := f_two;
     reconnect_max_delay := f_sixty;
     reconnect_multiplier := f_two;
     dedup_mireds_threshold := 10;
     dedup_brightness_threshold := 5;
     zones := {[ "ceiling"%string := ceiling ]} |}.

(** A configuration whose initial delay is larger than its maximum. *)
Definition eager_config : BridgeConfig :=
  {| reconnect_initial_delay := f_hundred;
     reconnect_max_delay := f_sixty;
     reconnect_multiplier := f_two;
     dedup_mireds_threshold := 10;
     dedup_brightness_threshold := 5;
     zones := {[ "ceiling"%string := ceiling ]} |}.


(** The bridge over the counting client and the fixture runtime. *)
Definition live_start (config : BridgeConfig) : bridge live_client :=
  run_bridge config false.
Definition live_step :=
  @step live_client live_client_sends fixture_runtime.
Definition live_run :=
  @run live_client live_client_sends fixture_runtime.
Definition live_dispatched :=
  @dispatched live_client live_client_sends fixture_runtime.
Definition live_enqueued :=
  @enqueued live_client live_client_sends fixture_runtime.

Definition night : UdpCommand :=
  {| zone := "ceiling"; kelvin := 2700; brightness := 20; transition := 0 |}.

Definition noon : UdpCommand :=
  {| zone := "ceiling"; kelvin := 6500; brightness := 254; transition := 8 |}.

(** Two configuration files: one with a zone whose bounds are the wrong
    way round next to a zone of defaults, and one whose second zone has no
    bulbs. *)
Definition fixture_yaml : yaml :=
  YMap [ ("reconnect_max_delay", YInt 30);
         ("zones",
          YMap [ ("ceiling",
                  YMap [ ("node_ids", YSeq [YInt 11; YInt 12]);
                         ("min_kelvin", YInt 6500);
                         ("max_kelvin", YInt 0) ]);
                 ("desk", YMap [("node_ids", YSeq [YStr "8"])]) ]) ]%string.

Definition broken_yaml : yaml :=
  YMap [ ("zones",
          YMap [ ("ceiling", YMap [("node_ids", YSeq [YInt 11])]);
                 ("desk", YMap [("node_ids", YSeq [])]) ]) ]%string.

Definition fixture_files : list (string * yaml) :=
  [("config.yaml", fixture_yaml); ("broken.yaml", broken_yaml)]%string.

Definition fixture_config_runtime : ConfigRuntime :=
  {| path_exists := fun path =>
       match assoc fixture_files path with
       | Some _ => true
       | None => false
       end;
     yaml_safe_load := fun path =>
       match assoc fixture_files path with
       | Some v => Ok v
       | None => Raise FileNotFoundError
       end;
     float_of_str := fun _ => None |}.

Definition fixture_load_config :=
  @load_config fixture_runtime fixture_config_runtime.

(** A sender and a receiver that understand each other on the payloads
    of the day cycle for the zone [ceiling], and on one payload without a
    brightness: the text of a payload is its three numbers, and the reader
    is the table of the texts so produced. *)
Definition number_text (v : json) : string :=
  match v with
  | JInt n => pretty n
  | _ => "null"
  end.

Definition loopback_sender : TestSender.SenderRuntime :=
  {| TestSender.json_dumps := fun v =>
       match v with
       | JObject d =>
           number_text (default JNull (d !! "kelvin"%string)) +:+ ","
           +:+ number_text (default JNull (d !! "brightness"%string)) +:+ ","
           +:+ number_text (default JNull (d !! "transition"%string))
       | _ => "null"
       end;
     TestSender.utf8_encode := String.list_byte_of_string |}.

Definition loopback_payloads : list json :=
  omap (TestSender.row_payload "ceiling")
    (TestSender.DAY_CYCLE
     ++ [("No brightness"%string, Some 3000, None, Some 8, None)]).

Definition loopback_runtime : PyRuntime :=
  {| utf8_decode := fun data => Some (String.string_of_list_byte data);
     json_loads := fun text =>
       match
         assoc
           (map (fun v => (@TestSender.json_dumps loopback_sender v, v))
              loopback_payloads) text
       with
       | Some v => Ok v
       | None => Raise JSONDecodeError
       end;
     int_of_str := fun _ => None;
     repr := fun _ => "?"%string |}.

Definition default_args : TestSender.Namespace :=
  {| TestSender.arg_zone := "ceiling";
     TestSender.arg_host := "127.0.0.1";
     TestSender.arg_port := 10001;
     TestSender.arg_fast := false;
     TestSender.arg_pause := false |}.

(** ** Predicates used in the statements *)

(** The queue of [run_bridge]: capacity 100, never more than 100 items. *)
Definition queue_ok (q : Queue UdpCommand) : Prop :=
  maxsize q = 100 /\ qsize q <= 100.

Section DispatchPredicates.
Context {C : Type} {client_ops : MatterClient C}.

(** The client raises nothing but [Exception]s (no cancellation). *)
Definition only_Exceptions : Prop :=
  forall (c : C) (node_id endpoint_id : Z) (command : matter_command)
         (e : exn),
    fst (send_device_command c node_id endpoint_id command) = Raise e ->
    is_Exception e = true.

(** The two calls the bridge makes for one bulb. *)
Definition bulb_calls (endpoint_id mireds brightness transition node_id : Z)
    : list effect :=
  [DeviceCommand node_id endpoint_id
     (MoveToColorTemperature mireds transition 1 1);
   DeviceCommand node_id endpoint_id
     (MoveToLevelWithOnOff brightness transition 0 0)].

End DispatchPredicates.



(** The delay is the configured initial one, or not above the maximum. *)
Definition delay_ok (config : BridgeConfig) (d : float) : Prop :=
  d = reconnect_initial_delay config
  \/ fltb (reconnect_max_delay config) d = false.

(** The connection errors after which the loop retries. *)
Definition recoverable (e : exn) : bool :=
  match e with
  | CannotConnect | ConnectionFailed | ConnectionResetError => true
  | _ => false
  end.

(** [x] is not a NaN and its sign bit is [s]. *)
Definition has_sign (s : bool) (x : float) : Prop :=
  match x with
  | S754_zero s' | S754_infinity s' | S754_finite s' _ _ => s' = s
  | S754_nan => False
  end.

(** A client whose first call is cancelled ([CancelledError] is not an
    [Exception]); the calls after it succeed. *)
Record interrupted_client : Type := { calls_seen : nat }.

Definition interrupted_client_sends : MatterClient interrupted_client :=
  {| send_device_command := fun c _ _ _ =>
       (match calls_seen c with
        | O => Raise CancelledError
        | S _ => Ok ()
        end, {| calls_seen := S (calls_seen c) |}) |}.

(** The zone names the bridge works with are those of the
    configuration: every zone has a state, and every queued command names
    a configured zone. *)
Definition zones_consistent {C : Type} (config : BridgeConfig) (b : bridge C)
    : Prop :=
  dom (zone_states b) = dom (zones config)
  /\ Forall (fun cmd => zone cmd ∈ dom (zones config)) (items (queue b)).

(** A bridge in dry-run mode that has made no downstream call. *)
Definition dry {C : Type} (b : bridge C) : Prop :=
  (at_phase b = DryRun \/ exists t, at_phase b = Exited t)
  /\ device_commands (trace b) = [].

(** The defects of a zone entry that [load_config] reports itself: the
    entry is no mapping, or its [node_ids] is missing or is no non-empty
    list. *)
Definition zone_defect (zone_data : yaml) : Prop :=
  match zone_data with
  | YMap d =>
      match dict_get d "node_ids" with
      | Some (YSeq (_ :: _)) => False
      | _ => True
      end
  | _ => True
  end.

(** The defects of a file that [load_config] reports itself: the document
    is no mapping, [zones] is missing or is no non-empty mapping, or the
    first zone that does not load has a [zone_defect]. *)
Definition config_defect {runtime : PyRuntime}
    {config_runtime : ConfigRuntime} (raw : yaml) : Prop :=
  match raw with
  | YMap d =>
      match dict_get d "zones" with
      | Some (YMap (first :: others)) =>
          exists good z zd rest,
            first :: others = good ++ (z, zd) :: rest
            /\ Forall (fun p => returns (load_zone p.1 p.2) = true) good
            /\ zone_defect zd
      | _ => True
      end
  | _ => True
  end.

(** How a numeric setting [v] relates to the mapping [d] it was loaded
    from: an integer or float written in the file is taken as it is (an
    integer written for a float setting is converted), and a key left out
    gives the fallback. *)
Definition int_setting (d : list (string * yaml)) (key : string)
    (fallback v : Z) : Prop :=
  (forall n, dict_get d key = Some (YInt n) -> v = n)
  /\ (dict_get d key = None -> v = fallback).

Definition float_setting (d : list (string * yaml)) (key : string)
    (fallback v : float) : Prop :=
  (forall x, dict_get d key = Some (YFloat x) -> v = x)
  /\ (forall n, dict_get d key = Some (YInt n) -> float_of_int n = Ok v)
  /\ (dict_get d key = None -> v = fallback).

(** The bridge's decoder undoes the sender's encoder on [payload]. *)
Definition round_trip {runtime : PyRuntime}
    {sender_runtime : TestSender.SenderRuntime} (payload : json) : Prop :=
  utf8_decode (TestSender.utf8_encode (TestSender.json_dumps payload))
  = Some (TestSender.json_dumps payload)
  /\ json_loads (TestSender.json_dumps payload) = Ok payload.

(** The listener takes [data] for the command [cmd] and logs the packet
    only. *)
Definition decodes_to {runtime : PyRuntime} (known_zones : gset string)
    (data : list Byte.byte) (cmd : UdpCommand) : Prop :=
  decode_command known_zones data
  = (Ok (Some cmd), [Log DEBUG (MsgUdpPacket (length data))]).

(** The commands printed in dry-run mode, in order. *)
Definition printed_commands (tr : list effect) : list UdpCommand :=
  flat_map
    (fun ev => match ev with Print cmd _ _ _ _ => [cmd] | _ => [] end) tr.

(** Consecutive brightness values, starting from [previous], differ by
    at least [threshold] and lie within the Matter level range. *)
Fixpoint spaced (threshold previous : Z) (cmds : list UdpCommand) : Prop :=
  match cmds with
  | [] => True
  | cmd :: rest =>
      threshold <= Z.abs (brightness cmd - previous)
      /\ 0 <= brightness cmd <= 254
      /\ spaced threshold (brightness cmd) rest
  end.

(** * Properties *)

Example int_str_limit_is_10_pow_4300 : int_str_limit = 10 ^ 4300.
Proof. vm_compute. reflexivity. Qed.

Example f_one_is_float_1 : float_of_int 1 = Ok f_one.
Proof. reflexivity. Qed.
Example f_two_is_float_2 : float_of_int 2 = Ok f_two.
Proof. reflexivity. Qed.
Example f_sixty_is_float_60 : float_of_int 60 = Ok f_sixty.
Proof. reflexivity. Qed.
Example f_hundred_is_float_100 : float_of_int 100 = Ok f_hundred.
Proof. reflexivity. Qed.
Example clamp_254 : clamp_brightness 254 f_one = Ok 254.
Proof. reflexivity. Qed.
Example k6500 : kelvin_to_mireds 6500 2700 6500 = Ok 153.
Proof. reflexivity. Qed.
Example kelvin_to_mireds_agrees_with_binary64 :
  forallb
    (fun k =>
       match kelvin_to_mireds k 1 10000, kelvin_to_mireds_binary64 k 1 10000
       with
       | Ok m, Ok m' => m =? m'
       | _, _ => false
       end)
    (map Z.of_nat (seq 0 (Z.to_nat 10002)))
  = true.
Proof. vm_compute. reflexivity. Qed.
Example clamp_brightness_unit_multiplier :
  forallb
    (fun raw =>
       match clamp_brightness raw f_one with
       | Ok v => v =? Z.max 0 (Z.min 254 raw)
       | Raise _ => false
       end)
    (map (fun n => Z.of_nat n - 500) (seq 0 1500))
  = true.
Proof. vm_compute. reflexivity. Qed.
Example clamp_brightness_truncates_toward_zero :
  let f_1_5 := S754_finite false 6755399441055744 (-52) in
  clamp_brightness 5 f_1_5 = Ok 7
  /\ clamp_brightness 201 f_1_5 = Ok 254
  /\ clamp_brightness (-5) f_1_5 = Ok 0
  /\ int_of_float (fmul (S754_finite true 5629499534213120 (-50)) f_1_5)
     = Ok (-7).
Proof. vm_compute. repeat split. Qed.
Example k6500_spec : spec_colorTemperatureToProtocolUnits 6500 2700 6500 = 154.
Proof. reflexivity. Qed.

(** ** The unit converters *)

Lemma clamp_kelvin_range (kelvin mn mx : Z) :
  mn <= mx -> mn <= Z.max mn (Z.min mx kelvin) <= mx.
Proof. lia. Qed.

Lemma kelvin_to_mireds_positive (kelvin mn mx : Z) :
  0 < mn ->
  kelvin_to_mireds kelvin mn mx = Ok (1000000 / Z.max mn (Z.min mx kelvin)).
Proof.
  intros Hmn. unfold kelvin_to_mireds.
  destruct (Z.eqb_spec (Z.max mn (Z.min mx kelvin)) 0) as [E|_]; [lia|].
  f_equal. apply Z.quot_div_nonneg; lia.
Qed.

Lemma kelvin_to_mireds_nonneg (kelvin mn mx m : Z) :
  0 < mn -> kelvin_to_mireds kelvin mn mx = Ok m -> 0 <= m.
Proof.
  intros Hmn. rewrite kelvin_to_mireds_positive by assumption.
  intros [= <-]. apply Z.div_pos; lia.
Qed.

Lemma round_half_even_div_bounds (a b : Z) :
  0 < b -> a / b <= round_half_even_div a b <= a / b + 1.
Proof.
  intros Hb. unfold round_half_even_div.
  repeat match goal with |- context [if ?c then _ else _] => destruct c end;
    lia.
Qed.

(** C1 (counterexample): with bounds 2700..6500 and 6500 K the code returns
    153, not the rounded value 154 the claim gives. *)
Lemma kelvin_to_mireds_6500_is_153 :
  kelvin_to_mireds 6500 2700 6500 = Ok 153
  /\ spec_colorTemperatureToProtocolUnits 6500 2700 6500 = 154
  /\ kelvin_to_mireds 6500 2700 6500
     <> Ok (spec_colorTemperatureToProtocolUnits 6500 2700 6500).
Proof. repeat split; vm_compute; congruence. Qed.

(** C1 (amended): for bounds [0 < minKelvin <= maxKelvin] the conversion
    clamps kelvin into the bounds and returns the quotient
    [1_000_000 / clamped] rounded down (truncated), which is the rounded
    value of the claim or one less. *)
Theorem kelvin_to_mireds_truncates (kelvin minKelvin maxKelvin : Z) :
  0 < minKelvin -> minKelvin <= maxKelvin ->
  let clamped := Z.max minKelvin (Z.min maxKelvin kelvin) in
  minKelvin <= clamped <= maxKelvin
  /\ kelvin_to_mireds kelvin minKelvin maxKelvin = Ok (1000000 / clamped)
  /\ 1000000 / clamped
       <= spec_colorTemperatureToProtocolUnits kelvin minKelvin maxKelvin
       <= 1000000 / clamped + 1.
Proof.
  intros Hmin Hle clamped. split; [|split].
  - subst clamped. lia.
  - apply kelvin_to_mireds_positive. assumption.
  - apply round_half_even_div_bounds. subst clamped. lia.
Qed.

Lemma kelvin_to_mireds_truncates_witness :
  2700 <= Z.max 2700 (Z.min 6500 6500) <= 6500
  /\ kelvin_to_mireds 6500 2700 6500 = Ok 153
  /\ 153 <= spec_colorTemperatureToProtocolUnits 6500 2700 6500 <= 153 + 1.
Proof.
  apply (kelvin_to_mireds_truncates 6500 2700 6500); lia.
Defined.

Lemma clamp_level_range (v : Z) : 0 <= Z.max 0 (Z.min 254 v) <= 254.
Proof. lia. Qed.

Lemma int_of_float_finite (x : float) :
  is_finite x = true -> exists p, int_of_float x = Ok p.
Proof. destruct x; simpl; intros; try discriminate; eauto. Qed.

Lemma int_of_float_returns (x : float) (p : Z) :
  int_of_float x = Ok p -> is_finite x = true.
Proof. destruct x; simpl; intros; try discriminate; reflexivity. Qed.

Lemma clamp_brightness_inv (raw : Z) (multiplier : float) (v : Z) :
  clamp_brightness raw multiplier = Ok v ->
  exists x p, float_of_int raw = Ok x
    /\ int_of_float (fmul x multiplier) = Ok p
    /\ v = Z.max 0 (Z.min 254 p).
Proof.
  unfold clamp_brightness. destruct (float_of_int raw) as [x|e]; simpl;
    [|discriminate].
  destruct (int_of_float (fmul x multiplier)) as [p|e] eqn:E; simpl;
    [|discriminate].
  intros [= <-]. eauto.
Qed.

Lemma clamp_brightness_range (raw : Z) (multiplier : float) (v : Z) :
  clamp_brightness raw multiplier = Ok v -> 0 <= v <= 254.
Proof.
  intros (x & p & _ & _ & ->)%clamp_brightness_inv. apply clamp_level_range.
Qed.

(** ** Integers too large for a float *)

Lemma digits2_pos_bounds (m : positive) :
  2 ^ (Z.pos (digits2_pos m) - 1) <= Z.pos m < 2 ^ Z.pos (digits2_pos m).
Proof.
  induction m as [q IH|q IH|]; cbn [digits2_pos].
  - rewrite Pos2Z.inj_succ. change (Z.pos q~1) with (2 * Z.pos q + 1).
    replace (Z.succ (Z.pos (digits2_pos q)) - 1)
      with (Z.succ (Z.pos (digits2_pos q) - 1)) by lia.
    rewrite !Z.pow_succ_r by lia. lia.
  - rewrite Pos2Z.inj_succ. change (Z.pos q~0) with (2 * Z.pos q).
    replace (Z.succ (Z.pos (digits2_pos q)) - 1)
      with (Z.succ (Z.pos (digits2_pos q) - 1)) by lia.
    rewrite !Z.pow_succ_r by lia. lia.
  - simpl. lia.
Qed.

Lemma shr_1_halves (mrs : shr_record) :
  0 <= shr_m mrs -> shr_m (shr_1 mrs) = shr_m mrs / 2.
Proof.
  destruct mrs as [m r s]. cbn [shr_m]. intros Hm.
  rewrite <- Z.div2_div.
  destruct m as [|[q|q|]|q]; try reflexivity. lia.
Qed.

Lemma iter_shr_1_divides (p : positive) (mrs : shr_record) :
  0 <= shr_m mrs ->
  shr_m (SpecFloat.iter_pos shr_1 p mrs) = shr_m mrs / 2 ^ Z.pos p.
Proof.
  revert mrs. induction p as [p IH|p IH|]; intros mrs Hm;
    cbn [SpecFloat.iter_pos].
  - assert (H1 : 0 <= shr_m (shr_1 mrs))
      by (rewrite shr_1_halves by exact Hm; apply Z.div_pos; lia).
    assert (H2 : 0 <= shr_m (SpecFloat.iter_pos shr_1 p (shr_1 mrs)))
      by (rewrite IH by exact H1; apply Z.div_pos; [exact H1|];
          apply Z.pow_pos_nonneg; lia).
    rewrite (IH _ H2), (IH _ H1), shr_1_halves by exact Hm.
    rewrite !Z.div_div
      by first [apply Z.pow_pos_nonneg; lia|apply Z.pow_nonzero; lia|lia].
    f_equal. change (Z.pos p~1) with (2 * Z.pos p + 1).
    replace (2 * Z.pos p + 1) with (1 + Z.pos p + Z.pos p) by lia.
    rewrite !Z.pow_add_r by lia. change (2 ^ 1) with 2. ring.
  - assert (H1 : 0 <= shr_m (SpecFloat.iter_pos shr_1 p mrs))
      by (rewrite IH by exact Hm; apply Z.div_pos; [exact Hm|];
          apply Z.pow_pos_nonneg; lia).
    rewrite (IH _ H1), (IH _ Hm).
    rewrite !Z.div_div
      by first [apply Z.pow_pos_nonneg; lia|apply Z.pow_nonzero; lia|lia].
    f_equal. change (Z.pos p~0) with (2 * Z.pos p).
    replace (2 * Z.pos p) with (Z.pos p + Z.pos p) by lia.
    rewrite Z.pow_add_r by lia. ring.
  - rewrite shr_1_halves by exact Hm. reflexivity.
Qed.

(** A positive mantissa stays positive through [shr_fexp], and the
    exponent comes out at or above both the one that went in and the one
    the format asks for. *)
Lemma shr_fexp_positive (m : positive) (e : Z) (l : location) :
  SpecFloat.emin prec emax <= Z.pos (digits2_pos m) + e - prec ->
  let '(mrs, e') := shr_fexp prec emax (Z.pos m) e l in
  0 < shr_m mrs /\ e <= e' /\ Z.pos (digits2_pos m) + e - prec <= e'.
Proof.
  intros Hmin. unfold shr_fexp, fexp. cbn [Zdigits2].
  rewrite Z.max_l by exact Hmin.
  assert (Hrec : shr_m (shr_record_of_loc (Z.pos m) l) = Z.pos m)
    by (destruct l as [|[]]; reflexivity).
  destruct (Z.pos (digits2_pos m) + e - prec - e) as [|n|n] eqn:Hn;
    cbn [shr].
  - rewrite Hrec. lia.
  - rewrite iter_shr_1_divides by (rewrite Hrec; lia). rewrite Hrec.
    split; [|lia].
    pose proof (digits2_pos_bounds m) as [Hlow _].
    assert (Hle : 2 ^ Z.pos n <= Z.pos m).
    { etransitivity; [|exact Hlow]. apply Z.pow_le_mono_r; [lia|].
      unfold prec in Hn. lia. }
    apply Z.div_str_pos. split; [apply Z.pow_pos_nonneg; lia|exact Hle].
  - rewrite Hrec. lia.
Qed.

Lemma round_nearest_even_grows (m : Z) (l : location) :
  m <= round_nearest_even m l.
Proof. destruct l as [|[]]; simpl; try lia. destruct (Z.even m); lia. Qed.

(** An [int] of 2^1024 or more, of either sign, is too large for a
    float. *)
Lemma float_of_int_overflows (n : Z) :
  2 ^ 1024 <= Z.abs n -> float_of_int n = Raise OverflowError.
Proof.
  intros Hn. unfold float_of_int, binary_normalize.
  assert (Hround : forall (s : bool) (m : positive),
             2 ^ 1024 <= Z.pos m ->
             binary_round prec emax s m 0 = S754_infinity s).
  { intros s m Hm. unfold binary_round.
    pose proof (digits2_pos_bounds m) as [_ Hup].
    assert (Hd : 1025 <= Z.pos (digits2_pos m)).
    { destruct (Z.le_gt_cases 1025 (Z.pos (digits2_pos m))) as [H|H];
        [exact H|].
      assert (2 ^ Z.pos (digits2_pos m) <= 2 ^ 1024)
        by (apply Z.pow_le_mono_r; lia).
      lia. }
    assert (Halign : shl_align m 0
                       (fexp prec emax (Z.pos (digits2_pos m) + 0))
                     = (m, 0)).
    { unfold shl_align, fexp, SpecFloat.emin, prec, emax.
      destruct (Z.max (Z.pos (digits2_pos m) + 0 - 53) (3 - 1024 - 53) - 0)
        eqn:H; try reflexivity. lia. }
    rewrite Halign. unfold binary_round_aux.
    pose proof (shr_fexp_positive m 0 loc_Exact) as H1.
    destruct (shr_fexp prec emax (Z.pos m) 0 loc_Exact) as [mrs1 e1].
    destruct H1 as (Hm1 & _ & He1);
      [unfold SpecFloat.emin, prec, emax; lia|].
    pose proof (round_nearest_even_grows (shr_m mrs1)
                  (loc_of_shr_record mrs1)) as Hgrow.
    destruct (round_nearest_even (shr_m mrs1) (loc_of_shr_record mrs1))
      as [|m2|m2] eqn:Hm2; try lia.
    pose proof (shr_fexp_positive m2 e1 loc_Exact) as H2.
    destruct (shr_fexp prec emax (Z.pos m2) e1 loc_Exact) as [mrs2 e2].
    destruct H2 as (Hpos2 & He2 & _);
      [unfold SpecFloat.emin, prec, emax in *; lia|].
    destruct (shr_m mrs2) as [|m3|m3]; try lia.
    destruct (Z.leb_spec e2 (emax - prec)) as [Hle|_]; [|reflexivity].
    unfold prec, emax in *. lia. }
  destruct n as [|m|m]; simpl in Hn.
  - assert (0 < 2 ^ 1024) by (apply Z.pow_pos_nonneg; lia). lia.
  - rewrite (Hround false m Hn). reflexivity.
  - rewrite (Hround true m Hn). reflexivity.
Qed.

(** [int_of_float] is the truncation toward zero: the result has the
    sign of the float and its magnitude is the largest integer not above
    the magnitude [m * 2 ^ e] of the float. *)
Lemma int_of_float_truncates (s : bool) (m : positive) (e : Z) (p : Z) :
  int_of_float (S754_finite s m e) = Ok p ->
  (if s then p <= 0 else 0 <= p)
  /\ (0 <= e -> Z.abs p = Z.pos m * 2 ^ e)
  /\ (e < 0 ->
      Z.abs p * 2 ^ (- e) <= Z.pos m < (Z.abs p + 1) * 2 ^ (- e)).
Proof.
  cbn [int_of_float]. intros [= <-].
  destruct (Z.leb_spec 0 e) as [He|He].
  - assert (0 <= Z.pos m * 2 ^ e)
      by (apply Z.mul_nonneg_nonneg; [lia|apply Z.pow_nonneg; lia]).
    destruct s; cbn [cond_Zopp]; repeat split; lia.
  - assert (Hd : 0 < 2 ^ (- e)) by (apply Z.pow_pos_nonneg; lia).
    pose proof (Z.mul_div_le (Z.pos m) (2 ^ (- e)) Hd).
    pose proof (Z.mul_succ_div_gt (Z.pos m) (2 ^ (- e)) Hd).
    assert (0 <= Z.pos m / 2 ^ (- e)) by (apply Z.div_pos; lia).
    destruct s; cbn [cond_Zopp]; repeat split; try lia;
      intros _; rewrite ?Z.abs_opp, Z.abs_eq by lia; split; lia.
Qed.

(** C9 (the failing inputs): a raw brightness of [2 ^ 1024] or more, of
    either sign, makes [clamp_brightness] raise [OverflowError] under
    every multiplier, zero included, instead of clamping into
    [0, 254]. *)
Theorem clamp_brightness_oversized (raw : Z) (multiplier : float) :
  2 ^ 1024 <= Z.abs raw ->
  clamp_brightness raw multiplier = Raise OverflowError.
Proof.
  intros Hraw. unfold clamp_brightness.
  rewrite (float_of_int_overflows raw Hraw). reflexivity.
Qed.

Lemma clamp_brightness_oversized_witness :
  clamp_brightness (10 ^ 400) f_one = Raise OverflowError.
Proof.
  apply (clamp_brightness_oversized (10 ^ 400) f_one).
  apply Z.leb_le. vm_compute. reflexivity.
Defined.

(** The packet value used below: a non-negative raw value too large for
    a float makes the function raise instead of returning a value in
    [0, 254]. *)
Lemma clamp_brightness_overflows :
  0 <= 10 ^ 400
  /\ SFleb (S754_zero false) f_one = true
  /\ clamp_brightness (10 ^ 400) f_one = Raise OverflowError
  /\ ~ (exists v, clamp_brightness (10 ^ 400) f_one = Ok v /\ 0 <= v <= 254).
Proof.
  assert (E : clamp_brightness (10 ^ 400) f_one = Raise OverflowError)
    by (vm_compute; reflexivity).
  split; [apply Z.pow_nonneg; lia|].
  split; [reflexivity|].
  split; [exact E|].
  intros (v & Hv & _). rewrite E in Hv. discriminate.
Qed.

(** What the function does otherwise: it multiplies in binary64,
    truncates toward zero and clamps.  Whenever [float(raw)] exists and
    the product is finite it returns, and every value it returns lies in
    [0, 254]; it returns in no other case. *)
Theorem clamp_brightness_finite (raw : Z) (multiplier : float) :
  (forall x, float_of_int raw = Ok x ->
     is_finite (fmul x multiplier) = true ->
     exists p, int_of_float (fmul x multiplier) = Ok p
       /\ clamp_brightness raw multiplier = Ok (Z.max 0 (Z.min 254 p))
       /\ 0 <= Z.max 0 (Z.min 254 p) <= 254)
  /\ (forall v, clamp_brightness raw multiplier = Ok v ->
        0 <= v <= 254
        /\ exists x, float_of_int raw = Ok x
             /\ is_finite (fmul x multiplier) = true).
Proof.
  split.
  - intros x Hx Hfin. destruct (int_of_float_finite _ Hfin) as [p Hp].
    exists p. split; [assumption|]. split; [|apply clamp_level_range].
    unfold clamp_brightness. rewrite Hx. simpl. rewrite Hp. reflexivity.
  - intros v Hv. split; [eapply clamp_brightness_range; eassumption|].
    destruct (clamp_brightness_inv _ _ _ Hv) as (x & p & Hx & Hp & _).
    exists x. split; [assumption|]. eapply int_of_float_returns; eassumption.
Qed.

Lemma clamp_brightness_finite_witness :
  exists p, int_of_float (fmul (binary_normalize prec emax 254 0 false) f_one)
            = Ok p
    /\ clamp_brightness 254 f_one = Ok (Z.max 0 (Z.min 254 p))
    /\ 0 <= Z.max 0 (Z.min 254 p) <= 254.
Proof.
  apply (proj1 (clamp_brightness_finite 254 f_one)
           (binary_normalize prec emax 254 0 false));
    vm_compute; reflexivity.
Defined.

(** ** The command queue *)

Lemma enqueue_spec (q : Queue UdpCommand) (cmd : UdpCommand) :
  0 < maxsize q -> qsize q <= maxsize q ->
  exists q', fst (enqueue q cmd) = Ok q'
    /\ maxsize q' = maxsize q
    /\ items q' =
         (if qsize q =? maxsize q then tail (items q) else items q) ++ [cmd].
Proof.
  intros Hpos Hle. unfold enqueue, put_nowait, full.
  destruct (Z.leb_spec (maxsize q) 0) as [?|_]; [lia|].
  destruct (Z.leb_spec (maxsize q) (qsize q)) as [Hfull|Hroom].
  - assert (Heq : qsize q = maxsize q) by lia.
    rewrite Heq, Z.eqb_refl. unfold get_nowait.
    destruct q as [m [|x rest]]; unfold qsize in *; simpl in *; [lia|].
    unfold full; simpl. unfold qsize; simpl.
    destruct (Z.leb_spec m 0) as [?|_]; [lia|].
    destruct (Z.leb_spec m (Z.of_nat (length rest))) as [?|_]; [lia|].
    eexists. repeat split.
  - destruct (Z.eqb_spec (qsize q) (maxsize q)) as [?|_]; [lia|].
    simpl. eexists. repeat split.
Qed.

Lemma enqueue_sublist (q q' : Queue UdpCommand) (cmd : UdpCommand) :
  fst (enqueue q cmd) = Ok q' ->
  maxsize q' = maxsize q
  /\ exists kept, items q' = kept ++ [cmd] /\ kept `sublist_of` items q.
Proof.
  unfold enqueue, put_nowait.
  destruct (full q) eqn:Hfull; simpl.
  - unfold get_nowait. destruct (items q) as [|x rest] eqn:Hitems; simpl.
    + rewrite Hfull. discriminate.
    + unfold mbind, res_bind, put_nowait.
      destruct (full {| maxsize := maxsize q; items := rest |});
        [intros [=]|].
      intros [= <-]. simpl. split; [reflexivity|].
      exists rest. split; [reflexivity|]. apply sublist_cons. reflexivity.
  - intros [= <-]. simpl. split; [reflexivity|].
    exists (items q). split; reflexivity.
Qed.

Lemma enqueue_ok (q : Queue UdpCommand) (cmd : UdpCommand) :
  queue_ok q ->
  exists q', fst (enqueue q cmd) = Ok q' /\ queue_ok q'
    /\ items q' =
         (if qsize q =? 100 then tail (items q) else items q) ++ [cmd].
Proof.
  intros [Hmax Hsize].
  destruct (enqueue_spec q cmd) as (q' & Hq' & Hm & Hitems); [lia..|].
  rewrite Hmax in Hitems. exists q'. split; [assumption|].
  split; [|assumption]. split; [lia|].
  unfold qsize in *. rewrite Hitems, length_app. simpl.
  destruct (Z.eqb_spec (Z.of_nat (length (items q))) 100) as [E|E].
  - destruct (items q); simpl in *; lia.
  - lia.
Qed.

Lemma drain_loop_empties {A : Type} (fuel : nat) (q : Queue A) (count : Z) :
  (length (items q) < fuel)%nat ->
  drain_loop fuel q count
  = ({| maxsize := maxsize q; items := [] |},
     count + Z.of_nat (length (items q))).
Proof.
  revert q count. induction fuel as [|fuel IH]; intros q count Hlt; [lia|].
  destruct q as [m [|x rest]]; simpl in *.
  - f_equal. lia.
  - unfold get_nowait; simpl. rewrite IH by (simpl; lia). simpl.
    f_equal. lia.
Qed.

Lemma _drain_queue_empties {A : Type} (q : Queue A) :
  exists tr,
    _drain_queue q
    = ({| maxsize := maxsize q; items := [] |},
       Z.of_nat (length (items q)), tr).
Proof.
  unfold _drain_queue. rewrite drain_loop_empties by lia. simpl.
  eexists. reflexivity.
Qed.

(** ** Floats: the cap of the backoff delay *)

Lemma fltb_irrefl (x : float) : fltb x x = false.
Proof.
  unfold fltb, SFltb. destruct x as [s|s| |s m e]; simpl; try reflexivity.
  - destruct s; reflexivity.
  - destruct s; rewrite Z.compare_refl, Pos.compare_cont_refl; reflexivity.
Qed.

Lemma py_min_not_above (a cap : float) : fltb cap (py_min a cap) = false.
Proof.
  unfold py_min. destruct (fltb cap a) eqn:E; [apply fltb_irrefl | exact E].
Qed.

(** ** One zone command *)

Section DispatchFacts.
Context {C : Type} {client_ops : MatterClient C}.

Lemma device_commands_app (tr1 tr2 : list effect) :
  device_commands (tr1 ++ tr2) = device_commands tr1 ++ device_commands tr2.
Proof. unfold device_commands. apply filter_app. Qed.

Lemma guarded_call_caught (c : C) (node_id endpoint_id : Z)
    (command : matter_command) (ok : log_msg) (failed : exn -> log_msg) :
  only_Exceptions ->
  exists c' tr,
    guarded_call (Some c) node_id endpoint_id command ok failed
    = (Ok (), Some c', tr)
    /\ device_commands tr = [DeviceCommand node_id endpoint_id command].
Proof.
  intros Hexn. unfold guarded_call, call_client.
  destruct (send_device_command c node_id endpoint_id command)
    as [r c'] eqn:E.
  destruct r as [[]|e].
  - eexists _, _. split; reflexivity.
  - assert (He : is_Exception e = true).
    { apply (Hexn c node_id endpoint_id command). rewrite E. reflexivity. }
    rewrite He. eexists _, _. split; reflexivity.
Qed.

Lemma _send_to_bulb_both_calls (c : C)
    (node_id endpoint_id mireds brightness transition : Z) :
  only_Exceptions ->
  exists c' tr,
    _send_to_bulb (Some c) node_id endpoint_id mireds brightness transition
    = (Ok (), Some c', tr)
    /\ device_commands tr
       = bulb_calls endpoint_id mireds brightness transition node_id.
Proof.
  intros Hexn. unfold _send_to_bulb.
  destruct (guarded_call_caught c node_id endpoint_id
              (MoveToColorTemperature mireds transition 1 1)
              (MsgColorOk node_id mireds) (MsgColorFailed node_id) Hexn)
    as (c1 & tr1 & -> & Htr1).
  destruct (guarded_call_caught c1 node_id endpoint_id
              (MoveToLevelWithOnOff brightness transition 0 0)
              (MsgLevelOk node_id brightness) (MsgLevelFailed node_id) Hexn)
    as (c2 & tr2 & -> & Htr2).
  eexists _, _. split; [reflexivity|].
  rewrite device_commands_app, Htr1, Htr2. reflexivity.
Qed.

Lemma send_to_bulbs_all_calls (nodes : list Z) (c : C)
    (endpoint_id mireds brightness transition : Z) :
  only_Exceptions ->
  exists c' tr,
    send_to_bulbs (Some c) nodes endpoint_id mireds brightness transition
    = (Ok (), Some c', tr)
    /\ device_commands tr
       = flat_map (bulb_calls endpoint_id mireds brightness transition)
           nodes.
Proof.
  intros Hexn. revert c. induction nodes as [|node_id rest IH]; intros c.
  - eexists _, _. split; reflexivity.
  - simpl.
    destruct (_send_to_bulb_both_calls c node_id endpoint_id mireds
                brightness transition Hexn) as (c1 & tr1 & -> & Htr1).
    destruct (IH c1) as (c2 & tr2 & -> & Htr2).
    eexists _, _. split; [reflexivity|].
    rewrite device_commands_app, Htr1, Htr2. reflexivity.
Qed.

Lemma send_zone_command_converted (client : option C)
    (zone_cfg : ZoneConfig) (zone_state : ZoneState) (cmd : UdpCommand)
    (config : BridgeConfig) (dry_run : bool) (mireds level : Z) :
  clamp_brightness (brightness cmd) (brightness_multiplier zone_cfg)
    = Ok level ->
  kelvin_to_mireds (kelvin cmd) (min_kelvin zone_cfg) (max_kelvin zone_cfg)
    = Ok mireds ->
  send_zone_command client zone_cfg zone_state cmd config dry_run
  = if dedup_skip zone_state config mireds level then
      {| result := Ok (); state_after := zone_state;
         client_after := client;
         effects :=
           [Log DEBUG
              (MsgDedupSkip (zone cmd)
                 (Z.abs (mireds - last_mireds zone_state))
                 (Z.abs (level - last_brightness zone_state)))] |}
    else transmit client zone_cfg zone_state cmd mireds level dry_run.
Proof.
  intros Hb Hm. unfold send_zone_command. rewrite Hb, Hm. reflexivity.
Qed.


End DispatchFacts.

(** ** The running bridge *)

Section BridgeFacts.
Context {C : Type} {client_ops : MatterClient C} {runtime : PyRuntime}.

Lemma on_exception_keeps (b : bridge C) (e : exn) :
  queue (on_exception b e) = queue b
  /\ zone_states (on_exception b e) = zone_states b
  /\ delay (on_exception b e) = delay b.
Proof. destruct e; repeat split. Qed.

Lemma on_datagram_keeps (config : BridgeConfig) (b : bridge C)
    (data : list Byte.byte) :
  at_phase (on_datagram config b data) = at_phase b
  /\ zone_states (on_datagram config b data) = zone_states b
  /\ delay (on_datagram config b data) = delay b.
Proof.
  unfold on_datagram.
  destruct (datagram_received _ _ _) as [[q'|e] tr]; repeat split.
Qed.

Lemma on_datagram_queue (config : BridgeConfig) (b : bridge C)
    (data : list Byte.byte) :
  queue (on_datagram config b data) = queue b
  \/ exists cmd tr,
       decode_command (dom (zones config)) data = (Ok (Some cmd), tr)
       /\ fst (enqueue (queue b) cmd) = Ok (queue (on_datagram config b data)).
Proof.
  unfold on_datagram, datagram_received.
  destruct (decode_command _ data) as [[[cmd|]|e] tr] eqn:E; simpl;
    try (left; reflexivity).
  destruct (enqueue (queue b) cmd) as [[q'|e] tr'] eqn:Eq; simpl;
    [|left; reflexivity].
  right. exists cmd, tr. split; [reflexivity|]. rewrite Eq. reflexivity.
Qed.

Lemma on_connected_spec (config : BridgeConfig) (b : bridge C) (client : C) :
  at_phase (on_connected config b client) = Connected client
  /\ delay (on_connected config b client) = reconnect_initial_delay config
  /\ queue (on_connected config b client)
     = {| maxsize := maxsize (queue b); items := [] |}
  /\ zone_states (on_connected config b client) = zone_states b.
Proof.
  unfold on_connected.
  destruct (_drain_queue_empties (queue b)) as [tr ->]. repeat split.
Qed.

Lemma on_dequeue_queue (config : BridgeConfig) (b : bridge C)
    (client : option C) (dry_run : bool) :
  delay (on_dequeue config b client dry_run) = delay b
  /\ match items (queue b) with
     | [] => on_dequeue config b client dry_run = b
     | cmd :: rest =>
         queue (on_dequeue config b client dry_run)
         = {| maxsize := maxsize (queue b); items := rest |}
     end.
Proof.
  unfold on_dequeue, get_nowait.
  destruct (items (queue b)) as [|cmd rest]; [split; reflexivity|].
  destruct (command_loop_body _ _ _ _ _) as [[[r zs] client'] tr].
  destruct r as [[]|e]; [split; reflexivity|].
  destruct dry_run; [split; reflexivity|].
  split.
  - rewrite (proj2 (proj2 (on_exception_keeps _ e))). reflexivity.
  - rewrite (proj1 (on_exception_keeps _ e)). reflexivity.
Qed.

Lemma step_queue_ok (config : BridgeConfig) (b : bridge C) (ev : event C) :
  queue_ok (queue b) -> queue_ok (queue (step config b ev)).
Proof.
  intros Hq.
  assert (Hdatagram :
            forall data, queue_ok (queue (on_datagram config b data))).
  { intros data.
    destruct (on_datagram_queue config b data) as [->|(cmd & tr & _ & Henq)];
      [assumption|].
    destruct (enqueue_ok (queue b) cmd Hq) as (q' & Hq' & Hok & _).
    congruence. }
  assert (Hdequeue : forall client dry_run,
             queue_ok (queue (on_dequeue config b client dry_run))).
  { intros client dry_run.
    destruct (on_dequeue_queue config b client dry_run) as [_ Hd].
    destruct Hq as [Hmax Hsize]. unfold qsize in Hsize.
    destruct (items (queue b)) as [|cmd rest] eqn:E.
    - rewrite Hd. split; [assumption|]. unfold qsize. rewrite E. assumption.
    - rewrite Hd. split; [assumption|]. unfold qsize. simpl in *. lia. }
  unfold step.
  destruct (at_phase b) eqn:Hp, ev; simpl; auto;
    try (rewrite (proj1 (on_exception_keeps b e)); assumption).
  destruct (on_connected_spec config b client) as (_ & _ & -> & _).
  destruct Hq as [Hmax _]. split; [assumption|]. unfold qsize. simpl. lia.
Qed.

Lemma run_queue_ok (config : BridgeConfig) (evs : list (event C))
    (b : bridge C) :
  queue_ok (queue b) -> queue_ok (queue (run config b evs)).
Proof.
  revert b. induction evs as [|ev evs IH]; intros b Hq; [assumption|].
  apply IH, step_queue_ok, Hq.
Qed.

Lemma run_bridge_queue_ok (config : BridgeConfig) (dry_run : bool) :
  queue_ok (queue (run_bridge (C := C) config dry_run)).
Proof. split; [reflexivity|]. unfold qsize. simpl. lia. Qed.
End BridgeFacts.

Section RunFacts.
Context {C : Type} {client_ops : MatterClient C} {runtime : PyRuntime}.

Lemma step_sublist (config : BridgeConfig) (b : bridge C) (ev : event C) :
  taken b ev ++ items (queue (step config b ev))
    `sublist_of` items (queue b) ++ accepted config b ev.
Proof.
  assert (Hsame : forall l : list UdpCommand,
             [] ++ items (queue b) `sublist_of` items (queue b) ++ l).
  { intros l. simpl. apply sublist_inserts_r. reflexivity. }
  assert (Hdatagram : forall data,
             [] ++ items (queue (on_datagram config b data))
               `sublist_of`
             items (queue b)
               ++ match decode_command (dom (zones config)) data with
                  | (Ok (Some cmd), _) =>
                      if returns (fst (enqueue (queue b) cmd)) then [cmd]
                      else []
                  | _ => []
                  end).
  { intros data.
    destruct (on_datagram_queue config b data) as [->|(cmd & tr & -> & Henq)];
      [apply Hsame|].
    rewrite Henq. simpl.
    destruct (enqueue_sublist _ _ _ Henq) as (_ & kept & -> & Hkept).
    apply sublist_app; [assumption|reflexivity]. }
  assert (Hdequeue : forall client dry_run,
             match get_nowait (queue b) with
             | Ok (cmd, _) => [cmd]
             | Raise _ => []
             end ++ items (queue (on_dequeue config b client dry_run))
               `sublist_of` items (queue b) ++ []).
  { intros client dry_run.
    destruct (on_dequeue_queue config b client dry_run) as [_ Hd].
    unfold get_nowait. destruct (items (queue b)) as [|cmd rest] eqn:E.
    - rewrite Hd, E. reflexivity.
    - rewrite Hd. simpl. rewrite app_nil_r. reflexivity. }
  unfold step, taken, accepted.
  destruct (at_phase b) eqn:Hp, ev; simpl accepted; auto;
    try (rewrite (proj1 (on_exception_keeps b e)); apply Hsame);
    try apply Hsame.
  destruct (on_connected_spec config b client) as (_ & _ & -> & _).
  simpl. apply sublist_nil_l.
Qed.

(** Whatever the command loop takes during a run was in the queue at the
    start or was enqueued during the run, in that order. *)
Lemma dispatched_sublist (config : BridgeConfig) (evs : list (event C))
    (b : bridge C) :
  dispatched config b evs
    `sublist_of` items (queue b) ++ enqueued config b evs.
Proof.
  revert b. induction evs as [|ev evs IH]; intros b; simpl.
  - apply sublist_nil_l.
  - transitivity
      (taken b ev
         ++ (items (queue (step config b ev))
               ++ enqueued config (step config b ev) evs)).
    + apply sublist_app; [reflexivity|apply IH].
    + rewrite !app_assoc. apply sublist_app; [apply step_sublist|reflexivity].
Qed.

End RunFacts.

(** ** Zone states and the delay along a run *)

Section InvariantFacts.
Context {C : Type} {client_ops : MatterClient C} {runtime : PyRuntime}.






Lemma step_delay_ok (config : BridgeConfig) (b : bridge C) (ev : event C) :
  delay_ok config (delay b) -> delay_ok config (delay (step config b ev)).
Proof.
  intros Hd. unfold step.
  destruct (at_phase b) eqn:Hp, ev; simpl; auto;
    try (rewrite (proj2 (proj2 (on_exception_keeps b e))); assumption);
    try (rewrite (proj2 (proj2 (on_datagram_keeps config b data)));
         assumption);
    try (rewrite (proj1 (on_dequeue_queue config b _ _)); assumption).
  - destruct (on_connected_spec config b client) as (_ & -> & _).
    left. reflexivity.
  - right. apply py_min_not_above.
Qed.

Lemma run_delay_ok (config : BridgeConfig) (evs : list (event C))
    (b : bridge C) :
  delay_ok config (delay b) -> delay_ok config (delay (run config b evs)).
Proof.
  revert b. induction evs as [|ev evs IH]; intros b Hd; [assumption|].
  apply IH, step_delay_ok, Hd.
Qed.

End InvariantFacts.

(** ** The claims about the queue and the reconnect loop *)

(** C3: in every state the bridge can reach, the queue has capacity 100
    and holds at most 100 commands; enqueuing then always succeeds without
    raising, keeps the size within 100, puts the new command last, and
    when the queue held 100 commands drops exactly the oldest one. *)
Theorem queue_bounded_evicts_oldest {C : Type} {client_ops : MatterClient C}
    {runtime : PyRuntime} (config : BridgeConfig) (dry_run : bool)
    (evs : list (event C)) (cmd : UdpCommand) :
  let q := queue (run config (run_bridge config dry_run) evs) in
  maxsize q = 100
  /\ qsize q <= 100
  /\ exists q', fst (enqueue q cmd) = Ok q'
       /\ maxsize q' = 100
       /\ qsize q' <= 100
       /\ items q' =
            (if qsize q =? 100 then tail (items q) else items q) ++ [cmd].
Proof.
  intros q.
  assert (Hq : queue_ok q)
    by apply run_queue_ok, run_bridge_queue_ok.
  destruct (enqueue_ok q cmd Hq) as (q' & Hq' & [Hmax Hsize] & Hitems).
  destruct Hq as [Hm Hs]. eauto 10.
Qed.

(** A full queue is reachable: after 100 packets the next one evicts the
    first. *)
Example queue_full_then_evicts :
  let b := live_run fixture_config (live_start fixture_config)
             (repeat (Datagram (packet "night")) 100) in
  let b' := live_step fixture_config b (Datagram (packet "noon")) in
  items (queue b) = repeat night 100
  /\ items (queue b') = repeat night 99 ++ [noon].
Proof. vm_compute. split; reflexivity. Qed.

(** C4: when a connection attempt succeeds the queue is emptied before the
    command loop takes anything, the delay is reset, and every command
    dispatched from then on was enqueued after that moment. *)
Theorem reconnect_drains_queue {C : Type} {client_ops : MatterClient C}
    {runtime : PyRuntime} (config : BridgeConfig) (b : bridge C) (client : C)
    (later : list (event C)) :
  at_phase b = Connecting ->
  let b1 := step config b (ConnectOk client) in
  at_phase b1 = Connected client
  /\ items (queue b1) = []
  /\ dispatched config b1 later `sublist_of` enqueued config b1 later.
Proof.
  intros Hp b1.
  assert (Hb1 : b1 = on_connected config b client).
  { subst b1. unfold step. rewrite Hp. reflexivity. }
  destruct (on_connected_spec config b client) as (Hphase & _ & Hq & _).
  rewrite <- Hb1 in Hphase, Hq.
  assert (Hitems : items (queue b1) = []) by (rewrite Hq; reflexivity).
  split; [assumption|]. split; [assumption|].
  pose proof (dispatched_sublist config later b1) as Hsub.
  rewrite Hitems in Hsub. exact Hsub.
Qed.

(** The scenario of the specification: a command is queued, the session
    drops, and after the reconnection only the later command is
    dispatched. *)
Lemma reconnect_drains_queue_witness :
  let b := live_run fixture_config (live_start fixture_config)
             [ConnectOk {| served := 0 |}; Datagram (packet "night");
              Raised ConnectionResetError; SleepDone] in
  let b1 := live_step fixture_config b (ConnectOk {| served := 0 |}) in
  let later := [Datagram (packet "noon"); Dequeue; Dequeue] in
  items (queue b) = [night]
  /\ at_phase b1 = Connected {| served := 0 |}
  /\ items (queue b1) = []
  /\ live_dispatched fixture_config b1 later
       `sublist_of` live_enqueued fixture_config b1 later.
Proof.
  intros b b1 later. split; [vm_compute; reflexivity|].
  apply (reconnect_drains_queue (client_ops := live_client_sends)
           (runtime := fixture_runtime) fixture_config b {| served := 0 |}
           later).
  vm_compute. reflexivity.
Defined.

Example reconnect_scenario_dispatches_noon_only :
  let b := live_run fixture_config (live_start fixture_config)
             [ConnectOk {| served := 0 |}; Datagram (packet "night");
              Raised ConnectionResetError; SleepDone;
              ConnectOk {| served := 0 |}] in
  live_dispatched fixture_config b [Datagram (packet "noon"); Dequeue; Dequeue]
  = [noon].
Proof. vm_compute. reflexivity. Qed.

(** C6 (counterexample): nothing caps the initial delay.  With an initial
    delay of 100 s and a maximum of 60 s the loop waits 100 s after the
    first failed attempt, and goes back to 100 s after a connection. *)
Lemma initial_delay_exceeds_maximum :
  let b := live_start eager_config in
  let b1 := live_step eager_config b (Raised CannotConnect) in
  let b2 := live_run eager_config b1 [SleepDone; ConnectOk {| served := 0 |}] in
  fltb (reconnect_max_delay eager_config) (delay b) = true
  /\ trace b1 = [Log INFO MsgConnecting;
                 Log WARNING (MsgConnectionFailed CannotConnect f_hundred);
                 Sleep f_hundred]
  /\ fltb (reconnect_max_delay eager_config) (delay b2) = true.
Proof. vm_compute. repeat split. Qed.

(** C6 (amended): on a recoverable connection error the loop sleeps for
    the current delay and then sets the delay to
    [min(delay * multiplier, max_delay)], which is not above the maximum;
    it then tries again, and a successful connection resets the delay to
    the initial value.  Along every run the delay is the initial one or
    not above the maximum. *)
Theorem backoff_delay_capped {C : Type} {client_ops : MatterClient C}
    {runtime : PyRuntime} (config : BridgeConfig) (b : bridge C) (e : exn) :
  recoverable e = true ->
  at_phase b = Connecting \/ (exists client, at_phase b = Connected client) ->
  let b1 := step config b (Raised e) in
  let b2 := step config b1 SleepDone in
  at_phase b1 = Backoff
  /\ (exists msg, trace b1 = trace b ++ [Log WARNING msg; Sleep (delay b)])
  /\ at_phase b2 = Connecting
  /\ delay b2
     = py_min (fmul (delay b) (reconnect_multiplier config))
         (reconnect_max_delay config)
  /\ fltb (reconnect_max_delay config) (delay b2) = false
  /\ (forall client,
        at_phase (step config b2 (ConnectOk client)) = Connected client
        /\ delay (step config b2 (ConnectOk client))
           = reconnect_initial_delay config)
  /\ (forall dry_run evs,
        delay_ok config (delay (run config (run_bridge config dry_run) evs))).
Proof.
  intros He Hp b1 b2.
  assert (Hb1 : b1 = on_exception b e).
  { subst b1. unfold step.
    destruct Hp as [->|[client ->]]; reflexivity. }
  assert (H1 : at_phase b1 = Backoff /\ delay b1 = delay b
               /\ exists msg,
                    trace b1 = trace b ++ [Log WARNING msg; Sleep (delay b)]).
  { rewrite Hb1. destruct e; try discriminate He; simpl; eauto. }
  destruct H1 as (Hphase1 & Hdelay1 & Htrace1).
  assert (Hb2 : b2 = after_sleep config b1).
  { subst b2. unfold step. rewrite Hphase1. reflexivity. }
  assert (Hdelay2 : delay b2
                    = py_min (fmul (delay b) (reconnect_multiplier config))
                        (reconnect_max_delay config)).
  { rewrite Hb2. simpl. unfold next_delay. rewrite Hdelay1. reflexivity. }
  split; [assumption|]. split; [assumption|].
  split; [rewrite Hb2; reflexivity|]. split; [assumption|].
  split; [rewrite Hdelay2; apply py_min_not_above|].
  split.
  - intros client.
    assert (Hs : step config b2 (ConnectOk client)
                 = on_connected config b2 client).
    { unfold step. rewrite Hb2. reflexivity. }
    rewrite Hs.
    destruct (on_connected_spec config b2 client) as (Hp3 & Hd3 & _).
    split; assumption.
  - intros dry_run evs. apply run_delay_ok. left. reflexivity.
Qed.

Lemma backoff_delay_capped_witness :
  let b := live_start fixture_config in
  let b1 := live_step fixture_config b (Raised ConnectionFailed) in
  let b2 := live_step fixture_config b1 SleepDone in
  at_phase b1 = Backoff
  /\ (exists msg, trace b1 = trace b ++ [Log WARNING msg; Sleep (delay b)])
  /\ at_phase b2 = Connecting
  /\ delay b2
     = py_min (fmul (delay b) (reconnect_multiplier fixture_config))
         (reconnect_max_delay fixture_config)
  /\ fltb (reconnect_max_delay fixture_config) (delay b2) = false
  /\ (forall client,
        at_phase (live_step fixture_config b2 (ConnectOk client))
        = Connected client
        /\ delay (live_step fixture_config b2 (ConnectOk client))
           = reconnect_initial_delay fixture_config)
  /\ (forall dry_run evs,
        delay_ok fixture_config
          (delay (live_run fixture_config
                    (run_bridge fixture_config dry_run) evs))).
Proof.
  apply (backoff_delay_capped (client_ops := live_client_sends)
           (runtime := fixture_runtime) fixture_config
           (live_start fixture_config) ConnectionFailed).
  - reflexivity.
  - left. reflexivity.
Defined.

(** A connection error raised by a device call is caught with the call:
    the session stays up and no backoff starts. *)
Example device_call_error_starts_no_backoff :
  let b := @run dead_client dead_client_sends fixture_runtime fixture_config
             (run_bridge fixture_config false)
             [ConnectOk DeadClient; Datagram (packet "noon"); Dequeue] in
  at_phase b = Connected DeadClient
  /\ zone_states b !! "ceiling"%string
     = Some {| last_mireds := 153; last_brightness := 254 |}
  /\ flat_map (fun ev => match ev with Sleep d => [d] | _ => [] end)
       (trace b) = [].
Proof. vm_compute. repeat split. Qed.

(** The default schedule: 2, 4, 8, 16, 32, 60, 60 seconds. *)
Example default_backoff_schedule :
  let waits :=
    flat_map (fun ev => match ev with Sleep d => [Ok d] | _ => [] end)
      (trace (live_run fixture_config (live_start fixture_config)
                (concat (repeat [Raised CannotConnect; SleepDone] 7)))) in
  waits = map float_of_int [2; 4; 8; 16; 32; 60; 60].
Proof. vm_compute. reflexivity. Qed.





(** ** Process termination *)

Section ExitFacts.
Context {C : Type} {client_ops : MatterClient C} {runtime : PyRuntime}.

Lemma send_zone_command_returns (c : C) (zone_cfg : ZoneConfig)
    (zone_state : ZoneState) (cmd : UdpCommand) (config : BridgeConfig)
    (mireds level : Z) :
  only_Exceptions ->
  clamp_brightness (brightness cmd) (brightness_multiplier zone_cfg)
    = Ok level ->
  kelvin_to_mireds (kelvin cmd) (min_kelvin zone_cfg) (max_kelvin zone_cfg)
    = Ok mireds ->
  let o := send_zone_command (Some c) zone_cfg zone_state cmd config false in
  result o = Ok () /\ exists c', client_after o = Some c'.
Proof.
  intros Hexn Hb Hm o. subst o.
  rewrite (send_zone_command_converted _ _ _ _ _ _ _ _ Hb Hm).
  destruct (dedup_skip _ _ _ _); [simpl; eauto|].
  unfold transmit.
  destruct (send_to_bulbs_all_calls (node_ids zone_cfg) c
              (endpoint_id zone_cfg) mireds level (transition cmd) Hexn)
    as (c' & tr & -> & _).
  simpl. eauto.
Qed.

(** A dispatch whose conversions succeed keeps the session, however many
    device calls fail. *)
Lemma dequeue_survives_device_failures (config : BridgeConfig)
    (b : bridge C) (c : C) (cmd : UdpCommand) (rest : list UdpCommand)
    (zone_cfg : ZoneConfig) (mireds level : Z) :
  only_Exceptions ->
  at_phase b = Connected c ->
  items (queue b) = cmd :: rest ->
  zones config !! zone cmd = Some zone_cfg ->
  is_Some (zone_states b !! zone cmd) ->
  clamp_brightness (brightness cmd) (brightness_multiplier zone_cfg)
    = Ok level ->
  kelvin_to_mireds (kelvin cmd) (min_kelvin zone_cfg) (max_kelvin zone_cfg)
    = Ok mireds ->
  exists c', at_phase (step config b Dequeue) = Connected c'.
Proof.
  intros Hexn Hp Hq Hcfg [zone_state Hst] Hb Hm.
  unfold step. rewrite Hp. unfold on_dequeue, get_nowait. rewrite Hq.
  unfold command_loop_body. rewrite Hcfg, Hst.
  destruct (send_zone_command_returns c zone_cfg zone_state cmd config
              mireds level Hexn Hb Hm) as [Hr [c' Hc']].
  rewrite Hr, Hc'. simpl. eauto.
Qed.

End ExitFacts.

(** C8 (counterexample): the exit status of the incompatible-version exit
    is 1, the status [main] also gives a configuration error and an
    unhandled exception; and a queued command with an oversized
    brightness ends the process as well. *)
Lemma incompatible_exit_status_is_shared :
  let b := live_step fixture_config (live_start fixture_config)
             (Raised InvalidServerVersion) in
  let b' := live_run fixture_config (live_start fixture_config)
              [ConnectOk {| served := 0 |}; Datagram (packet "huge");
               Dequeue] in
  at_phase b = Exited (SysExit 1)
  /\ main (Ok fixture_config) (fun _ => raised_by (SysExit 1)) = 1
  /\ main (Raise ValueError) (fun _ => raised_by (SysExit 1)) = 1
  /\ at_phase b' = Exited (Uncaught OverflowError)
  /\ main (Ok fixture_config) (fun _ => raised_by (Uncaught OverflowError))
     = 1.
Proof. vm_compute. repeat split. Qed.

(** C8 (amended): the reconnect loop raises [SystemExit] exactly when the
    exception reaching its handlers is the incompatible-version one; the
    exit status is then 1, which is not zero.  A recoverable connection
    error leads to the backoff sleep, a packet never changes the phase of
    the loop, and a dispatch whose device calls fail keeps the session. *)
Theorem only_incompatible_version_exits {C : Type}
    {client_ops : MatterClient C} {runtime : PyRuntime}
    (config : BridgeConfig) (b : bridge C) (e : exn) :
  at_phase b = Connecting \/ (exists client, at_phase b = Connected client) ->
  let b1 := step config b (Raised e) in
  ((exists code, at_phase b1 = Exited (SysExit code))
     <-> e = InvalidServerVersion)
  /\ (e = InvalidServerVersion ->
      at_phase b1 = Exited (SysExit 1)
      /\ main (Ok config) (fun _ => raised_by (SysExit 1)) = 1
      /\ main (Ok config) (fun _ => raised_by (SysExit 1)) <> 0)
  /\ (recoverable e = true -> at_phase b1 = Backoff)
  /\ (forall data, at_phase (step config b (Datagram data)) = at_phase b)
  /\ (forall c cmd rest zone_cfg mireds level,
        only_Exceptions ->
        at_phase b = Connected c ->
        items (queue b) = cmd :: rest ->
        zones config !! zone cmd = Some zone_cfg ->
        is_Some (zone_states b !! zone cmd) ->
        clamp_brightness (brightness cmd) (brightness_multiplier zone_cfg)
          = Ok level ->
        kelvin_to_mireds (kelvin cmd) (min_kelvin zone_cfg)
          (max_kelvin zone_cfg) = Ok mireds ->
        exists c', at_phase (step config b Dequeue) = Connected c').
Proof.
  intros Hp b1.
  assert (Hb1 : b1 = on_exception b e).
  { subst b1. unfold step. destruct Hp as [->|[client ->]]; reflexivity. }
  split; [|split; [|split; [|split]]].
  - rewrite Hb1. split.
    + intros [code Hcode]. destruct e; simpl in Hcode; congruence.
    + intros ->. exists 1. reflexivity.
  - intros ->. rewrite Hb1. repeat split. discriminate.
  - intros He. rewrite Hb1. destruct e; try discriminate He; reflexivity.
  - intros data. unfold step.
    destruct Hp as [Hq|[client Hq]]; rewrite Hq;
      rewrite (proj1 (on_datagram_keeps config b data)); assumption.
  - intros c cmd rest zone_cfg mireds level Hexn.
    apply dequeue_survives_device_failures. assumption.
Qed.

Lemma only_incompatible_version_exits_witness :
  let b := live_start fixture_config in
  let b1 := live_step fixture_config b (Raised InvalidServerVersion) in
  at_phase b1 = Exited (SysExit 1)
  /\ main (Ok fixture_config) (fun _ => raised_by (SysExit 1)) = 1
  /\ main (Ok fixture_config) (fun _ => raised_by (SysExit 1)) <> 0.
Proof.
  apply (only_incompatible_version_exits (client_ops := live_client_sends)
           (runtime := fixture_runtime) fixture_config
           (live_start fixture_config) InvalidServerVersion).
  - left. reflexivity.
  - reflexivity.
Defined.

(** ** Deduplication and per-device failures *)

Lemma dedup_skip_true (zone_state : ZoneState) (config : BridgeConfig)
    (mireds level : Z) :
  dedup_skip zone_state config mireds level = true
  <-> last_mireds zone_state <> -1
      /\ Z.abs (mireds - last_mireds zone_state)
           < dedup_mireds_threshold config
      /\ Z.abs (level - last_brightness zone_state)
           < dedup_brightness_threshold config.
Proof.
  unfold dedup_skip.
  rewrite !andb_true_iff, negb_true_iff, Z.eqb_neq, !Z.ltb_lt. tauto.
Qed.

Lemma _send_to_bulb_first_call {C : Type} {client_ops : MatterClient C}
    (c : C) (node_id endpoint_id mireds level transition : Z) :
  exists rest,
    (_send_to_bulb (Some c) node_id endpoint_id mireds level transition).2
    = DeviceCommand node_id endpoint_id
        (MoveToColorTemperature mireds transition 1 1) :: rest.
Proof.
  unfold _send_to_bulb.
  unfold guarded_call at 1. unfold call_client at 1.
  destruct (send_device_command c node_id endpoint_id
              (MoveToColorTemperature mireds transition 1 1)) as [r1 c1].
  destruct r1 as [[]|e1]; [|destruct (is_Exception e1)];
    try destruct (guarded_call _ _ _ _ _ _) as [[r2 c2] tr2];
    simpl; eauto.
Qed.

Lemma send_to_bulbs_first_call {C : Type} {client_ops : MatterClient C}
    (c : C) (node_id : Z) (nodes : list Z)
    (endpoint_id mireds level transition : Z) :
  DeviceCommand node_id endpoint_id
    (MoveToColorTemperature mireds transition 1 1)
    ∈ (send_to_bulbs (Some c) (node_id :: nodes) endpoint_id mireds level
         transition).2.
Proof.
  simpl.
  destruct (_send_to_bulb_first_call c node_id endpoint_id mireds level
              transition) as [rest Hrest].
  destruct (_send_to_bulb (Some c) node_id endpoint_id mireds level
              transition) as [[r c1] tr1].
  simpl in Hrest. subst tr1.
  destruct r as [[]|e]; [|simpl; set_solver].
  destruct (send_to_bulbs _ _ _ _ _ _) as [[r' c2] tr2]. simpl. set_solver.
Qed.

Lemma transmit_first_effect {C : Type} {client_ops : MatterClient C}
    (client : option C) (zone_cfg : ZoneConfig) (zone_state : ZoneState)
    (cmd : UdpCommand) (mireds level : Z) (dry_run : bool) :
  let o := transmit client zone_cfg zone_state cmd mireds level dry_run in
  hd_error (effects o)
    = Some (Log INFO (MsgZone (zone cmd) mireds level (transition cmd * 100)
                        dry_run))
  /\ (result o = Ok () ->
      state_after o = {| last_mireds := mireds; last_brightness := level |})
  /\ (dry_run = true ->
      if printable cmd zone_cfg mireds level (transition cmd * 100) then
        effects o
        = [Log INFO (MsgZone (zone cmd) mireds level (transition cmd * 100)
                       true);
           Print cmd mireds level (transition cmd * 100) (node_ids zone_cfg)]
        /\ result o = Ok ()
      else
        effects o
        = [Log INFO (MsgZone (zone cmd) mireds level (transition cmd * 100)
                       true)]
        /\ result o = Raise ValueError
        /\ state_after o = zone_state)
  /\ (forall c node_id rest,
        dry_run = false -> client = Some c ->
        node_ids zone_cfg = node_id :: rest ->
        DeviceCommand node_id (endpoint_id zone_cfg)
          (MoveToColorTemperature mireds (transition cmd) 1 1)
          ∈ effects o).
Proof.
  unfold transmit. destruct dry_run.
  - destruct (printable _ _ _ _ _); simpl; repeat split; discriminate.
  - assert (Hcall : forall c node_id rest,
               client = Some c -> node_ids zone_cfg = node_id :: rest ->
               DeviceCommand node_id (endpoint_id zone_cfg)
                 (MoveToColorTemperature mireds (transition cmd) 1 1)
                 ∈ (send_to_bulbs client (node_ids zone_cfg)
                      (endpoint_id zone_cfg) mireds level (transition cmd)).2).
    { intros c node_id rest -> ->. apply send_to_bulbs_first_call. }
    destruct (send_to_bulbs client (node_ids zone_cfg) (endpoint_id zone_cfg)
                mireds level (transition cmd)) as [[r c'] tr].
    simpl in Hcall.
    destruct r as [[]|e]; simpl.
    + split; [reflexivity|]. split; [reflexivity|]. split; [discriminate|].
      intros c node_id rest _ Hc Hn. apply elem_of_cons. right.
      eapply Hcall; eassumption.
    + split; [reflexivity|]. split; [discriminate|]. split; [discriminate|].
      intros c node_id rest _ Hc Hn. apply elem_of_cons. right.
      eapply Hcall; eassumption.
Qed.

(** C2: when the zone has been sent to before and both deltas are
    strictly below their thresholds, the command is skipped: nothing goes
    downstream, nothing is printed and the zone state stays as it was.
    When the zone state is the sentinel the command is never skipped,
    whatever the thresholds: it is printed (dry run; or the line cannot
    be written and the dispatch raises [ValueError] at the print, past
    the deduplication) or sent to the first bulb onward, and a dispatch
    that returns records the new pair. *)
Theorem dedup_rule {C : Type} {client_ops : MatterClient C}
    (client : option C) (zone_cfg : ZoneConfig) (zone_state : ZoneState)
    (cmd : UdpCommand) (config : BridgeConfig) (dry_run : bool)
    (mireds level : Z) :
  clamp_brightness (brightness cmd) (brightness_multiplier zone_cfg)
    = Ok level ->
  kelvin_to_mireds (kelvin cmd) (min_kelvin zone_cfg) (max_kelvin zone_cfg)
    = Ok mireds ->
  let o := send_zone_command client zone_cfg zone_state cmd config dry_run in
  (last_mireds zone_state <> -1 ->
   Z.abs (mireds - last_mireds zone_state) < dedup_mireds_threshold config ->
   Z.abs (level - last_brightness zone_state)
     < dedup_brightness_threshold config ->
   result o = Ok ()
   /\ state_after o = zone_state
   /\ client_after o = client
   /\ effects o
      = [Log DEBUG (MsgDedupSkip (zone cmd)
                      (Z.abs (mireds - last_mireds zone_state))
                      (Z.abs (level - last_brightness zone_state)))])
  /\ (last_mireds zone_state = -1 ->
      o = transmit client zone_cfg zone_state cmd mireds level dry_run
      /\ hd_error (effects o)
         = Some (Log INFO (MsgZone (zone cmd) mireds level
                             (transition cmd * 100) dry_run))
      /\ (result o = Ok () ->
          state_after o
          = {| last_mireds := mireds; last_brightness := level |})
      /\ (dry_run = true ->
          if printable cmd zone_cfg mireds level (transition cmd * 100)
          then
            Print cmd mireds level (transition cmd * 100)
              (node_ids zone_cfg) ∈ effects o
          else result o = Raise ValueError /\ state_after o = zone_state)
      /\ (forall c node_id rest,
            dry_run = false -> client = Some c ->
            node_ids zone_cfg = node_id :: rest ->
            DeviceCommand node_id (endpoint_id zone_cfg)
              (MoveToColorTemperature mireds (transition cmd) 1 1)
              ∈ effects o)).
Proof.
  intros Hb Hm o. subst o.
  rewrite (send_zone_command_converted _ _ _ _ _ _ _ _ Hb Hm). split.
  - intros Hsent Hdm Hdb.
    assert (Hskip : dedup_skip zone_state config mireds level = true)
      by (apply dedup_skip_true; auto).
    rewrite Hskip. repeat split.
  - intros Hnever.
    assert (Hskip : dedup_skip zone_state config mireds level = false).
    { unfold dedup_skip. rewrite Hnever. reflexivity. }
    rewrite Hskip. split; [reflexivity|].
    destruct (transmit_first_effect client zone_cfg zone_state cmd mireds
                level dry_run) as (Hhd & Hstate & Hdry & Hlive).
    split; [assumption|]. split; [assumption|]. split; [|assumption].
    intros Hd. specialize (Hdry Hd).
    destruct (printable _ _ _ _ _).
    + destruct Hdry as [Heff _]. rewrite Heff. rewrite !elem_of_cons. auto.
    + destruct Hdry as (_ & Hres & Hstate'). auto.
Qed.

(** The scenario of the specification: after noon (6500 K, 254), the
    command (6490 K, 250) is within the thresholds 10 and 5. *)
Lemma dedup_rule_witness :
  let sent := {| last_mireds := 153; last_brightness := 254 |} in
  let cmd := {| zone := "ceiling"; kelvin := 6490; brightness := 250;
                transition := 8 |} in
  let o := send_zone_command (client_ops := live_client_sends)
             (Some {| served := 4 |}) ceiling sent cmd fixture_config false in
  result o = Ok ()
  /\ state_after o = sent
  /\ client_after o = Some {| served := 4 |}
  /\ effects o = [Log DEBUG (MsgDedupSkip "ceiling" 1 4)].
Proof.
  intros sent cmd o.
  apply (proj1 (dedup_rule (client_ops := live_client_sends)
                  (Some {| served := 4 |}) ceiling sent cmd fixture_config
                  false 154 250 eq_refl eq_refl));
    vm_compute; congruence.
Defined.

(** The first command to a zone goes out even under huge thresholds. *)
Example first_command_is_sent :
  let config :=
    {| reconnect_initial_delay := f_two; reconnect_max_delay := f_sixty;
       reconnect_multiplier := f_two; dedup_mireds_threshold := 1000000;
       dedup_brightness_threshold := 1000000;
       zones := {[ "ceiling"%string := ceiling ]} |} in
  let o := send_zone_command (client_ops := live_client_sends)
             (Some {| served := 0 |}) ceiling ZoneState_default noon config
             false in
  device_commands (effects o)
  = flat_map (bulb_calls 1 153 254 8) [11; 12]
  /\ state_after o = {| last_mireds := 153; last_brightness := 254 |}.
Proof. vm_compute. split; reflexivity. Qed.

(** C7: in a dispatch that is not deduplicated, with a client whose calls
    fail with exceptions of any kind, both calls are still made for every
    device of the zone, in order, the dispatch returns normally and the
    zone state becomes the pair just computed. *)
Theorem device_failures_tolerated {C : Type} {client_ops : MatterClient C}
    (c : C) (zone_cfg : ZoneConfig) (zone_state : ZoneState)
    (cmd : UdpCommand) (config : BridgeConfig) (mireds level : Z) :
  only_Exceptions ->
  clamp_brightness (brightness cmd) (brightness_multiplier zone_cfg)
    = Ok level ->
  kelvin_to_mireds (kelvin cmd) (min_kelvin zone_cfg) (max_kelvin zone_cfg)
    = Ok mireds ->
  dedup_skip zone_state config mireds level = false ->
  let o := send_zone_command (Some c) zone_cfg zone_state cmd config false in
  result o = Ok ()
  /\ state_after o = {| last_mireds := mireds; last_brightness := level |}
  /\ device_commands (effects o)
     = flat_map
         (bulb_calls (endpoint_id zone_cfg) mireds level (transition cmd))
         (node_ids zone_cfg).
Proof.
  intros Hexn Hb Hm Hskip o. subst o.
  rewrite (send_zone_command_converted _ _ _ _ _ _ _ _ Hb Hm), Hskip.
  unfold transmit.
  destruct (send_to_bulbs_all_calls (node_ids zone_cfg) c
              (endpoint_id zone_cfg) mireds level (transition cmd) Hexn)
    as (c' & tr & -> & Htr).
  simpl. repeat split. exact Htr.
Qed.

(** Every call of the dead client fails; the four calls for the two bulbs
    are made all the same and the state is updated. *)
Lemma device_failures_tolerated_witness :
  let o := send_zone_command (client_ops := dead_client_sends)
             (Some DeadClient) ceiling ZoneState_default noon fixture_config
             false in
  result o = Ok ()
  /\ state_after o = {| last_mireds := 153; last_brightness := 254 |}
  /\ device_commands (effects o)
     = flat_map (bulb_calls 1 153 254 8) [11; 12].
Proof.
  apply (device_failures_tolerated (client_ops := dead_client_sends)
           DeadClient ceiling ZoneState_default noon fixture_config 153 254).
  - intros c node_id endpoint_id command e. simpl. intros [= <-]. reflexivity.
  - reflexivity.
  - reflexivity.
  - reflexivity.
Defined.

Example dead_client_failures_are_logged :
  effects (send_zone_command (client_ops := dead_client_sends)
             (Some DeadClient) ceiling ZoneState_default noon fixture_config
             false)
  = [Log INFO (MsgZone "ceiling" 153 254 800 false);
     DeviceCommand 11 1 (MoveToColorTemperature 153 8 1 1);
     Log ERROR (MsgColorFailed 11 ConnectionFailed);
     DeviceCommand 11 1 (MoveToLevelWithOnOff 254 8 0 0);
     Log ERROR (MsgLevelFailed 11 ConnectionFailed);
     DeviceCommand 12 1 (MoveToColorTemperature 153 8 1 1);
     Log ERROR (MsgColorFailed 12 ConnectionFailed);
     DeviceCommand 12 1 (MoveToLevelWithOnOff 254 8 0 0);
     Log ERROR (MsgLevelFailed 12 ConnectionFailed)].
Proof. vm_compute. reflexivity. Qed.

(** ** The ingestion listener *)

Section ListenerFacts.
Context {runtime : PyRuntime}.

Lemma py_int_raises (v : json) (e : exn) :
  py_int v = Raise e -> e = TypeError \/ e = ValueError \/ e = OverflowError.
Proof.
  destruct v as [| b | n | x | s | l | d]; simpl; try (intros [= <-]; auto).
  - destruct x; simpl; intros [= <-]; auto.
  - destruct (int_of_str s); intros [= <-]; auto.
Qed.

Lemma getitem_required (payload : gmap string json) (key : string) :
  REQUIRED_FIELDS ∖ dom payload = ∅ -> key ∈ REQUIRED_FIELDS ->
  exists v, getitem payload key = Ok v.
Proof.
  intros Hmissing Hkey.
  assert (Hdom : key ∈ dom payload).
  { destruct (decide (key ∈ dom payload)) as [?|Hn]; [assumption|].
    assert (Hin : key ∈ REQUIRED_FIELDS ∖ dom payload) by set_solver.
    rewrite Hmissing in Hin. set_solver. }
  apply elem_of_dom in Hdom as [v Hv]. exists v.
  unfold getitem. rewrite Hv. reflexivity.
Qed.

Lemma make_command_raises (z : string) (payload : gmap string json)
    (e : exn) :
  REQUIRED_FIELDS ∖ dom payload = ∅ ->
  make_command z payload = Raise e ->
  e = TypeError \/ e = ValueError \/ e = OverflowError.
Proof.
  intros Hmissing. unfold make_command.
  destruct (getitem_required payload "kelvin" Hmissing) as [k ->];
    [unfold REQUIRED_FIELDS; set_solver|].
  destruct (getitem_required payload "brightness" Hmissing) as [b ->];
    [unfold REQUIRED_FIELDS; set_solver|].
  destruct (getitem_required payload "transition" Hmissing) as [t ->];
    [unfold REQUIRED_FIELDS; set_solver|].
  simpl.
  destruct (py_int k) as [kn|ek] eqn:Ek; simpl;
    [|intros [= <-]; eapply py_int_raises; eassumption].
  destruct (py_int b) as [bn|eb] eqn:Eb; simpl;
    [|intros [= <-]; eapply py_int_raises; eassumption].
  destruct (py_int t) as [tn|et] eqn:Et; simpl;
    [discriminate|intros [= <-]; eapply py_int_raises; eassumption].
Qed.

(** The only exceptions that leave the decoding of a packet: one that
    [json.loads] raises and that is not a [JSONDecodeError], and the
    [OverflowError] of an [int(...)] on an infinite float. *)
Lemma decode_command_raises (known_zones : gset string)
    (data : list Byte.byte) (e : exn) :
  fst (decode_command known_zones data) = Raise e ->
  (exists text, utf8_decode data = Some text
     /\ json_loads text = Raise e /\ e <> JSONDecodeError)
  \/ e = OverflowError.
Proof.
  unfold decode_command.
  destruct (utf8_decode data) as [text|]; [|discriminate].
  destruct (json_loads text) as [payload|e0] eqn:Hloads.
  - destruct payload as [| b | n | x | s | l | payload]; try discriminate.
    case_bool_decide as Hmissing; [discriminate|].
    assert (Hnone : REQUIRED_FIELDS ∖ dom payload = ∅).
    { destruct (decide (REQUIRED_FIELDS ∖ dom payload = ∅)); [assumption|].
      contradiction. }
    destruct (getitem_required payload "zone" Hnone) as [zv ->];
      [unfold REQUIRED_FIELDS; set_solver|].
    case_bool_decide; [discriminate|].
    destruct (make_command (py_str zv) payload) as [cmd|e0] eqn:Hmake;
      [discriminate|].
    destruct (make_command_raises _ _ _ Hnone Hmake) as [-> | [-> | ->]];
      simpl; try discriminate.
    intros [= <-]. right. reflexivity.
  - destruct e0; simpl; try discriminate;
      intros [= <-]; left; exists text; repeat split; congruence.
Qed.

(** X11: with the queue within its capacity, the listener raises exactly what
    the decoding raises. *)
Lemma datagram_received_raises (known_zones : gset string)
    (q : Queue UdpCommand) (data : list Byte.byte) (e : exn) :
  queue_ok q ->
  fst (datagram_received known_zones q data) = Raise e ->
  (exists text, utf8_decode data = Some text
     /\ json_loads text = Raise e /\ e <> JSONDecodeError)
  \/ e = OverflowError.
Proof.
  intros Hq. unfold datagram_received.
  pose proof (decode_command_raises known_zones data) as Hdec.
  destruct (decode_command known_zones data) as [[[cmd|]|e0] tr]; simpl.
  - destruct (enqueue_ok q cmd Hq) as (q' & Hq' & _).
    destruct (enqueue q cmd) as [r tr']. simpl in *. congruence.
  - discriminate.
  - intros [= <-]. apply Hdec. reflexivity.
Qed.

(** A packet whose four fields decode is enqueued, extra keys or not; the
    queue is left alone in every other case that returns. *)
Lemma datagram_received_returns (known_zones : gset string)
    (q q' : Queue UdpCommand) (data : list Byte.byte) :
  fst (datagram_received known_zones q data) = Ok q' ->
  q' = q
  \/ exists text payload zv k b t,
       utf8_decode data = Some text
       /\ json_loads text = Ok (JObject payload)
       /\ payload !! "zone"%string = Some zv
       /\ py_str zv ∈ known_zones
       /\ (v ← getitem payload "kelvin"; py_int v) = Ok k
       /\ (v ← getitem payload "brightness"; py_int v) = Ok b
       /\ (v ← getitem payload "transition"; py_int v) = Ok t
       /\ fst (enqueue q {| zone := py_str zv; kelvin := k;
                            brightness := b; transition := t |}) = Ok q'.
Proof.
  unfold datagram_received, decode_command.
  destruct (utf8_decode data) as [text|]; [|intros [= <-]; left; reflexivity].
  destruct (json_loads text) as [payload|e0] eqn:Hloads.
  - destruct payload as [| b | n | x | s | l | payload];
      try (intros [= <-]; left; reflexivity).
    case_bool_decide as Hmissing; [intros [= <-]; left; reflexivity|].
    unfold getitem at 1.
    destruct (payload !! "zone"%string) as [zv|] eqn:Hzone; [|discriminate].
    case_bool_decide as Hknown; [intros [= <-]; left; reflexivity|].
    unfold make_command.
    destruct (v ← getitem payload "kelvin"; py_int v) as [k|ek] eqn:Ek;
      [|destruct ek; simpl; try discriminate;
        intros [= <-]; left; reflexivity].
    destruct (v ← getitem payload "brightness"; py_int v) as [b|eb] eqn:Eb;
      [|destruct eb; simpl; try discriminate;
        intros [= <-]; left; reflexivity].
    destruct (v ← getitem payload "transition"; py_int v) as [t|et] eqn:Et;
      [|destruct et; simpl; try discriminate;
        intros [= <-]; left; reflexivity].
    simpl.
    destruct (enqueue q _) as [r tr'] eqn:Henq. simpl. intros ->.
    right. exists text, payload, zv, k, b, t.
    rewrite Henq. repeat split; assumption.
  - destruct e0; simpl; try discriminate. intros [= <-]. left. reflexivity.
Qed.

Lemma json_command_fields (z : string) (k b t : json) (d : gmap string json) :
  json_command z k b t = JObject d ->
  REQUIRED_FIELDS ∖ dom d = ∅
  /\ getitem d "zone" = Ok (JString z)
  /\ getitem d "kelvin" = Ok k
  /\ getitem d "brightness" = Ok b
  /\ getitem d "transition" = Ok t.
Proof.
  unfold json_command. intros [= <-]. split.
  - unfold REQUIRED_FIELDS. rewrite !dom_insert_L. set_solver.
  - unfold getitem. repeat split; simplify_map_eq; reflexivity.
Qed.

End ListenerFacts.

(** C5 (the failing input): a packet that is a JSON object with the four
    keys, names a configured zone and has an infinite [kelvin] (for
    instance the JSON number [1e999]) makes the listener raise
    [OverflowError] to its caller: the [except (TypeError, ValueError)]
    clause does not catch it. *)
Theorem infinite_kelvin_escapes_listener {runtime : PyRuntime}
    (known_zones : gset string) (q : Queue UdpCommand)
    (data : list Byte.byte) (text z : string) (s : bool) (b t : json) :
  utf8_decode data = Some text ->
  json_loads text = Ok (json_command z (JFloat (S754_infinity s)) b t) ->
  z ∈ known_zones ->
  fst (datagram_received known_zones q data) = Raise OverflowError.
Proof.
  intros Hdecode Hloads Hknown.
  unfold datagram_received, decode_command. rewrite Hdecode, Hloads.
  destruct (json_command z (JFloat (S754_infinity s)) b t)
    as [| | | | | |d] eqn:Hd; try discriminate.
  destruct (json_command_fields _ _ _ _ _ Hd)
    as (Hmissing & Hzone & Hk & Hb & Ht).
  rewrite Hmissing.
  case_bool_decide; [congruence|].
  rewrite Hzone. simpl.
  case_bool_decide; [contradiction|].
  unfold make_command. rewrite Hk. reflexivity.
Qed.

Lemma infinite_kelvin_escapes_listener_witness :
  fst (datagram_received (runtime := fixture_runtime)
         (dom (zones fixture_config)) (Queue_new 100) (packet "inf"))
  = Raise OverflowError.
Proof.
  apply (infinite_kelvin_escapes_listener (runtime := fixture_runtime)
           (dom (zones fixture_config)) (Queue_new 100) (packet "inf")
           "inf" "ceiling" false (JInt 1) (JInt 1)).
  - reflexivity.
  - reflexivity.
  - vm_compute. reflexivity.
Defined.

(** * Further properties of the converters *)

(** X1: with a positive lower bound the result never grows with kelvin: a
    higher colour temperature never gives more mireds. *)
Theorem kelvin_to_mireds_monotone (k1 k2 mn mx m1 m2 : Z) :
  0 < mn -> k1 <= k2 ->
  kelvin_to_mireds k1 mn mx = Ok m1 ->
  kelvin_to_mireds k2 mn mx = Ok m2 ->
  m2 <= m1.
Proof.
  intros Hmn Hk. rewrite !kelvin_to_mireds_positive by assumption.
  intros [= <-] [= <-].
  apply Z.div_le_compat_l; lia.
Qed.

Lemma kelvin_to_mireds_monotone_witness : 153 <= 370.
Proof.
  apply (kelvin_to_mireds_monotone 2700 6500 2700 6500 370 153);
    [lia | lia | reflexivity | reflexivity].
Defined.

(** X2: with ordered positive bounds the conversion always returns, the
    result lies between the mireds of the two bounds, and at or past a
    bound it is the mireds of that bound. *)
Theorem kelvin_to_mireds_within_bounds (kelvin mn mx : Z) :
  0 < mn -> mn <= mx ->
  exists m, kelvin_to_mireds kelvin mn mx = Ok m
    /\ 1000000 / mx <= m <= 1000000 / mn
    /\ (kelvin <= mn -> m = 1000000 / mn)
    /\ (mx <= kelvin -> m = 1000000 / mx).
Proof.
  intros Hmn Hle. exists (1000000 / Z.max mn (Z.min mx kelvin)).
  split; [apply kelvin_to_mireds_positive; assumption|].
  split; [split; apply Z.div_le_compat_l; lia|].
  split; intros Hk; f_equal; lia.
Qed.

Lemma kelvin_to_mireds_within_bounds_witness :
  exists m, kelvin_to_mireds 9000 2700 6500 = Ok m
    /\ 1000000 / 6500 <= m <= 1000000 / 2700
    /\ (9000 <= 2700 -> m = 1000000 / 2700)
    /\ (6500 <= 9000 -> m = 1000000 / 6500).
Proof. apply (kelvin_to_mireds_within_bounds 9000 2700 6500); lia. Defined.

Lemma kelvin_to_mireds_raises (kelvin mn mx : Z) (e : exn) :
  kelvin_to_mireds kelvin mn mx = Raise e -> e = ZeroDivisionError.
Proof.
  unfold kelvin_to_mireds.
  destruct (_ =? 0); [intros [= <-]; reflexivity|discriminate].
Qed.

(** X3: the only exception of the conversion is [ZeroDivisionError], and some
    kelvin value triggers it exactly when the lower bound is zero, or is
    negative with a non-negative upper bound. *)
Theorem kelvin_to_mireds_zero_division (mn mx : Z) :
  (forall kelvin e, kelvin_to_mireds kelvin mn mx = Raise e ->
     e = ZeroDivisionError)
  /\ ((exists kelvin, kelvin_to_mireds kelvin mn mx = Raise ZeroDivisionError)
      <-> mn = 0 \/ (mn < 0 /\ 0 <= mx)).
Proof.
  split.
  - intros kelvin e. apply kelvin_to_mireds_raises.
  - split.
    + intros [kelvin Hk]. unfold kelvin_to_mireds in Hk.
      destruct (Z.eqb_spec (Z.max mn (Z.min mx kelvin)) 0); [lia|discriminate].
    + intros Hb. exists 0. unfold kelvin_to_mireds.
      destruct (Z.eqb_spec (Z.max mn (Z.min mx 0)) 0); [reflexivity|lia].
Qed.

(** X4: with the bounds the wrong way round the requested kelvin is ignored:
    the result is always that of the lower bound. *)
Theorem kelvin_to_mireds_inverted_bounds (kelvin mn mx : Z) :
  mx < mn ->
  kelvin_to_mireds kelvin mn mx = kelvin_to_mireds mn mn mn.
Proof.
  intros Hinv. unfold kelvin_to_mireds.
  replace (Z.max mn (Z.min mx kelvin)) with mn by lia.
  replace (Z.max mn (Z.min mn mn)) with mn by lia. reflexivity.
Qed.

Lemma kelvin_to_mireds_inverted_bounds_witness :
  kelvin_to_mireds 3000 6500 2700 = kelvin_to_mireds 6500 6500 6500.
Proof. apply (kelvin_to_mireds_inverted_bounds 3000 6500 2700). lia. Defined.

(** ** Rounding never produces a NaN *)

Lemma iter_pos_keeps {A : Type} (P : A -> Prop) (f : A -> A) :
  (forall x, P x -> P (f x)) ->
  forall (n : positive) (x : A), P x -> P (SpecFloat.iter_pos f n x).
Proof.
  intros Hf. induction n as [n IH|n IH|]; intros x Hx; simpl; auto.
Qed.

Lemma shr_1_nonneg (mrs : shr_record) :
  0 <= shr_m mrs -> 0 <= shr_m (shr_1 mrs).
Proof.
  destruct mrs as [m r s]. simpl.
  destruct m as [|[p|p|]|[p|p|]]; simpl; lia.
Qed.

Lemma shr_nonneg (mrs : shr_record) (e n : Z) :
  0 <= shr_m mrs -> 0 <= shr_m (fst (shr mrs e n)).
Proof.
  intros Hm. unfold shr. destruct n as [|p|p]; simpl; try assumption.
  apply (iter_pos_keeps (fun x => 0 <= shr_m x)); [|assumption].
  apply shr_1_nonneg.
Qed.

Lemma shr_fexp_nonneg (m e : Z) (l : location) :
  0 <= m -> 0 <= shr_m (fst (shr_fexp prec emax m e l)).
Proof.
  intros Hm. unfold shr_fexp. apply shr_nonneg.
  destruct l as [|[]]; simpl; assumption.
Qed.

Lemma round_nearest_even_nonneg (m : Z) (l : location) :
  0 <= m -> 0 <= round_nearest_even m l.
Proof.
  intros Hm. unfold round_nearest_even.
  destruct l as [|[]]; try destruct (Z.even m); lia.
Qed.

Lemma binary_round_aux_sign (s : bool) (m e : Z) (l : location) :
  0 <= m -> has_sign s (binary_round_aux prec emax s m e l).
Proof.
  intros Hm. unfold binary_round_aux.
  pose proof (shr_fexp_nonneg m e l Hm) as H1.
  destruct (shr_fexp prec emax m e l) as [mrs' e'].
  simpl in H1.
  pose proof (shr_fexp_nonneg
                (round_nearest_even (shr_m mrs') (loc_of_shr_record mrs'))
                e' loc_Exact
                (round_nearest_even_nonneg _ _ H1)) as H2.
  destruct (shr_fexp prec emax _ e' loc_Exact) as [mrs'' e''].
  simpl in H2.
  destruct (shr_m mrs'') as [|p|p]; simpl; [reflexivity| |lia].
  destruct (e'' <=? emax - prec); reflexivity.
Qed.

Lemma float_of_int_sign (n : Z) (x : float) :
  float_of_int n = Ok x ->
  is_finite x = true /\ (n <= 0 -> x = S754_zero false \/ has_sign true x)
  /\ (0 <= n -> has_sign false x).
Proof.
  unfold float_of_int, binary_normalize.
  destruct n as [|p|p].
  - intros [= <-]. repeat split; auto.
  - unfold binary_round.
    destruct (shl_align p 0 _) as [mz ez].
    pose proof (binary_round_aux_sign false (Z.pos mz) ez loc_Exact) as Hs.
    destruct (binary_round_aux prec emax false (Z.pos mz) ez loc_Exact);
      intros [= <-]; simpl in *; repeat split; try lia;
      try (apply Hs; lia); intros; apply Hs; lia.
  - unfold binary_round.
    destruct (shl_align p 0 _) as [mz ez].
    pose proof (binary_round_aux_sign true (Z.pos mz) ez loc_Exact) as Hs.
    destruct (binary_round_aux prec emax true (Z.pos mz) ez loc_Exact);
      intros [= <-]; simpl in *; repeat split; try lia;
      try (right; apply Hs; lia); intros; right; apply Hs; lia.
Qed.

Lemma fmul_finite_sign (x y : float) (sx sy : bool) :
  is_finite x = true -> is_finite y = true ->
  has_sign sx x -> has_sign sy y ->
  has_sign (xorb sx sy) (fmul x y).
Proof.
  intros Hx Hy Hsx Hsy. unfold fmul, SFmul.
  destruct x as [s1|s1| |s1 m1 e1], y as [s2|s2| |s2 m2 e2];
    simpl in *; try discriminate; subst; try reflexivity.
  apply binary_round_aux_sign. lia.
Qed.


Lemma int_of_float_signed (x : float) (s : bool) :
  has_sign s x ->
  int_of_float x = Raise OverflowError
  \/ exists p, int_of_float x = Ok p /\ (if s then p <= 0 else 0 <= p).
Proof.
  destruct x as [s'|s'| |s' m e]; simpl; try contradiction.
  - intros _. right. exists 0. split; [reflexivity|]. destruct s; lia.
  - intros _. left. reflexivity.
  - intros ->. right. eexists. split; [reflexivity|].
    assert (Hmag : 0 <= (if 0 <=? e then Z.pos m * 2 ^ e
                         else Z.pos m / 2 ^ (- e))).
    { destruct (Z.leb_spec 0 e).
      - apply Z.mul_nonneg_nonneg; [lia|]. apply Z.pow_nonneg. lia.
      - apply Z.div_pos; [lia|]. apply Z.pow_pos_nonneg; lia. }
    destruct s; simpl; lia.
Qed.

Lemma float_of_int_raises (n : Z) (e : exn) :
  float_of_int n = Raise e -> e = OverflowError.
Proof.
  unfold float_of_int.
  destruct (binary_normalize prec emax n 0 false); congruence.
Qed.



(** X6: a raw brightness and a multiplier of opposite signs give level 0 (or
    the overflow of an oversized raw value), never a positive level. *)
Theorem clamp_brightness_opposite_signs (raw : Z) (multiplier : float) :
  is_finite multiplier = true ->
  (raw <= 0 /\ has_sign false multiplier)
  \/ (0 <= raw /\ has_sign true multiplier) ->
  clamp_brightness raw multiplier = Ok 0
  \/ clamp_brightness raw multiplier = Raise OverflowError.
Proof.
  intros Hm Hsigns. unfold clamp_brightness.
  destruct (float_of_int raw) as [x|e] eqn:Hx;
    [|right; apply float_of_int_raises in Hx; subst e; reflexivity].
  destruct (float_of_int_sign raw x Hx) as (Hfin & Hneg & Hpos).
  assert (Hprod : fmul x multiplier = S754_zero false
                  \/ has_sign true (fmul x multiplier)).
  { destruct Hsigns as [[Hraw Hsy]|[Hraw Hsy]].
    - destruct (Hneg Hraw) as [->|Hsx].
      + left. destruct multiplier as [s| | |s m e]; simpl in *;
          try discriminate; subst s; reflexivity.
      + right. exact (fmul_finite_sign x multiplier true false Hfin Hm
                        Hsx Hsy).
    - right. exact (fmul_finite_sign x multiplier false true Hfin Hm
                      (Hpos Hraw) Hsy). }
  simpl. destruct Hprod as [->|Hs]; [left; reflexivity|].
  destruct (int_of_float_signed _ _ Hs) as [->|(p & -> & Hp)];
    [right; reflexivity|].
  left. simpl. f_equal. lia.
Qed.

Lemma clamp_brightness_opposite_signs_witness :
  clamp_brightness (-40) f_two = Ok 0
  \/ clamp_brightness (-40) f_two = Raise OverflowError.
Proof.
  apply (clamp_brightness_opposite_signs (-40) f_two); [reflexivity|].
  left. split; [lia|reflexivity].
Defined.

(** A raw brightness of zero gives level 0 under every finite
    multiplier, and [ValueError] under an infinite or NaN one. *)
Theorem clamp_brightness_zero_raw (multiplier : float) :
  clamp_brightness 0 multiplier
  = if is_finite multiplier then Ok 0 else Raise ValueError.
Proof. destruct multiplier as [s|s| |s m e]; reflexivity. Qed.

(** * Further properties of the listener and the queue *)

(** X7: a packet that names a configured zone and whose three numeric fields
    convert is enqueued with the converted values, whatever other keys
    it carries; the queue stays within its capacity. *)
Theorem well_formed_packet_is_enqueued {runtime : PyRuntime}
    (known_zones : gset string) (q : Queue UdpCommand)
    (data : list Byte.byte) (text : string) (payload : gmap string json)
    (zv vk vb vt : json) (k b t : Z) :
  queue_ok q ->
  utf8_decode data = Some text ->
  json_loads text = Ok (JObject payload) ->
  payload !! "zone"%string = Some zv -> py_str zv ∈ known_zones ->
  payload !! "kelvin"%string = Some vk -> py_int vk = Ok k ->
  payload !! "brightness"%string = Some vb -> py_int vb = Ok b ->
  payload !! "transition"%string = Some vt -> py_int vt = Ok t ->
  exists q',
    fst (datagram_received known_zones q data) = Ok q'
    /\ queue_ok q'
    /\ items q'
       = (if qsize q =? 100 then tail (items q) else items q)
           ++ [{| zone := py_str zv; kelvin := k; brightness := b;
                  transition := t |}].
Proof.
  intros Hq Hdecode Hloads Hz Hknown Hk Hkv Hb Hbv Ht Htv.
  unfold datagram_received, decode_command. rewrite Hdecode, Hloads.
  assert (Hmissing : REQUIRED_FIELDS ∖ dom payload = ∅).
  { apply set_eq. intros key. unfold REQUIRED_FIELDS.
    rewrite elem_of_difference, !elem_of_union, !elem_of_singleton,
      elem_of_dom.
    split; [|set_solver].
    intros [[[[->| ->]| ->]| ->] Hnone]; exfalso; apply Hnone; eauto. }
  rewrite Hmissing. case_bool_decide; [congruence|].
  unfold getitem at 1. rewrite Hz.
  case_bool_decide; [contradiction|].
  unfold make_command, getitem. rewrite Hk, Hb, Ht. simpl.
  rewrite Hkv, Hbv, Htv. simpl.
  destruct (enqueue_ok q {| zone := py_str zv; kelvin := k; brightness := b;
                            transition := t |} Hq)
    as (q' & Hq' & Hok & Hitems).
  destruct (enqueue q _) as [r tr']. simpl in *. eauto.
Qed.

(** The packet with an extra key and a transition given as text. *)
Lemma well_formed_packet_is_enqueued_witness :
  exists q',
    fst (datagram_received (runtime := fixture_runtime)
           (dom (zones fixture_config)) (Queue_new 100) (packet "extra"))
    = Ok q'
    /\ queue_ok q'
    /\ items q'
       = [{| zone := "ceiling"; kelvin := 3000; brightness := 7;
             transition := 8 |}].
Proof.
  apply (well_formed_packet_is_enqueued (runtime := fixture_runtime)
           (dom (zones fixture_config)) (Queue_new 100) (packet "extra")
           "extra"
           (<["note" := JNull]>
              (<["zone" := JString "ceiling"]> (<["kelvin" := JInt 3000]>
                (<["brightness" := JInt 7]>
                  (<["transition" := JString "8"]> ∅)))))
           (JString "ceiling") (JInt 3000) (JInt 7) (JString "8") 3000 7 8);
    try reflexivity.
  split; [reflexivity|]. unfold qsize. simpl. lia.
Defined.

(** X8: the zone is checked before the numeric fields are converted: a packet
    with the four keys that names an unknown zone is discarded with a
    warning and the queue untouched, whatever its other fields hold. *)
Theorem unknown_zone_is_discarded {runtime : PyRuntime}
    (known_zones : gset string) (q : Queue UdpCommand)
    (data : list Byte.byte) (text : string) (payload : gmap string json)
    (zv : json) :
  utf8_decode data = Some text ->
  json_loads text = Ok (JObject payload) ->
  REQUIRED_FIELDS ⊆ dom payload ->
  payload !! "zone"%string = Some zv ->
  py_str zv ∉ known_zones ->
  datagram_received known_zones q data
  = (Ok q, [Log DEBUG (MsgUdpPacket (length data));
            Log WARNING (MsgUnknownZone (py_str zv) known_zones)]).
Proof.
  intros Hdecode Hloads Hkeys Hz Hunknown.
  unfold datagram_received, decode_command. rewrite Hdecode, Hloads.
  assert (Hmissing : REQUIRED_FIELDS ∖ dom payload = ∅)
    by (apply subseteq_empty_difference_L; assumption).
  rewrite Hmissing. case_bool_decide; [congruence|].
  unfold getitem. rewrite Hz.
  case_bool_decide; [reflexivity|contradiction].
Qed.

Lemma unknown_zone_is_discarded_witness :
  datagram_received (runtime := fixture_runtime) (dom (zones fixture_config))
    (Queue_new 100) (packet "attic")
  = (Ok (Queue_new 100),
     [Log DEBUG (MsgUdpPacket (length (packet "attic")));
      Log WARNING (MsgUnknownZone "attic" (dom (zones fixture_config)))]).
Proof.
  apply (unknown_zone_is_discarded (runtime := fixture_runtime)
           (dom (zones fixture_config)) (Queue_new 100) (packet "attic")
           "attic"
           (<["zone" := JString "attic"]> (<["kelvin" := JInt 3000]>
              (<["brightness" := JInt 7]> (<["transition" := JInt 8]> ∅))))
           (JString "attic")); try reflexivity.
  all: apply (bool_decide_unpack _); vm_compute; exact I.
Defined.

(** X9: a packet lacking a required key is discarded with a warning that
    carries exactly the missing keys; the queue is untouched. *)
Theorem missing_field_is_discarded {runtime : PyRuntime}
    (known_zones : gset string) (q : Queue UdpCommand)
    (data : list Byte.byte) (text : string) (payload : gmap string json)
    (key : string) :
  utf8_decode data = Some text ->
  json_loads text = Ok (JObject payload) ->
  key ∈ REQUIRED_FIELDS -> payload !! key = None ->
  key ∈ REQUIRED_FIELDS ∖ dom payload
  /\ datagram_received known_zones q data
     = (Ok q, [Log DEBUG (MsgUdpPacket (length data));
               Log WARNING
                 (MsgMissingFields (REQUIRED_FIELDS ∖ dom payload))]).
Proof.
  intros Hdecode Hloads Hkey Hnone.
  assert (Hin : key ∈ REQUIRED_FIELDS ∖ dom payload).
  { apply elem_of_difference. split; [assumption|].
    rewrite elem_of_dom, Hnone. intros [v Hv]. discriminate. }
  split; [assumption|].
  unfold datagram_received, decode_command. rewrite Hdecode, Hloads.
  case_bool_decide as Hmissing; [reflexivity|].
  exfalso. rewrite Hmissing in Hin. exact (not_elem_of_empty key Hin).
Qed.

Lemma missing_field_is_discarded_witness :
  let payload : gmap string json :=
    <["zone" := JString "ceiling"]>
      (<["brightness" := JInt 7]> (<["transition" := JInt 8]> ∅)) in
  "kelvin"%string ∈ REQUIRED_FIELDS ∖ dom payload
  /\ datagram_received (runtime := fixture_runtime)
       (dom (zones fixture_config)) (Queue_new 100) (packet "nokelvin")
     = (Ok (Queue_new 100),
        [Log DEBUG (MsgUdpPacket (length (packet "nokelvin")));
         Log WARNING (MsgMissingFields (REQUIRED_FIELDS ∖ dom payload))]).
Proof.
  intros payload.
  apply (missing_field_is_discarded (runtime := fixture_runtime)
           (dom (zones fixture_config)) (Queue_new 100) (packet "nokelvin")
           "nokelvin" payload "kelvin"); reflexivity.
Defined.

Lemma decode_command_logs {runtime : PyRuntime} (known_zones : gset string)
    (data : list Byte.byte) (r : option UdpCommand) (tr : list effect) :
  decode_command known_zones data = (Ok r, tr) ->
  match r with
  | Some _ => tr = [Log DEBUG (MsgUdpPacket (length data))]
  | None => exists msg,
      tr = [Log DEBUG (MsgUdpPacket (length data)); Log WARNING msg]
  end.
Proof.
  unfold decode_command.
  destruct (utf8_decode data) as [text|];
    [|intros [= <- <-]; eauto].
  destruct (json_loads text) as [[| b | n | x | s | l | payload]|e0];
    try (intros [= <- <-]; eauto; fail).
  - case_bool_decide; [intros [= <- <-]; eauto|].
    destruct (getitem payload "zone") as [zv|e0]; [|discriminate].
    case_bool_decide; [intros [= <- <-]; eauto|].
    destruct (make_command (py_str zv) payload) as [cmd|e0].
    + intros [= <- <-]. reflexivity.
    + destruct e0; try discriminate; intros [= <- <-]; eauto.
  - destruct e0; try discriminate. intros [= <- <-]. eauto.
Qed.

(** X10: nothing is dropped silently: when the listener returns, either the
    command was appended behind everything already queued, or the last
    record logged is a warning (a discarded packet, or the eviction of
    the oldest command). *)
Theorem nothing_dropped_silently {runtime : PyRuntime}
    (known_zones : gset string) (q q' : Queue UdpCommand)
    (data : list Byte.byte) (tr : list effect) :
  datagram_received known_zones q data = (Ok q', tr) ->
  (exists cmd, items q' = items q ++ [cmd]
     /\ last tr = Some (Log DEBUG (MsgQueued cmd)))
  \/ (exists msg, last tr = Some (Log WARNING msg)).
Proof.
  unfold datagram_received.
  pose proof (decode_command_logs known_zones data) as Hlogs.
  destruct (decode_command known_zones data) as [[[cmd|]|e0] tr0];
    [| |discriminate].
  - specialize (Hlogs (Some cmd) tr0 eq_refl). simpl in Hlogs. subst tr0.
    unfold enqueue, put_nowait.
    destruct (full q).
    + destruct (_ ≫= _) as [q1|e1]; [|discriminate].
      intros [= <- <-]. right. eexists. reflexivity.
    + intros [= <- <-]. left. exists cmd. split; reflexivity.
  - destruct (Hlogs None tr0 eq_refl) as [msg ->].
    intros [= <- <-]. right. exists msg. reflexivity.
Qed.

Lemma nothing_dropped_silently_witness :
  (exists cmd, items (Queue_new (A := UdpCommand) 100) = [] ++ [cmd]
     /\ last [Log DEBUG (MsgUdpPacket 4); Log WARNING MsgNotObject]
        = Some (Log DEBUG (MsgQueued cmd)))
  \/ (exists msg,
        last [Log DEBUG (MsgUdpPacket 4); Log WARNING MsgNotObject]
        = Some (Log WARNING msg)).
Proof.
  apply (nothing_dropped_silently (runtime := fixture_runtime)
           (dom (zones fixture_config)) (Queue_new 100) (Queue_new 100)
           (packet "list")).
  vm_compute. reflexivity.
Defined.

Lemma datagram_received_raises_witness :
  (exists text,
     utf8_decode (PyRuntime := fixture_runtime) (packet "inf") = Some text
     /\ json_loads (PyRuntime := fixture_runtime) text = Raise OverflowError
     /\ OverflowError <> JSONDecodeError)
  \/ OverflowError = OverflowError.
Proof.
  apply (datagram_received_raises (runtime := fixture_runtime)
           (dom (zones fixture_config)) (Queue_new 100) (packet "inf")).
  - split; [reflexivity|]. unfold qsize. simpl. lia.
  - vm_compute. reflexivity.
Defined.

(** X12: [_drain_queue] removes everything whatever the queue holds, returns
    the number of commands removed and logs it unless it is zero. *)
Theorem drain_queue_counts {A : Type} (q : Queue A) :
  _drain_queue q
  = ({| maxsize := maxsize q; items := [] |},
     Z.of_nat (length (items q)),
     if Z.of_nat (length (items q)) =? 0 then []
     else [Log INFO (MsgDrained (Z.of_nat (length (items q))))]).
Proof.
  unfold _drain_queue. rewrite drain_loop_empties by lia. reflexivity.
Qed.

(** X13: commands leave the queue in the order they came in and none is
    dispatched twice: along any run, the commands dispatched followed by
    those still queued form a sub-sequence of the commands queued at the
    start followed by those enqueued during the run. *)
Theorem dispatch_follows_arrival {C : Type} {client_ops : MatterClient C}
    {runtime : PyRuntime} (config : BridgeConfig) (evs : list (event C))
    (b : bridge C) :
  dispatched config b evs ++ items (queue (run config b evs))
    `sublist_of` items (queue b) ++ enqueued config b evs.
Proof.
  revert b. induction evs as [|ev evs IH]; intros b; simpl.
  - rewrite app_nil_r. reflexivity.
  - transitivity
      (taken b ev
         ++ (items (queue (step config b ev))
               ++ enqueued config (step config b ev) evs)).
    + rewrite <- app_assoc. apply sublist_app; [reflexivity|apply IH].
    + rewrite !app_assoc. apply sublist_app; [apply step_sublist|reflexivity].
Qed.

(** * Further properties of the dispatch *)

Lemma str_int_ok_small (n : Z) : Z.abs n <= 1000000 -> str_int_ok n = true.
Proof.
  intros Hn. unfold str_int_ok. apply Z.ltb_lt.
  assert (H : 1000000 < int_str_limit) by (vm_compute; reflexivity).
  lia.
Qed.

Lemma kelvin_to_mireds_small (kelvin mn mx m : Z) :
  kelvin_to_mireds kelvin mn mx = Ok m -> Z.abs m <= 1000000.
Proof.
  unfold kelvin_to_mireds.
  destruct (Z.eqb_spec (Z.max mn (Z.min mx kelvin)) 0) as [|Hne];
    [discriminate|].
  intros [= <-]. rewrite <- Z.quot_abs by exact Hne.
  apply Z.quot_le_upper_bound; [lia|nia].
Qed.

(** Whether the dry-run line can be written depends on the command and
    the zone only. *)
Lemma printable_writable (cmd : UdpCommand) (zone_cfg : ZoneConfig)
    (mireds level : Z) :
  clamp_brightness (brightness cmd) (brightness_multiplier zone_cfg)
    = Ok level ->
  kelvin_to_mireds (kelvin cmd) (min_kelvin zone_cfg) (max_kelvin zone_cfg)
    = Ok mireds ->
  printable cmd zone_cfg mireds level (transition cmd * 100)
  = writable cmd zone_cfg.
Proof.
  intros Hb Hm. unfold printable, writable.
  rewrite (str_int_ok_small mireds)
    by (eapply kelvin_to_mireds_small; eassumption).
  rewrite (str_int_ok_small level)
    by (apply clamp_brightness_range in Hb; lia).
  rewrite !andb_true_r. reflexivity.
Qed.

(** X14: with a client whose failures are exceptions, a dry run ends and
    leaves the zone state exactly as a live dispatch does, as long as the
    line it prints can be written.  When it cannot (an [int] of more than
    4300 digits) and the command is converted and not skipped, the dry
    run raises [ValueError] at the print and leaves the state as it was,
    where the live dispatch returns and records the new pair. *)
Theorem dry_run_updates_state_like_live {C : Type}
    {client_ops : MatterClient C} (c : C) (client : option C)
    (zone_cfg : ZoneConfig) (zone_state : ZoneState) (cmd : UdpCommand)
    (config : BridgeConfig) :
  only_Exceptions ->
  let live :=
    send_zone_command (Some c) zone_cfg zone_state cmd config false in
  let dry := send_zone_command client zone_cfg zone_state cmd config true in
  (writable cmd zone_cfg = true ->
   state_after dry = state_after live /\ result dry = result live)
  /\ (writable cmd zone_cfg = false ->
      forall mireds level,
        clamp_brightness (brightness cmd) (brightness_multiplier zone_cfg)
          = Ok level ->
        kelvin_to_mireds (kelvin cmd) (min_kelvin zone_cfg)
          (max_kelvin zone_cfg) = Ok mireds ->
        dedup_skip zone_state config mireds level = false ->
        result dry = Raise ValueError
        /\ state_after dry = zone_state
        /\ result live = Ok ()
        /\ state_after live
           = {| last_mireds := mireds; last_brightness := level |}).
Proof.
  intros Hexn live dry. subst live dry. split.
  - intros Hw. unfold send_zone_command.
    destruct (clamp_brightness _ _) as [level|e] eqn:Hb;
      [|split; reflexivity].
    destruct (kelvin_to_mireds _ _ _) as [mireds|e] eqn:Hm;
      [|split; reflexivity].
    destruct (dedup_skip _ _ _ _); [split; reflexivity|].
    unfold transmit. rewrite (printable_writable _ _ _ _ Hb Hm), Hw.
    destruct (send_to_bulbs_all_calls (node_ids zone_cfg) c
                (endpoint_id zone_cfg) mireds level (transition cmd) Hexn)
      as (c' & tr & -> & _).
    split; reflexivity.
  - intros Hw mireds level Hb Hm Hskip.
    rewrite !(send_zone_command_converted _ _ _ _ _ _ _ _ Hb Hm), Hskip.
    unfold transmit. rewrite (printable_writable _ _ _ _ Hb Hm), Hw.
    destruct (send_to_bulbs_all_calls (node_ids zone_cfg) c
                (endpoint_id zone_cfg) mireds level (transition cmd) Hexn)
      as (c' & tr & -> & _).
    repeat split.
Qed.

(** A transition of 4300 digits, half of [10 ^ 4300], can still be read
    from a packet, and its hundredfold cannot be written. *)
Lemma dry_run_updates_state_like_live_witness :
  let cmd := {| zone := "ceiling"; kelvin := 6500; brightness := 254;
                transition := Z.div2 int_str_limit |} in
  let live :=
    send_zone_command (client_ops := dead_client_sends) (Some DeadClient)
      ceiling ZoneState_default cmd fixture_config false in
  let dry :=
    send_zone_command (client_ops := dead_client_sends) None ceiling
      ZoneState_default cmd fixture_config true in
  (state_after (send_zone_command (client_ops := dead_client_sends)
                  None ceiling ZoneState_default noon fixture_config true)
   = state_after (send_zone_command (client_ops := dead_client_sends)
                    (Some DeadClient) ceiling ZoneState_default noon
                    fixture_config false))
  /\ result dry = Raise ValueError
  /\ state_after dry = ZoneState_default
  /\ result live = Ok ()
  /\ state_after live = {| last_mireds := 153; last_brightness := 254 |}.
Proof.
  intros cmd live dry.
  assert (Hexn : only_Exceptions (client_ops := dead_client_sends)).
  { intros c node_id endpoint_id command e. simpl. intros [= <-].
    reflexivity. }
  split.
  - apply (proj1 (dry_run_updates_state_like_live
                    (client_ops := dead_client_sends) DeadClient None
                    ceiling ZoneState_default noon fixture_config Hexn)).
    vm_compute. reflexivity.
  - apply (proj2 (dry_run_updates_state_like_live
                    (client_ops := dead_client_sends) DeadClient None
                    ceiling ZoneState_default cmd fixture_config Hexn));
      vm_compute; reflexivity.
Defined.

(** X15: with positive thresholds and a positive lower kelvin bound, a command
    repeated right after a dispatch that returned is skipped: nothing is
    sent or printed and the state and the client stay as they are. *)
Theorem repeated_command_is_skipped {C : Type} {client_ops : MatterClient C}
    (client : option C) (zone_cfg : ZoneConfig) (zone_state : ZoneState)
    (cmd : UdpCommand) (config : BridgeConfig) (dry_run : bool) :
  0 < dedup_mireds_threshold config ->
  0 < dedup_brightness_threshold config ->
  0 < min_kelvin zone_cfg ->
  let o1 := send_zone_command client zone_cfg zone_state cmd config dry_run in
  result o1 = Ok () ->
  let o2 := send_zone_command (client_after o1) zone_cfg (state_after o1) cmd
              config dry_run in
  result o2 = Ok ()
  /\ state_after o2 = state_after o1
  /\ client_after o2 = client_after o1
  /\ exists dm db, effects o2 = [Log DEBUG (MsgDedupSkip (zone cmd) dm db)].
Proof.
  intros Hthm Hthb Hmin o1 Hr1 o2. subst o1 o2.
  destruct (clamp_brightness (brightness cmd) (brightness_multiplier zone_cfg))
    as [level|e] eqn:Hb;
    [|unfold send_zone_command in Hr1; rewrite Hb in Hr1; discriminate].
  destruct (kelvin_to_mireds (kelvin cmd) (min_kelvin zone_cfg)
              (max_kelvin zone_cfg)) as [mireds|e] eqn:Hm;
    [|unfold send_zone_command in Hr1; rewrite Hb, Hm in Hr1; discriminate].
  pose proof (kelvin_to_mireds_nonneg _ _ _ _ Hmin Hm) as Hpos.
  rewrite (send_zone_command_converted _ _ zone_state _ _ _ _ _ Hb Hm) in *.
  destruct (dedup_skip zone_state config mireds level) eqn:Hskip.
  - simpl.
    rewrite (send_zone_command_converted _ _ zone_state _ _ _ _ _ Hb Hm).
    rewrite Hskip. simpl. eauto 10.
  - assert (Hstate : state_after
                       (transmit client zone_cfg zone_state cmd mireds level
                          dry_run)
                     = {| last_mireds := mireds; last_brightness := level |}).
    { apply (transmit_first_effect client zone_cfg zone_state cmd mireds
               level dry_run). exact Hr1. }
    rewrite Hstate.
    rewrite (send_zone_command_converted _ _ _ _ _ _ _ _ Hb Hm).
    assert (Hagain : dedup_skip
                       {| last_mireds := mireds; last_brightness := level |}
                       config mireds level = true).
    { apply dedup_skip_true. simpl. rewrite !Z.sub_diag. simpl. lia. }
    rewrite Hagain. simpl. eauto 10.
Qed.

Lemma repeated_command_is_skipped_witness :
  let o1 := send_zone_command (client_ops := live_client_sends)
              (Some {| served := 0 |}) ceiling ZoneState_default noon
              fixture_config false in
  let o2 := send_zone_command (client_ops := live_client_sends)
              (client_after o1) ceiling (state_after o1) noon fixture_config
              false in
  result o2 = Ok ()
  /\ state_after o2 = state_after o1
  /\ client_after o2 = client_after o1
  /\ exists dm db, effects o2 = [Log DEBUG (MsgDedupSkip "ceiling" dm db)].
Proof.
  apply (repeated_command_is_skipped (client_ops := live_client_sends)
           (Some {| served := 0 |}) ceiling ZoneState_default noon
           fixture_config false); reflexivity.
Defined.

(** X16: a command whose colour or level is at least a threshold away from
    the values last sent is never skipped; so a threshold of zero or less
    switches the deduplication off. *)
Theorem change_beyond_threshold_is_sent {C : Type}
    {client_ops : MatterClient C} (client : option C) (zone_cfg : ZoneConfig)
    (zone_state : ZoneState) (cmd : UdpCommand) (config : BridgeConfig)
    (dry_run : bool) (mireds level : Z) :
  clamp_brightness (brightness cmd) (brightness_multiplier zone_cfg)
    = Ok level ->
  kelvin_to_mireds (kelvin cmd) (min_kelvin zone_cfg) (max_kelvin zone_cfg)
    = Ok mireds ->
  dedup_mireds_threshold config <= Z.abs (mireds - last_mireds zone_state)
  \/ dedup_brightness_threshold config
       <= Z.abs (level - last_brightness zone_state) ->
  send_zone_command client zone_cfg zone_state cmd config dry_run
  = transmit client zone_cfg zone_state cmd mireds level dry_run
  /\ (dedup_mireds_threshold config <= 0
       \/ dedup_brightness_threshold config <= 0 ->
      forall other,
        send_zone_command client zone_cfg other cmd config dry_run
        = transmit client zone_cfg other cmd mireds level dry_run).
Proof.
  intros Hb Hm Hfar.
  assert (Hno : forall st,
             dedup_mireds_threshold config <= Z.abs (mireds - last_mireds st)
             \/ dedup_brightness_threshold config
                  <= Z.abs (level - last_brightness st) ->
             dedup_skip st config mireds level = false).
  { intros st Hst. destruct (dedup_skip st config mireds level) eqn:E;
      [|reflexivity].
    apply dedup_skip_true in E. lia. }
  split.
  - rewrite (send_zone_command_converted _ _ _ _ _ _ _ _ Hb Hm).
    rewrite (Hno zone_state Hfar). reflexivity.
  - intros Hoff other.
    rewrite (send_zone_command_converted _ _ _ _ _ _ _ _ Hb Hm).
    rewrite (Hno other); [reflexivity|]. lia.
Qed.

(** Night (370 mireds, 20) after noon (153, 254) is far beyond both
    thresholds. *)
Lemma change_beyond_threshold_is_sent_witness :
  let sent := {| last_mireds := 153; last_brightness := 254 |} in
  send_zone_command (client_ops := live_client_sends)
    (Some {| served := 4 |}) ceiling sent night fixture_config false
  = transmit (client_ops := live_client_sends) (Some {| served := 4 |})
      ceiling sent night 370 20 false.
Proof.
  intros sent.
  refine (proj1 (change_beyond_threshold_is_sent
                   (client_ops := live_client_sends) (Some {| served := 4 |})
                   ceiling sent night fixture_config false 370 20
                   eq_refl eq_refl _)).
  left. vm_compute. discriminate.
Defined.

(** X17: a call that is cancelled (it raises something that is not an
    [Exception]) ends the dispatch at once: the exception leaves
    [send_zone_command], no further call is made and the zone state is
    not updated. *)
Theorem cancelled_call_stops_dispatch {C : Type} {client_ops : MatterClient C}
    (c c' : C) (zone_cfg : ZoneConfig) (zone_state : ZoneState)
    (cmd : UdpCommand) (config : BridgeConfig) (mireds level node_id : Z)
    (rest : list Z) (e : exn) :
  clamp_brightness (brightness cmd) (brightness_multiplier zone_cfg)
    = Ok level ->
  kelvin_to_mireds (kelvin cmd) (min_kelvin zone_cfg) (max_kelvin zone_cfg)
    = Ok mireds ->
  dedup_skip zone_state config mireds level = false ->
  node_ids zone_cfg = node_id :: rest ->
  send_device_command c node_id (endpoint_id zone_cfg)
    (MoveToColorTemperature mireds (transition cmd) 1 1) = (Raise e, c') ->
  is_Exception e = false ->
  let o := send_zone_command (Some c) zone_cfg zone_state cmd config false in
  result o = Raise e
  /\ state_after o = zone_state
  /\ client_after o = Some c'
  /\ device_commands (effects o)
     = [DeviceCommand node_id (endpoint_id zone_cfg)
          (MoveToColorTemperature mireds (transition cmd) 1 1)].
Proof.
  intros Hb Hm Hskip Hnodes Hcall He o. subst o.
  rewrite (send_zone_command_converted _ _ _ _ _ _ _ _ Hb Hm), Hskip.
  unfold transmit. rewrite Hnodes. simpl.
  unfold _send_to_bulb, guarded_call, call_client. rewrite Hcall, He.
  simpl. repeat split.
Qed.

Lemma cancelled_call_stops_dispatch_witness :
  let o := send_zone_command (client_ops := interrupted_client_sends)
             (Some {| calls_seen := 0 |}) ceiling ZoneState_default noon
             fixture_config false in
  result o = Raise CancelledError
  /\ state_after o = ZoneState_default
  /\ client_after o = Some {| calls_seen := 1 |}
  /\ device_commands (effects o)
     = [DeviceCommand 11 1 (MoveToColorTemperature 153 8 1 1)].
Proof.
  apply (cancelled_call_stops_dispatch
           (client_ops := interrupted_client_sends) {| calls_seen := 0 |}
           {| calls_seen := 1 |} ceiling ZoneState_default noon
           fixture_config 153 254 11 [12] CancelledError); reflexivity.
Defined.

(** X18: the state of a zone changes only when a command for that very zone
    is dispatched: every other event, reconnections included, and every
    dispatch for another zone leaves it as it is. *)
Theorem zone_state_changes_only_on_own_dispatch {C : Type}
    {client_ops : MatterClient C} {runtime : PyRuntime}
    (config : BridgeConfig) (b : bridge C) (ev : event C) (z : string) :
  (forall cmd, taken b ev = [cmd] -> zone cmd <> z) ->
  zone_states (step config b ev) !! z = zone_states b !! z.
Proof.
  intros Hother.
  assert (Hdequeue : forall client dry_run,
             (forall cmd, match get_nowait (queue b) with
                          | Ok (cmd', _) => [cmd']
                          | Raise _ => []
                          end = [cmd] -> zone cmd <> z) ->
             zone_states (on_dequeue config b client dry_run) !! z
             = zone_states b !! z).
  { intros client dry_run Hz. unfold on_dequeue.
    destruct (get_nowait (queue b)) as [[cmd q']|e]; [|reflexivity].
    assert (Hbody : (command_loop_body client config (zone_states b) cmd
                       dry_run).1.1.2 !! z = zone_states b !! z).
    { unfold command_loop_body.
      destruct (zones config !! zone cmd); [|reflexivity].
      destruct (zone_states b !! zone cmd); [|reflexivity].
      simpl. apply lookup_insert_ne. apply Hz. reflexivity. }
    destruct (command_loop_body _ _ _ _ _) as [[[r zs] client'] tr].
    simpl in Hbody.
    destruct r as [[]|e]; [assumption|].
    destruct dry_run; [assumption|].
    rewrite (proj1 (proj2 (on_exception_keeps _ e))). assumption. }
  unfold step, taken in *.
  destruct (at_phase b) eqn:Hp, ev; simpl; auto;
    try (rewrite (proj1 (proj2 (on_exception_keeps b e))); reflexivity);
    try (rewrite (proj1 (proj2 (on_datagram_keeps config b data)));
         reflexivity).
  destruct (on_connected_spec config b client) as (_ & _ & _ & ->).
  reflexivity.
Qed.

(** Zone states survive a dropped session and the reconnection. *)
Lemma zone_state_changes_only_on_own_dispatch_witness :
  let b := live_run fixture_config (live_start fixture_config)
             [ConnectOk {| served := 0 |}; Datagram (packet "noon");
              Dequeue; Raised ConnectionResetError; SleepDone] in
  zone_states (live_step fixture_config b (ConnectOk {| served := 0 |}))
    !! "ceiling"%string
  = zone_states b !! "ceiling"%string.
Proof.
  intros b.
  apply (zone_state_changes_only_on_own_dispatch
           (client_ops := live_client_sends) (runtime := fixture_runtime)
           fixture_config b (ConnectOk {| served := 0 |}) "ceiling").
  vm_compute. discriminate.
Defined.

Lemma clamp_brightness_raises (raw : Z) (multiplier : float) (e : exn) :
  clamp_brightness raw multiplier = Raise e ->
  e = OverflowError \/ e = ValueError.
Proof.
  unfold clamp_brightness.
  destruct (float_of_int raw) as [x|e0] eqn:Hx; simpl.
  - destruct (fmul x multiplier); simpl; intros [= <-]; auto.
  - intros [= <-]. left. eapply float_of_int_raises. eassumption.
Qed.

(** X19: a queued command whose conversion raises (an oversized brightness, a
    NaN product, a zero kelvin after clamping) ends the reconnect loop:
    no [except] clause handles the exception, nothing is sent and the
    zone states stay as they are. *)
Theorem conversion_error_ends_the_loop {C : Type}
    {client_ops : MatterClient C} {runtime : PyRuntime}
    (config : BridgeConfig) (b : bridge C) (c : C) (cmd : UdpCommand)
    (rest : list UdpCommand) (zone_cfg : ZoneConfig) (e : exn) :
  at_phase b = Connected c ->
  items (queue b) = cmd :: rest ->
  zones config !! zone cmd = Some zone_cfg ->
  is_Some (zone_states b !! zone cmd) ->
  clamp_brightness (brightness cmd) (brightness_multiplier zone_cfg)
    = Raise e
  \/ ((exists level,
         clamp_brightness (brightness cmd) (brightness_multiplier zone_cfg)
         = Ok level)
      /\ kelvin_to_mireds (kelvin cmd) (min_kelvin zone_cfg)
           (max_kelvin zone_cfg) = Raise e) ->
  let b' := step config b Dequeue in
  at_phase b' = Exited (Uncaught e)
  /\ zone_states b' = zone_states b
  /\ trace b' = trace b
  /\ main (Ok config) (fun _ => raised_by (Uncaught e)) = 1.
Proof.
  intros Hp Hq Hcfg [zone_state Hst] Hraise b'. subst b'.
  assert (He : e = OverflowError \/ e = ValueError \/ e = ZeroDivisionError).
  { destruct Hraise as [Hb|[_ Hm]].
    - destruct (clamp_brightness_raises _ _ _ Hb); auto.
    - right. right. eapply kelvin_to_mireds_raises. eassumption. }
  assert (Hsend : send_zone_command (Some c) zone_cfg zone_state cmd config
                    false
                  = {| result := Raise e; state_after := zone_state;
                       client_after := Some c; effects := [] |}).
  { unfold send_zone_command.
    destruct Hraise as [->|[[level ->] ->]]; reflexivity. }
  unfold step. rewrite Hp. unfold on_dequeue, get_nowait. rewrite Hq.
  unfold command_loop_body. rewrite Hcfg, Hst, Hsend. simpl.
  rewrite (insert_id _ _ _ Hst), app_nil_r.
  destruct He as [-> | [-> | ->]]; repeat split.
Qed.

Lemma conversion_error_ends_the_loop_witness :
  let b := live_run fixture_config (live_start fixture_config)
             [ConnectOk {| served := 0 |}; Datagram (packet "huge")] in
  let b' := live_step fixture_config b Dequeue in
  at_phase b' = Exited (Uncaught OverflowError)
  /\ zone_states b' = zone_states b
  /\ trace b' = trace b
  /\ main (Ok fixture_config) (fun _ => raised_by (Uncaught OverflowError))
     = 1.
Proof.
  intros b.
  apply (conversion_error_ends_the_loop (client_ops := live_client_sends)
           (runtime := fixture_runtime) fixture_config b {| served := 0 |}
           {| zone := "ceiling"; kelvin := 4000; brightness := 10 ^ 400;
              transition := 8 |} [] ceiling OverflowError).
  - reflexivity.
  - vm_compute. reflexivity.
  - reflexivity.
  - eexists. vm_compute. reflexivity.
  - left. vm_compute. reflexivity.
Defined.

(** * Further properties of the running bridge *)

Lemma Forall_sublist_of {A : Type} (P : A -> Prop) (l k : list A) :
  l `sublist_of` k -> Forall P k -> Forall P l.
Proof.
  induction 1 as [|x l k Hlk IH|x l k Hlk IH]; intros Hk.
  - constructor.
  - inversion Hk; subst. constructor; auto.
  - inversion Hk; subst. auto.
Qed.

Lemma make_command_zone {runtime : PyRuntime} (z : string)
    (payload : gmap string json) (cmd : UdpCommand) :
  make_command z payload = Ok cmd -> zone cmd = z.
Proof.
  unfold make_command.
  destruct (getitem payload "kelvin" ≫= _) as [k|e1]; [|discriminate].
  destruct (getitem payload "brightness" ≫= _) as [b|e1]; [|discriminate].
  destruct (getitem payload "transition" ≫= _) as [t|e1]; [|discriminate].
  intros [= <-]. reflexivity.
Qed.

Lemma decode_command_known_zone {runtime : PyRuntime}
    (known_zones : gset string) (data : list Byte.byte) (cmd : UdpCommand)
    (tr : list effect) :
  decode_command known_zones data = (Ok (Some cmd), tr) ->
  zone cmd ∈ known_zones.
Proof.
  unfold decode_command.
  destruct (utf8_decode data) as [text|]; [|discriminate].
  destruct (json_loads text) as [[| b | n | x | s | l | payload]|e0];
    try discriminate.
  - case_bool_decide; [discriminate|].
    destruct (getitem payload "zone") as [zv|e0]; [|discriminate].
    case_bool_decide as Hknown; [discriminate|].
    destruct (make_command (py_str zv) payload) as [cmd'|e1] eqn:Hmake;
      [|destruct e1; discriminate].
    intros [= <- <-]. rewrite (make_command_zone _ _ _ Hmake). assumption.
  - destruct e0; discriminate.
Qed.

Section ConsistencyFacts.
Context {C : Type} {client_ops : MatterClient C} {runtime : PyRuntime}.

Lemma step_zones_consistent (config : BridgeConfig) (b : bridge C)
    (ev : event C) :
  zones_consistent config b -> zones_consistent config (step config b ev).
Proof.
  intros [Hdom Hq].
  assert (Hexn : forall e, zones_consistent config (on_exception b e)).
  { intros e. destruct (on_exception_keeps b e) as (Hq' & Hz' & _).
    split; [rewrite Hz'|rewrite Hq']; assumption. }
  assert (Hdatagram : forall data,
             zones_consistent config (on_datagram config b data)).
  { intros data. split.
    - rewrite (proj1 (proj2 (on_datagram_keeps config b data))). assumption.
    - destruct (on_datagram_queue config b data)
        as [->|(cmd & tr & Hdec & Henq)]; [assumption|].
      destruct (enqueue_sublist _ _ _ Henq) as (_ & kept & -> & Hkept).
      apply Forall_app. split.
      + eapply Forall_sublist_of; eassumption.
      + constructor; [|constructor].
        eapply decode_command_known_zone. eassumption. }
  assert (Hdequeue : forall client dry_run,
             zones_consistent config (on_dequeue config b client dry_run)).
  { intros client dry_run. split.
    - unfold on_dequeue.
      destruct (get_nowait (queue b)) as [[cmd q']|e]; [|assumption].
      assert (Hbody : dom (command_loop_body client config (zone_states b)
                             cmd dry_run).1.1.2 = dom (zones config)).
      { unfold command_loop_body.
        destruct (zones config !! zone cmd); [|assumption].
        destruct (zone_states b !! zone cmd) eqn:Hst; [|assumption].
        simpl. rewrite dom_insert_lookup_L by eauto. assumption. }
      destruct (command_loop_body _ _ _ _ _) as [[[r zs] client'] tr].
      simpl in Hbody.
      destruct r as [[]|e]; [assumption|].
      destruct dry_run; [assumption|].
      rewrite (proj1 (proj2 (on_exception_keeps _ e))). assumption.
    - destruct (on_dequeue_queue config b client dry_run) as [_ Hd].
      destruct (items (queue b)) as [|cmd rest] eqn:E.
      + rewrite Hd, E. constructor.
      + rewrite Hd. simpl. inversion Hq; subst. assumption. }
  unfold step.
  destruct (at_phase b) eqn:Hp, ev; simpl; auto; try (split; assumption).
  - destruct (on_connected_spec config b client) as (_ & _ & Hq' & Hz').
    split; [rewrite Hz'; assumption|rewrite Hq'; constructor].
Qed.

Lemma run_zones_consistent (config : BridgeConfig) (evs : list (event C))
    (b : bridge C) :
  zones_consistent config b -> zones_consistent config (run config b evs).
Proof.
  revert b. induction evs as [|ev evs IH]; intros b Hb; [assumption|].
  apply IH, step_zones_consistent, Hb.
Qed.

End ConsistencyFacts.

(** X20: along every run each configured zone has a state and each queued
    command names a configured zone, so the command loop always finds
    both the configuration and the state of the command it takes: its
    unknown-zone branch is never entered and its state lookup never
    fails. *)
Theorem queued_commands_name_configured_zones {C : Type}
    {client_ops : MatterClient C} {runtime : PyRuntime}
    (config : BridgeConfig) (dry_run : bool) (evs : list (event C)) :
  let b := run config (run_bridge config dry_run) evs in
  dom (zone_states b) = dom (zones config)
  /\ forall cmd, cmd ∈ items (queue b) ->
       is_Some (zones config !! zone cmd)
       /\ is_Some (zone_states b !! zone cmd).
Proof.
  intros b.
  assert (Hb : zones_consistent config b).
  { apply run_zones_consistent. split; [|constructor].
    simpl. apply dom_fmap_L. }
  destruct Hb as [Hdom Hq]. split; [assumption|].
  intros cmd Hin. rewrite Forall_forall in Hq.
  specialize (Hq cmd Hin).
  rewrite <- !elem_of_dom, Hdom. split; assumption.
Qed.

Lemma enqueue_no_calls (q : Queue UdpCommand) (cmd : UdpCommand) :
  device_commands (snd (enqueue q cmd)) = [].
Proof.
  unfold enqueue. destruct (put_nowait q cmd) as [q'|e]; [reflexivity|].
  destruct e; reflexivity.
Qed.

Lemma decode_command_no_calls {runtime : PyRuntime}
    (known_zones : gset string) (data : list Byte.byte) :
  device_commands (snd (decode_command known_zones data)) = [].
Proof.
  unfold decode_command.
  destruct (utf8_decode data) as [text|]; [|reflexivity].
  destruct (json_loads text) as [[| b | n | x | s | l | payload]|e0];
    try reflexivity.
  - case_bool_decide; [reflexivity|].
    destruct (getitem payload "zone") as [zv|e0]; [|reflexivity].
    case_bool_decide; [reflexivity|].
    destruct (make_command (py_str zv) payload) as [cmd|e0]; [reflexivity|].
    destruct e0; reflexivity.
  - destruct e0; reflexivity.
Qed.

Lemma datagram_received_no_calls {runtime : PyRuntime}
    (known_zones : gset string) (q : Queue UdpCommand)
    (data : list Byte.byte) :
  device_commands (snd (datagram_received known_zones q data)) = [].
Proof.
  unfold datagram_received.
  pose proof (decode_command_no_calls known_zones data) as Hdec.
  destruct (decode_command known_zones data) as [[[cmd|]|e] tr];
    simpl in *; try assumption.
  pose proof (enqueue_no_calls q cmd) as Henq.
  destruct (enqueue q cmd) as [r tr']. simpl in *.
  rewrite device_commands_app, Hdec, Henq. reflexivity.
Qed.

Lemma send_zone_command_dry_run {C : Type} {client_ops : MatterClient C}
    (client : option C) (zone_cfg : ZoneConfig) (zone_state : ZoneState)
    (cmd : UdpCommand) (config : BridgeConfig) :
  let o := send_zone_command client zone_cfg zone_state cmd config true in
  device_commands (effects o) = [] /\ client_after o = client.
Proof.
  unfold send_zone_command.
  destruct (clamp_brightness _ _) as [level|e]; [|split; reflexivity].
  destruct (kelvin_to_mireds _ _ _) as [mireds|e]; [|split; reflexivity].
  destruct (dedup_skip _ _ _ _); [split; reflexivity|].
  unfold transmit. destruct (printable _ _ _ _ _); split; reflexivity.
Qed.

Section DryRunFacts.
Context {C : Type} {client_ops : MatterClient C} {runtime : PyRuntime}.

Lemma step_dry (config : BridgeConfig) (b : bridge C) (ev : event C) :
  dry b -> dry (step config b ev).
Proof.
  intros [[Hp|[t Hp]] Htr]; unfold step; rewrite Hp;
    [|split; [right; eauto|assumption]].
  destruct ev as [data|client|e| |]; simpl.
  - split.
    + left. rewrite (proj1 (on_datagram_keeps config b data)). assumption.
    + unfold on_datagram.
      pose proof (datagram_received_no_calls (dom (zones config)) (queue b)
                    data) as Hrecv.
      destruct (datagram_received _ _ _) as [[q'|e] tr];
        unfold log; cbn [trace snd] in *;
        rewrite !device_commands_app, Htr, Hrecv; reflexivity.
  - split; [left|]; assumption.
  - split; [right; eexists; reflexivity|assumption].
  - unfold on_dequeue.
    destruct (get_nowait (queue b)) as [[cmd q']|e];
      [|split; [left|]; assumption].
    assert (Hbody : device_commands
                      (command_loop_body None config (zone_states b) cmd
                         true).2 = []
                    /\ (command_loop_body None config (zone_states b) cmd
                          true).1.2 = None).
    { unfold command_loop_body.
      destruct (zones config !! zone cmd) as [zone_cfg|];
        [|split; reflexivity].
      destruct (zone_states b !! zone cmd) as [zone_state|];
        [|split; reflexivity].
      simpl. apply send_zone_command_dry_run. }
    destruct (command_loop_body _ _ _ _ _) as [[[r zs] client'] tr].
    simpl in Hbody. destruct Hbody as [Hcalls ->].
    destruct r as [[]|e]; unfold dry, goto; cbn [at_phase trace].
    + split; [left; assumption|].
      rewrite device_commands_app, Htr, Hcalls. reflexivity.
    + split; [right; eexists; reflexivity|].
      rewrite device_commands_app, Htr, Hcalls. reflexivity.
  - split; [left|]; assumption.
Qed.

Lemma run_dry (config : BridgeConfig) (evs : list (event C)) (b : bridge C) :
  dry b -> dry (run config b evs).
Proof.
  revert b. induction evs as [|ev evs IH]; intros b Hb; [assumption|].
  apply IH, step_dry, Hb.
Qed.

End DryRunFacts.

(** X21: a bridge started with [--dry-run] never calls the downstream client
    and never leaves the dry-run loop except by terminating, whatever
    packets arrive and whatever is dispatched. *)
Theorem dry_run_never_calls_downstream {C : Type}
    {client_ops : MatterClient C} {runtime : PyRuntime}
    (config : BridgeConfig) (evs : list (event C)) :
  let b := run config (run_bridge config true) evs in
  device_commands (trace b) = []
  /\ (at_phase b = DryRun \/ exists t, at_phase b = Exited t).
Proof.
  intros b.
  assert (Hb : dry b).
  { apply run_dry. split; [left; reflexivity|reflexivity]. }
  destruct Hb as [Hp Htr]. split; assumption.
Qed.

(** * Configuration loading *)

Lemma bind_Ok {A B : Type} (r : res A) (k : A -> res B) (b : B) :
  (r ≫= k) = Ok b -> exists a, r = Ok a /\ k a = Ok b.
Proof.
  destruct r as [a|e]; [|discriminate]. intros H. exists a.
  split; [reflexivity|exact H].
Qed.

Section LoadConfigFacts.
Context {runtime : PyRuntime} {config_runtime : ConfigRuntime}.

Lemma ints_of_length (l : list yaml) (ns : list Z) :
  ints_of l = Ok ns -> length ns = length l.
Proof.
  revert ns. induction l as [|v l IH]; intros ns; simpl.
  - intros [= <-]. reflexivity.
  - intros H. apply bind_Ok in H as (n & _ & H).
    apply bind_Ok in H as (ns' & Hns & [= <-]).
    simpl. f_equal. apply IH. exact Hns.
Qed.

Lemma load_zone_inv (z : string) (zone_data : yaml) (zc : ZoneConfig) :
  load_zone z zone_data = Ok zc ->
  exists d first others,
    zone_data = YMap d
    /\ dict_get d "node_ids" = Some (YSeq (first :: others))
    /\ name zc = z
    /\ ints_of (first :: others) = Ok (node_ids zc)
    /\ yaml_int (get_or d "endpoint_id" (YInt 1)) = Ok (endpoint_id zc)
    /\ yaml_float (get_or d "brightness_multiplier" (YFloat f_one))
       = Ok (brightness_multiplier zc)
    /\ yaml_int (get_or d "min_kelvin" (YInt 2700)) = Ok (min_kelvin zc)
    /\ yaml_int (get_or d "max_kelvin" (YInt 6500)) = Ok (max_kelvin zc).
Proof.
  unfold load_zone. destruct zone_data as [| | | | | |d]; try discriminate.
  intros H. apply bind_Ok in H as (v & Hv & H).
  unfold require in Hv. destruct (dict_get d "node_ids") as [v'|] eqn:Hd;
    [|discriminate].
  injection Hv as ->.
  destruct v as [| | | | |[|first others]|]; try discriminate.
  apply bind_Ok in H as (ids & Hids & H).
  apply bind_Ok in H as (ep & Hep & H).
  apply bind_Ok in H as (mu & Hmu & H).
  apply bind_Ok in H as (mn & Hmn & H).
  apply bind_Ok in H as (mx & Hmx & [= <-]).
  exists d, first, others. simpl. repeat split; assumption.
Qed.

Lemma load_zone_named (z : string) (zone_data : yaml) (zc : ZoneConfig) :
  load_zone z zone_data = Ok zc -> name zc = z /\ node_ids zc <> [].
Proof.
  intros H. apply load_zone_inv in H
    as (d & first & others & _ & _ & Hn & Hids & _).
  split; [exact Hn|]. apply ints_of_length in Hids.
  destruct (node_ids zc); [discriminate|discriminate].
Qed.

Lemma load_zones_spec (zl : list (string * yaml))
    (acc zs : gmap string ZoneConfig) :
  load_zones zl acc = Ok zs ->
  dom zs = dom acc ∪ list_to_set zl.*1
  /\ forall z zc, zs !! z = Some zc ->
       acc !! z = Some zc
       \/ exists zd, (z, zd) ∈ zl /\ load_zone z zd = Ok zc.
Proof.
  revert acc. induction zl as [|[z0 zd0] zl IH]; intros acc; simpl.
  - intros [= <-]. split; [simpl; rewrite (right_id_L ∅ (∪)); reflexivity|].
    auto.
  - intros H. apply bind_Ok in H as (zc0 & Hz0 & H).
    apply IH in H as [Hdom Hall]. split.
    + rewrite Hdom, dom_insert_L. simpl.
      rewrite (comm_L (∪) {[z0]} (dom acc)), <- (assoc_L (∪)). reflexivity.
    + intros z zc Hz. destruct (Hall z zc Hz) as [Hacc|(zd & Hin & Hl)].
      * destruct (decide (z0 = z)) as [->|Hne].
        -- rewrite lookup_insert_eq in Hacc. injection Hacc as <-.
           right. exists zd0. split; [left|exact Hz0].
        -- rewrite lookup_insert_ne in Hacc by exact Hne. left. exact Hacc.
      * right. exists zd. split; [right; exact Hin|exact Hl].
Qed.

Lemma load_zones_lookup (zl : list (string * yaml))
    (acc zs : gmap string ZoneConfig) (z : string) (zd : yaml) :
  load_zones zl acc = Ok zs -> NoDup zl.*1 -> (z, zd) ∈ zl ->
  exists zc, zs !! z = Some zc /\ load_zone z zd = Ok zc.
Proof.
  revert acc. induction zl as [|[z0 zd0] zl IH]; intros acc; simpl.
  - intros _ _ Hin. inversion Hin.
  - intros H Hnd Hin. apply bind_Ok in H as (zc0 & Hz0 & H).
    apply NoDup_cons in Hnd as [Hnotin Hnd].
    apply elem_of_cons in Hin as [[= -> ->]|Hin].
    + exists zc0. split; [|exact Hz0].
      destruct (load_zones_spec _ _ _ H) as [Hdom Hall].
      assert (Hz : z0 ∈ dom zs).
      { rewrite Hdom, dom_insert_L, !elem_of_union, elem_of_singleton. auto. }
      apply elem_of_dom in Hz as [zc Hzc].
      destruct (Hall z0 zc Hzc) as [Hacc|(zd & Hin' & _)].
      * rewrite lookup_insert_eq in Hacc. congruence.
      * exfalso. apply Hnotin.
        exact (list_elem_of_fmap_2 fst zl (z0, zd) Hin').
    + eapply IH; eassumption.
Qed.

Lemma load_config_inv (path : string) (cfg : LoadedConfig) :
  load_config path = Ok cfg ->
  exists raw first others,
    path_exists path = true
    /\ yaml_safe_load path = Ok (YMap raw)
    /\ dict_get raw "zones" = Some (YMap (first :: others))
    /\ load_zones (first :: others) ∅ = Ok (zones (pipeline cfg))
    /\ matter_server_url cfg
       = get_or raw "matter_server_url" (YStr "ws://localhost:5580/ws")
    /\ udp_listen_ip cfg = get_or raw "udp_listen_ip" (YStr "127.0.0.1")
    /\ yaml_int (get_or raw "udp_listen_port" (YInt 10001))
       = Ok (udp_listen_port cfg)
    /\ yaml_float (get_or raw "reconnect_initial_delay" (YFloat f_two))
       = Ok (reconnect_initial_delay (pipeline cfg))
    /\ yaml_float (get_or raw "reconnect_max_delay" (YFloat f_sixty))
       = Ok (reconnect_max_delay (pipeline cfg))
    /\ yaml_float (get_or raw "reconnect_multiplier" (YFloat f_two))
       = Ok (reconnect_multiplier (pipeline cfg))
    /\ yaml_int (get_or raw "dedup_mireds_threshold" (YInt 10))
       = Ok (dedup_mireds_threshold (pipeline cfg))
    /\ yaml_int (get_or raw "dedup_brightness_threshold" (YInt 5))
       = Ok (dedup_brightness_threshold (pipeline cfg)).
Proof.
  unfold load_config. destruct (path_exists path); [|discriminate]. simpl.
  intros H. apply bind_Ok in H as (v & Hv & H).
  destruct v as [| | | | | |raw]; try discriminate.
  apply bind_Ok in H as (zv & Hzv & H).
  unfold require in Hzv.
  destruct (dict_get raw "zones") as [zv'|] eqn:Hd; [|discriminate].
  injection Hzv as ->.
  destruct zv as [| | | | | |[|first others]]; try discriminate.
  apply bind_Ok in H as (zs & Hzs & H).
  apply bind_Ok in H as (port & Hport & H).
  apply bind_Ok in H as (d0 & Hd0 & H).
  apply bind_Ok in H as (d1 & Hd1 & H).
  apply bind_Ok in H as (d2 & Hd2 & H).
  apply bind_Ok in H as (tm & Htm & H).
  apply bind_Ok in H as (tb & Htb & [= <-]).
  exists raw, first, others. simpl. repeat split; assumption.
Qed.

Lemma load_zones_app (good rest : list (string * yaml))
    (acc : gmap string ZoneConfig) :
  load_zones (good ++ rest) acc
  = (zs ← load_zones good acc; load_zones rest zs).
Proof.
  revert acc. induction good as [|[z zd] good IH]; intros acc; simpl.
  - reflexivity.
  - destruct (load_zone z zd) as [zc|e]; simpl; [apply IH|reflexivity].
Qed.

Lemma load_zones_good (good : list (string * yaml))
    (acc : gmap string ZoneConfig) :
  Forall (fun p => returns (load_zone p.1 p.2) = true) good ->
  exists zs, load_zones good acc = Ok zs.
Proof.
  intros Hgood. revert acc.
  induction Hgood as [|[z zd] good Hz _ IH]; intros acc; simpl.
  - eauto.
  - simpl in Hz. destruct (load_zone z zd) as [zc|e]; [|discriminate].
    simpl. apply IH.
Qed.

Lemma zone_defect_raises (z : string) (zd : yaml) :
  zone_defect zd -> load_zone z zd = Raise ValueError.
Proof.
  unfold zone_defect, load_zone, require.
  destruct zd as [| | | | | |d]; try reflexivity.
  destruct (dict_get d "node_ids") as [[| | | | |[|first others]|]|];
    try reflexivity.
  intros [].
Qed.

Lemma config_defect_raises (path : string) (raw : yaml) :
  path_exists path = true ->
  yaml_safe_load path = Ok raw ->
  config_defect raw ->
  load_config path = Raise ValueError.
Proof.
  intros Hex Hraw. unfold load_config, config_defect, require.
  rewrite Hex, Hraw. unfold mbind, res_bind, negb.
  destruct raw as [| | | | | |d]; try reflexivity.
  destruct (dict_get d "zones") as [[| | | | | |[|first others]]|];
    try reflexivity.
  intros (good & z & zd & rest & Heq & Hgood & Hdefect).
  assert (Hl : load_zones (first :: others) ∅ = Raise ValueError).
  { rewrite Heq, load_zones_app.
    destruct (load_zones_good good ∅ Hgood) as [zs ->]. simpl.
    rewrite (zone_defect_raises z zd Hdefect). reflexivity. }
  rewrite Hl. reflexivity.
Qed.

End LoadConfigFacts.

(** X22: a configuration file that exists but whose structure is wrong (the
    document is no mapping, [zones] is missing or is no non-empty mapping,
    or the first zone that does not load is no mapping or has no non-empty
    [node_ids] list) makes [load_config] raise [ValueError], which [main]
    turns into exit status 1 without starting the bridge. *)
Theorem structural_defect_is_a_configuration_error
    {runtime : PyRuntime} {config_runtime : ConfigRuntime}
    (path : string) (raw : yaml) (bridge_raises : BridgeConfig -> exn) :
  path_exists path = true ->
  yaml_safe_load path = Ok raw ->
  config_defect raw ->
  load_config path = Raise ValueError
  /\ main (cfg ← load_config path; Ok (pipeline cfg)) bridge_raises = 1.
Proof.
  intros Hex Hraw Hdefect.
  rewrite (config_defect_raises path raw Hex Hraw Hdefect).
  split; reflexivity.
Qed.

(** The second zone of the broken file has an empty list of bulbs. *)
Lemma structural_defect_is_a_configuration_error_witness :
  fixture_load_config "broken.yaml" = Raise ValueError
  /\ main (cfg ← fixture_load_config "broken.yaml"; Ok (pipeline cfg))
       (fun _ => KeyboardInterrupt) = 1.
Proof.
  apply (structural_defect_is_a_configuration_error
           (runtime := fixture_runtime)
           (config_runtime := fixture_config_runtime)
           "broken.yaml" broken_yaml).
  - reflexivity.
  - reflexivity.
  - exists [("ceiling"%string, YMap [("node_ids"%string, YSeq [YInt 11])])],
      "desk"%string, (YMap [("node_ids"%string, YSeq [])]), [].
    split; [reflexivity|]. split; [|exact I].
    constructor; [reflexivity|constructor].
Defined.

(** X23: the zones of a loaded configuration are exactly the keys of the
    file's [zones] mapping; there is at least one, and each carries its
    key as its name, a non-empty list of bulbs and the values converted
    from an entry of that key. *)
Theorem loaded_zones_come_from_the_file
    {runtime : PyRuntime} {config_runtime : ConfigRuntime}
    (path : string) (cfg : LoadedConfig) :
  load_config path = Ok cfg ->
  exists raw zones_raw,
    yaml_safe_load path = Ok (YMap raw)
    /\ dict_get raw "zones" = Some (YMap zones_raw)
    /\ zones (pipeline cfg) <> ∅
    /\ dom (zones (pipeline cfg)) = list_to_set zones_raw.*1
    /\ forall z zone_cfg,
         zones (pipeline cfg) !! z = Some zone_cfg ->
         name zone_cfg = z
         /\ node_ids zone_cfg <> []
         /\ exists zone_data,
              (z, zone_data) ∈ zones_raw
              /\ load_zone z zone_data = Ok zone_cfg.
Proof.
  intros H. apply load_config_inv in H
    as (raw & first & others & _ & Hraw & Hz & Hzs & _).
  exists raw, (first :: others).
  destruct (load_zones_spec _ _ _ Hzs) as [Hdom Hall].
  rewrite dom_empty_L, (left_id_L ∅ (∪)) in Hdom.
  split; [exact Hraw|]. split; [exact Hz|]. split; [|split; [exact Hdom|]].
  - intros Hempty. rewrite Hempty, dom_empty_L in Hdom.
    destruct first as [z0 zd0]. simpl in Hdom.
    assert (Hin : z0 ∈ (∅ : gset string)).
    { rewrite Hdom, elem_of_union, elem_of_singleton. auto. }
    exact (not_elem_of_empty _ Hin).
  - intros z zone_cfg Hl.
    destruct (Hall z zone_cfg Hl) as [Hacc|(zd & Hin & Hload)].
    + rewrite lookup_empty in Hacc. discriminate.
    + destruct (load_zone_named _ _ _ Hload) as [Hn Hids].
      split; [exact Hn|]. split; [exact Hids|]. eauto.
Qed.

Lemma loaded_zones_come_from_the_file_witness :
  exists cfg, fixture_load_config "config.yaml" = Ok cfg
  /\ dom (zones (pipeline cfg)) = {[ "ceiling"; "desk" ]}%string.
Proof.
  destruct (fixture_load_config "config.yaml") as [cfg|e] eqn:Hload;
    [|vm_compute in Hload; discriminate].
  exists cfg. split; [reflexivity|].
  destruct (loaded_zones_come_from_the_file
              (runtime := fixture_runtime)
              (config_runtime := fixture_config_runtime)
              "config.yaml" cfg Hload)
    as (raw & zl & Hraw & Hz & _ & Hdom & _).
  injection Hraw as <-. injection Hz as <-.
  rewrite Hdom. simpl. rewrite (right_id_L ∅ (∪)). reflexivity.
Defined.

Lemma int_setting_of {runtime : PyRuntime} (d : list (string * yaml))
    (key : string) (fallback v : Z) :
  yaml_int (get_or d key (YInt fallback)) = Ok v ->
  int_setting d key fallback v.
Proof.
  unfold get_or, int_setting. intros H. split.
  - intros n Hn. rewrite Hn in H. simpl in H. congruence.
  - intros Hn. rewrite Hn in H. simpl in H. congruence.
Qed.

Lemma float_setting_of {config_runtime : ConfigRuntime}
    (d : list (string * yaml)) (key : string) (fallback v : float) :
  yaml_float (get_or d key (YFloat fallback)) = Ok v ->
  float_setting d key fallback v.
Proof.
  unfold get_or, float_setting. intros H. repeat split.
  - intros x Hx. rewrite Hx in H. simpl in H. congruence.
  - intros n Hn. rewrite Hn in H. exact H.
  - intros Hn. rewrite Hn in H. simpl in H. congruence.
Qed.

(** X24: each zone entry of the file gives a zone whose endpoint, multiplier
    and kelvin bounds are the numbers written in the entry, unchanged and
    unchecked (the bounds may be zero, negative or the wrong way round),
    and 1, 1.0, 2700 and 6500 where the key is left out.  The zone names
    of the file are distinct, as the keys of a [dict] are. *)
Theorem zone_settings_are_taken_unchecked
    {runtime : PyRuntime} {config_runtime : ConfigRuntime}
    (path : string) (cfg : LoadedConfig) (raw zones_raw : list (string * yaml))
    (z : string) (zone_data : list (string * yaml)) :
  load_config path = Ok cfg ->
  yaml_safe_load path = Ok (YMap raw) ->
  dict_get raw "zones" = Some (YMap zones_raw) ->
  NoDup zones_raw.*1 ->
  (z, YMap zone_data) ∈ zones_raw ->
  exists zone_cfg,
    zones (pipeline cfg) !! z = Some zone_cfg
    /\ int_setting zone_data "endpoint_id" 1 (endpoint_id zone_cfg)
    /\ float_setting zone_data "brightness_multiplier" f_one
         (brightness_multiplier zone_cfg)
    /\ int_setting zone_data "min_kelvin" 2700 (min_kelvin zone_cfg)
    /\ int_setting zone_data "max_kelvin" 6500 (max_kelvin zone_cfg).
Proof.
  intros H Hraw Hz Hnd Hin. apply load_config_inv in H
    as (raw' & first & others & _ & Hraw' & Hz' & Hzs & _).
  rewrite Hraw in Hraw'. injection Hraw' as <-.
  rewrite Hz in Hz'. injection Hz' as ->.
  destruct (load_zones_lookup _ _ _ z (YMap zone_data) Hzs Hnd Hin)
    as (zone_cfg & Hl & Hload).
  exists zone_cfg. split; [exact Hl|].
  apply load_zone_inv in Hload
    as (d & f & o & [= <-] & _ & _ & _ & Hep & Hmu & Hmn & Hmx).
  split; [exact (int_setting_of _ _ _ _ Hep)|].
  split; [exact (float_setting_of _ _ _ _ Hmu)|].
  split; [exact (int_setting_of _ _ _ _ Hmn)|].
  exact (int_setting_of _ _ _ _ Hmx).
Qed.

(** A lower bound of 6500 above an upper bound of 0 is loaded as it is. *)
Lemma zone_settings_are_taken_unchecked_witness :
  exists cfg zone_cfg,
    fixture_load_config "config.yaml" = Ok cfg
    /\ zones (pipeline cfg) !! "ceiling"%string = Some zone_cfg
    /\ min_kelvin zone_cfg = 6500 /\ max_kelvin zone_cfg = 0
    /\ endpoint_id zone_cfg = 1.
Proof.
  destruct (fixture_load_config "config.yaml") as [cfg|e] eqn:Hload;
    [|vm_compute in Hload; discriminate].
  exists cfg.
  destruct (fun Hnd Hin =>
              zone_settings_are_taken_unchecked
                (runtime := fixture_runtime)
                (config_runtime := fixture_config_runtime)
                "config.yaml" cfg _ _ "ceiling"
                [ ("node_ids", YSeq [YInt 11; YInt 12]);
                  ("min_kelvin", YInt 6500);
                  ("max_kelvin", YInt 0) ]%string
                Hload eq_refl eq_refl Hnd Hin)
    as (zone_cfg & Hl & Hep & _ & Hmn & Hmx).
  - apply (bool_decide_unpack _). vm_compute. reflexivity.
  - left.
  - exists zone_cfg. split; [reflexivity|]. split; [exact Hl|].
    split; [exact (proj1 Hmn 6500 eq_refl)|].
    split; [exact (proj1 Hmx 0 eq_refl)|].
    exact (proj2 Hep eq_refl).
Defined.

(** X25: the port, the three reconnect settings and the two thresholds of a
    loaded configuration are the numbers written in the file, unchanged
    and unchecked, and 10001, 2.0, 60.0, 2.0, 10 and 5 where the key is
    left out. *)
Theorem top_level_settings_are_taken_unchecked
    {runtime : PyRuntime} {config_runtime : ConfigRuntime}
    (path : string) (cfg : LoadedConfig) (raw : list (string * yaml)) :
  load_config path = Ok cfg ->
  yaml_safe_load path = Ok (YMap raw) ->
  int_setting raw "udp_listen_port" 10001 (udp_listen_port cfg)
  /\ float_setting raw "reconnect_initial_delay" f_two
       (reconnect_initial_delay (pipeline cfg))
  /\ float_setting raw "reconnect_max_delay" f_sixty
       (reconnect_max_delay (pipeline cfg))
  /\ float_setting raw "reconnect_multiplier" f_two
       (reconnect_multiplier (pipeline cfg))
  /\ int_setting raw "dedup_mireds_threshold" 10
       (dedup_mireds_threshold (pipeline cfg))
  /\ int_setting raw "dedup_brightness_threshold" 5
       (dedup_brightness_threshold (pipeline cfg)).
Proof.
  intros H Hraw. apply load_config_inv in H
    as (raw' & first & others & _ & Hraw' & _ & _ & _ & _
        & Hport & Hd0 & Hd1 & Hd2 & Htm & Htb).
  rewrite Hraw in Hraw'. injection Hraw' as <-.
  split; [exact (int_setting_of _ _ _ _ Hport)|].
  split; [exact (float_setting_of _ _ _ _ Hd0)|].
  split; [exact (float_setting_of _ _ _ _ Hd1)|].
  split; [exact (float_setting_of _ _ _ _ Hd2)|].
  split; [exact (int_setting_of _ _ _ _ Htm)|].
  exact (int_setting_of _ _ _ _ Htb).
Qed.

Lemma top_level_settings_are_taken_unchecked_witness :
  exists cfg,
    fixture_load_config "config.yaml" = Ok cfg
    /\ udp_listen_port cfg = 10001
    /\ reconnect_initial_delay (pipeline cfg) = f_two
    /\ float_of_int 30 = Ok (reconnect_max_delay (pipeline cfg)).
Proof.
  destruct (fixture_load_config "config.yaml") as [cfg|e] eqn:Hload;
    [|vm_compute in Hload; discriminate].
  exists cfg.
  destruct (top_level_settings_are_taken_unchecked
              (runtime := fixture_runtime)
              (config_runtime := fixture_config_runtime)
              "config.yaml" cfg _ Hload eq_refl)
    as (Hport & Hd0 & Hd1 & _).
  split; [reflexivity|]. split; [exact (proj2 Hport eq_refl)|].
  split; [exact (proj2 (proj2 Hd0) eq_refl)|].
  exact (proj1 (proj2 Hd1) 30 eq_refl).
Defined.

(** * The test sender and the bridge *)

Example f_three_is_float_3 : float_of_int 3 = Ok TestSender.f_three.
Proof. reflexivity. Qed.

Example f_three_halves_is_3_over_2 :
  SFdiv prec emax TestSender.f_three f_two = TestSender.f_three_halves.
Proof. reflexivity. Qed.

Lemma payload_of_decodes {runtime : PyRuntime}
    {sender_runtime : TestSender.SenderRuntime}
    (known_zones : gset string) (z : string) (k : Z) (b t : option Z) :
  round_trip (TestSender.payload_of z k b t) ->
  z ∈ known_zones ->
  let data :=
    TestSender.utf8_encode
      (TestSender.json_dumps (TestSender.payload_of z k b t)) in
  decode_command known_zones data
  = match b, t with
    | Some b, Some t =>
        (Ok (Some {| zone := z; kelvin := k; brightness := b;
                     transition := t |}),
         [Log DEBUG (MsgUdpPacket (length data))])
    | _, _ =>
        (Ok None,
         [Log DEBUG (MsgUdpPacket (length data));
          Log WARNING (MsgInvalidValues TypeError)])
    end.
Proof.
  intros [Hutf Hloads] Hz data. unfold decode_command. subst data.
  rewrite Hutf, Hloads. unfold TestSender.payload_of.
  destruct (json_command_fields z (JInt k) (TestSender.json_of b)
              (TestSender.json_of t) _ eq_refl)
    as (Hmissing & Hzone & Hk & Hb & Ht).
  rewrite Hmissing. case_bool_decide; [congruence|].
  rewrite Hzone. simpl py_str.
  case_bool_decide; [contradiction|].
  unfold make_command. rewrite Hk, Hb, Ht.
  destruct b as [b|], t as [t|]; reflexivity.
Qed.

Lemma packets_app (l k : list TestSender.action) :
  TestSender.packets (l ++ k) = TestSender.packets l ++ TestSender.packets k.
Proof. apply flat_map_app. Qed.

Lemma packets_wait (secs : float) (pause : bool) (label : string) :
  TestSender.packets (TestSender._wait secs pause label) = [].
Proof. destruct pause; reflexivity. Qed.

Lemma packets_send_step {sender_runtime : TestSender.SenderRuntime}
    (host : string) (port : Z) (z : string) (i total : Z) (label : string)
    (kelvin b t : option Z) (secs : float) (pause : bool) :
  TestSender.packets
    (TestSender.send_step host port z i total label kelvin b t secs pause)
  = match kelvin with
    | Some k =>
        [TestSender.utf8_encode
           (TestSender.json_dumps (TestSender.payload_of z k b t))]
    | None => []
    end.
Proof.
  unfold TestSender.send_step. destruct kelvin as [k|].
  - change (TestSender.packets (?a :: ?l)) with (TestSender.packets l).
    cbn [app]. cbn [TestSender.packets flat_map app].
    fold (TestSender.packets (TestSender._wait secs pause label)).
    rewrite packets_wait. reflexivity.
  - cbn [TestSender.packets flat_map app].
    fold (TestSender.packets (TestSender._wait secs pause label)).
    rewrite packets_wait. reflexivity.
Qed.

(** X26: a row with kelvin, brightness and transition makes [send_step] send
    one datagram, and the listener decodes it to the command with the same
    zone and numbers, provided its decoder undoes the sender's encoder on
    that payload and the zone is configured. *)
Theorem step_packet_is_decoded {runtime : PyRuntime}
    {sender_runtime : TestSender.SenderRuntime}
    (known_zones : gset string) (host : string) (port : Z) (z : string)
    (i total : Z) (label : string) (k b t : Z) (secs : float)
    (pause : bool) :
  round_trip (TestSender.payload_of z k (Some b) (Some t)) ->
  z ∈ known_zones ->
  exists data,
    TestSender.packets
      (TestSender.send_step host port z i total label (Some k) (Some b)
         (Some t) secs pause) = [data]
    /\ decodes_to known_zones data
         {| zone := z; kelvin := k; brightness := b; transition := t |}.
Proof.
  intros Hrt Hz. eexists. split; [rewrite packets_send_step; reflexivity|].
  exact (payload_of_decodes known_zones z k (Some b) (Some t) Hrt Hz).
Qed.

Lemma step_packet_is_decoded_witness :
  exists data,
    TestSender.packets
      (@TestSender.send_step loopback_sender "127.0.0.1" 10001 "ceiling"
         7 18 "Noon" (Some 6500) (Some 254) (Some 8) TestSender.f_three
         false) = [data]
    /\ @decodes_to loopback_runtime {[ "ceiling"%string ]} data noon.
Proof.
  apply (step_packet_is_decoded (runtime := loopback_runtime)
           (sender_runtime := loopback_sender)).
  - split; vm_compute; reflexivity.
  - apply elem_of_singleton. reflexivity.
Defined.

(** X27: [send_step] decides on the kelvin alone whether a row is sent: no
    kelvin, no packet; a kelvin without a brightness or a transition is
    still sent, with a JSON null, and the listener discards that packet
    as invalid ([TypeError]). *)
Theorem step_is_sent_on_kelvin_alone {runtime : PyRuntime}
    {sender_runtime : TestSender.SenderRuntime}
    (known_zones : gset string) (host : string) (port : Z) (z : string)
    (i total : Z) (label : string) (k : Z) (b t : option Z) (secs : float)
    (pause : bool) :
  b = None \/ t = None ->
  round_trip (TestSender.payload_of z k b t) ->
  z ∈ known_zones ->
  TestSender.packets
    (TestSender.send_step host port z i total label None b t secs pause)
  = []
  /\ exists data,
       TestSender.packets
         (TestSender.send_step host port z i total label (Some k) b t secs
            pause) = [data]
       /\ decode_command known_zones data
          = (Ok None,
             [Log DEBUG (MsgUdpPacket (length data));
              Log WARNING (MsgInvalidValues TypeError)]).
Proof.
  intros Hnone Hrt Hz. split; [apply packets_send_step|].
  eexists. split; [rewrite packets_send_step; reflexivity|].
  rewrite (payload_of_decodes known_zones z k b t Hrt Hz).
  destruct Hnone as [-> | ->]; [|destruct b]; reflexivity.
Qed.

Lemma step_is_sent_on_kelvin_alone_witness :
  TestSender.packets
    (@TestSender.send_step loopback_sender "127.0.0.1" 10001 "ceiling"
       1 1 "No brightness" None None (Some 8) TestSender.f_three false)
  = []
  /\ exists data,
       TestSender.packets
         (@TestSender.send_step loopback_sender "127.0.0.1" 10001 "ceiling"
            1 1 "No brightness" (Some 3000) None (Some 8)
            TestSender.f_three false) = [data]
       /\ @decode_command loopback_runtime {[ "ceiling"%string ]} data
          = (Ok None,
             [Log DEBUG (MsgUdpPacket (length data));
              Log WARNING (MsgInvalidValues TypeError)]).
Proof.
  apply (step_is_sent_on_kelvin_alone (runtime := loopback_runtime)
           (sender_runtime := loopback_sender)).
  - left. reflexivity.
  - split; vm_compute; reflexivity.
  - apply elem_of_singleton. reflexivity.
Defined.

Lemma cycle_decodes {runtime : PyRuntime}
    {sender_runtime : TestSender.SenderRuntime}
    (known_zones : gset string) (args : TestSender.Namespace)
    (default_sleep : float) (total i : Z) (rows : list TestSender.row) :
  Forall round_trip (omap (TestSender.row_payload (TestSender.arg_zone args))
                       rows) ->
  Forall
    (fun r =>
       is_Some (TestSender.row_payload (TestSender.arg_zone args) r) ->
       is_Some (TestSender.row_command (TestSender.arg_zone args) r))
    rows ->
  TestSender.arg_zone args ∈ known_zones ->
  Forall2 (decodes_to known_zones)
    (TestSender.packets (TestSender.cycle args default_sleep total i rows))
    (omap (TestSender.row_command (TestSender.arg_zone args)) rows).
Proof.
  intros Hrt Hfull Hz. revert i Hrt Hfull.
  induction rows as [|[[[[label kelvin] b] t] so] rows IH]; intros i Hrt Hfull.
  - constructor.
  - cbn [TestSender.cycle]. rewrite packets_app, packets_send_step.
    apply Forall_cons in Hfull as [Hrow Hfull].
    destruct kelvin as [k|].
    + cbn [omap list_omap TestSender.row_payload] in Hrt.
      unfold TestSender.row_payload in Hrt at 1.
      apply Forall_cons in Hrt as [Hrt1 Hrt].
      destruct Hrow as [cmd Hcmd]; [eexists; reflexivity|].
      destruct b as [b|]; [|discriminate].
      destruct t as [t|]; [|discriminate].
      cbn [omap list_omap TestSender.row_command app].
      constructor; [|apply IH; assumption].
      exact (payload_of_decodes known_zones _ k (Some b) (Some t) Hrt1 Hz).
    + cbn [omap list_omap TestSender.row_payload TestSender.row_command app]
        in *.
      apply IH; assumption.
Qed.

Lemma DAY_CYCLE_rows_complete (z : string) :
  Forall (fun r => is_Some (TestSender.row_payload z r) ->
                   is_Some (TestSender.row_command z r))
    TestSender.DAY_CYCLE.
Proof.
  assert (Hcheck : forallb
                     (fun r : TestSender.row =>
                        match r with
                        | (_, Some _, Some _, Some _, _) => true
                        | (_, None, _, _, _) => true
                        | _ => false
                        end) TestSender.DAY_CYCLE = true)
    by (vm_compute; reflexivity).
  rewrite forallb_forall in Hcheck. apply Forall_forall. intros r Hin.
  apply list_elem_of_In in Hin. specialize (Hcheck r Hin).
  destruct r as [[[[label [k|]] [b|]] [t|]] so]; try discriminate;
    try (intros _; eexists; reflexivity); intros [? [=]].
Qed.

Lemma run_packets {sender_runtime : TestSender.SenderRuntime}
    (args : TestSender.Namespace) :
  TestSender.packets (TestSender.run args None).2
  = TestSender.packets
      (TestSender.cycle args
         (if TestSender.arg_fast args then TestSender.f_three_halves
          else TestSender.f_three)
         (Z.of_nat (length TestSender.DAY_CYCLE)) 1 TestSender.DAY_CYCLE).
Proof.
  unfold TestSender.run. cbn [snd].
  rewrite !packets_app.
  rewrite app_nil_r.
  reflexivity.
Qed.

(** X28: an uninterrupted run sends 17 packets, one for each row of
    [DAY_CYCLE] that has values, in the order of the table, and the
    listener decodes each of them to the command of its row. *)
Theorem run_sends_the_cycle_in_order {runtime : PyRuntime}
    {sender_runtime : TestSender.SenderRuntime}
    (known_zones : gset string) (args : TestSender.Namespace) :
  Forall round_trip
    (omap (TestSender.row_payload (TestSender.arg_zone args))
       TestSender.DAY_CYCLE) ->
  TestSender.arg_zone args ∈ known_zones ->
  let sent := TestSender.packets (TestSender.run args None).2 in
  length sent = 17%nat
  /\ Forall2 (decodes_to known_zones) sent
       (omap (TestSender.row_command (TestSender.arg_zone args))
          TestSender.DAY_CYCLE).
Proof.
  intros Hrt Hz sent.
  assert (H2 : Forall2 (decodes_to known_zones) sent
                 (omap (TestSender.row_command (TestSender.arg_zone args))
                    TestSender.DAY_CYCLE)).
  { subst sent. rewrite run_packets.
    apply cycle_decodes; [exact Hrt|apply DAY_CYCLE_rows_complete|exact Hz]. }
  split; [|exact H2].
  rewrite (Forall2_length _ _ _ H2). reflexivity.
Qed.

Lemma run_sends_the_cycle_in_order_witness :
  let sent :=
    TestSender.packets
      (@TestSender.run loopback_sender default_args None).2 in
  length sent = 17%nat
  /\ Forall2 (@decodes_to loopback_runtime {[ "ceiling"%string ]}) sent
       (omap (TestSender.row_command "ceiling") TestSender.DAY_CYCLE).
Proof.
  apply (run_sends_the_cycle_in_order (runtime := loopback_runtime)
           (sender_runtime := loopback_sender) {[ "ceiling"%string ]}
           default_args).
  - cbv [omap list_omap TestSender.row_payload TestSender.DAY_CYCLE
         default_args TestSender.arg_zone].
    repeat (constructor; [split; vm_compute; reflexivity|]). constructor.
  - apply elem_of_singleton. reflexivity.
Defined.

Lemma wait_keeps_socket (secs : float) (pause : bool) (label : string) :
  Forall (fun a => a <> TestSender.CloseSocket)
    (TestSender._wait secs pause label).
Proof. destruct pause; repeat constructor; discriminate. Qed.

Lemma cycle_keeps_socket {sender_runtime : TestSender.SenderRuntime}
    (args : TestSender.Namespace) (default_sleep : float) (total i : Z)
    (rows : list TestSender.row) :
  Forall (fun a => a <> TestSender.CloseSocket)
    (TestSender.cycle args default_sleep total i rows).
Proof.
  revert i. induction rows as [|[[[[label kelvin] b] t] so] rows IH];
    intros i; cbn [TestSender.cycle].
  - constructor.
  - apply Forall_app. split; [|apply IH].
    unfold TestSender.send_step. constructor; [discriminate|].
    destruct kelvin as [k|].
    + apply Forall_app. split; [|apply wait_keeps_socket].
      repeat constructor; discriminate.
    + constructor; [discriminate|apply wait_keeps_socket].
Qed.

Lemma packets_take (n : nat) (l : list TestSender.action) :
  TestSender.packets (take n l) `prefix_of` TestSender.packets l.
Proof.
  exists (TestSender.packets (drop n l)).
  rewrite <- packets_app, take_drop. reflexivity.
Qed.

(** X29: however [run] ends, it closes the socket exactly once and sends
    nothing afterwards; the packets sent are a prefix of those of the
    uninterrupted run; and [run] returns normally unless an exception
    other than [KeyboardInterrupt] cut the loop short, which it raises. *)
Theorem run_closes_the_socket_once
    {sender_runtime : TestSender.SenderRuntime}
    (args : TestSender.Namespace) (stop : option (nat * exn)) :
  exists before after,
    (TestSender.run args stop).2 = before ++ TestSender.CloseSocket :: after
    /\ (TestSender.CloseSocket ∉ before)
    /\ (TestSender.CloseSocket ∉ after)
    /\ TestSender.packets after = []
    /\ (TestSender.packets before
        `prefix_of` TestSender.packets (TestSender.run args None).2)
    /\ ((TestSender.run args stop).1 = Ok ()
        \/ exists n e,
             stop = Some (n, e) /\ e <> KeyboardInterrupt
             /\ (TestSender.run args stop).1 = Raise e).
Proof.
  set (default_sleep := if TestSender.arg_fast args
                        then TestSender.f_three_halves
                        else TestSender.f_three).
  set (total := Z.of_nat (length TestSender.DAY_CYCLE)).
  set (loop := TestSender.cycle args default_sleep total 1
                 TestSender.DAY_CYCLE).
  set (banner := [TestSender.Say TestSender.LineSeparator;
                  TestSender.Say TestSender.LineTitle;
                  TestSender.Say
                    (TestSender.LineTarget (TestSender.arg_host args)
                       (TestSender.arg_port args));
                  TestSender.Say
                    (TestSender.LineZone (TestSender.arg_zone args));
                  TestSender.Say (TestSender.LineSteps total);
                  TestSender.Say
                    (TestSender.LineSleep default_sleep
                       (TestSender.arg_fast args));
                  TestSender.Say
                    (TestSender.LinePause (TestSender.arg_pause args));
                  TestSender.Say TestSender.LineSeparator]).
  set (footer := [TestSender.Say TestSender.LineSeparator;
                  TestSender.Say TestSender.LineComplete;
                  TestSender.Say TestSender.LineSeparator]).
  assert (Hloop : Forall (fun a => a <> TestSender.CloseSocket) loop)
    by apply cycle_keeps_socket.
  assert (Hbanner : Forall (fun a => a <> TestSender.CloseSocket) banner)
    by (repeat constructor; discriminate).
  assert (Hfooter : TestSender.CloseSocket ∉ footer).
  { intros Hin. eapply Forall_forall in Hin;
      [|instantiate (1 := fun a => a <> TestSender.CloseSocket);
        repeat constructor; discriminate].
    congruence. }
  assert (Hfull : TestSender.packets (TestSender.run args None).2
                  = TestSender.packets loop) by apply run_packets.
  assert (Hnotin : forall l, Forall (fun a => a <> TestSender.CloseSocket) l ->
                             TestSender.CloseSocket ∉ banner ++ l).
  { intros l Hl Hin. eapply Forall_forall in Hin;
      [|apply Forall_app; split; [exact Hbanner|exact Hl]].
    congruence. }
  assert (Hcompleted :
            exists before after,
              banner ++ loop ++ [TestSender.CloseSocket] ++ footer
              = before ++ TestSender.CloseSocket :: after
              /\ (TestSender.CloseSocket ∉ before)
              /\ (TestSender.CloseSocket ∉ after)
              /\ TestSender.packets after = []
              /\ (TestSender.packets before
                  `prefix_of` TestSender.packets loop)).
  { exists (banner ++ loop), footer.
    split; [rewrite <- app_assoc; reflexivity|].
    split; [apply Hnotin; exact Hloop|].
    split; [exact Hfooter|]. split; [reflexivity|].
    rewrite packets_app. reflexivity. }
  rewrite Hfull. unfold TestSender.run.
  fold default_sleep total loop banner footer.
  destruct stop as [[n e]|].
  - destruct (n <? length loop)%nat.
    + assert (Htake : Forall (fun a => a <> TestSender.CloseSocket)
                        (take n loop)) by (apply Forall_take; exact Hloop).
      assert (Hprefix : (TestSender.packets (banner ++ take n loop)
                         `prefix_of` TestSender.packets loop)).
      { rewrite packets_app. apply packets_take. }
      assert (He : e = KeyboardInterrupt \/ e <> KeyboardInterrupt)
        by (destruct e; (left; reflexivity) || (right; discriminate)).
      destruct He as [->|Hne].
      * exists (banner ++ take n loop
                ++ [TestSender.Say TestSender.LineAborted]), footer.
        cbn [fst snd].
        split; [rewrite <- !app_assoc; reflexivity|].
        split; [apply Hnotin; apply Forall_app; split;
                [exact Htake|repeat constructor; discriminate]|].
        split; [exact Hfooter|]. split; [reflexivity|].
        split; [|left; reflexivity].
        rewrite app_assoc, packets_app. cbn [TestSender.packets flat_map app].
        rewrite app_nil_r. exact Hprefix.
      * exists (banner ++ take n loop), [].
        assert (Hrun : (match e with
                        | KeyboardInterrupt =>
                            (Ok (),
                             banner ++ take n loop
                             ++ [TestSender.Say TestSender.LineAborted;
                                 TestSender.CloseSocket] ++ footer)
                        | _ => (Raise e,
                                banner ++ take n loop
                                ++ [TestSender.CloseSocket])
                        end)
                       = (Raise e,
                          banner ++ take n loop ++ [TestSender.CloseSocket]))
          by (destruct e; try reflexivity; congruence).
        rewrite Hrun. cbn [fst snd].
        split; [rewrite <- app_assoc; reflexivity|].
        split; [apply Hnotin; exact Htake|].
        split; [apply not_elem_of_nil|]. split; [reflexivity|].
        split; [exact Hprefix|]. right. exists n, e. auto.
    + destruct Hcompleted as (before & after & H1 & H2 & H3 & H4 & H5).
      exists before, after. cbn [fst snd]. auto 10.
  - destruct Hcompleted as (before & after & H1 & H2 & H3 & H4 & H5).
    exists before, after. cbn [fst snd]. auto 10.
Qed.

Lemma clamp_brightness_unit (raw : Z) :
  0 <= raw <= 254 -> clamp_brightness raw f_one = Ok raw.
Proof.
  intros Hraw. pose proof clamp_brightness_unit_multiplier as H.
  rewrite forallb_forall in H. specialize (H raw).
  destruct (clamp_brightness raw f_one) as [v|e].
  - f_equal. assert (Hv : (v =? Z.max 0 (Z.min 254 raw)) = true).
    { apply H. apply in_map_iff. exists (Z.to_nat (raw + 500)).
      split; [lia|]. apply in_seq. lia. }
    apply Z.eqb_eq in Hv. lia.
  - assert (Hv : false = true); [|discriminate].
    apply H. apply in_map_iff. exists (Z.to_nat (raw + 500)).
    split; [lia|]. apply in_seq. lia.
Qed.

Lemma printed_commands_app (l k : list effect) :
  printed_commands (l ++ k) = printed_commands l ++ printed_commands k.
Proof. apply flat_map_app. Qed.

Lemma spaced_weaken (thr thr' prev : Z) (cmds : list UdpCommand) :
  thr' <= thr -> spaced thr prev cmds -> spaced thr' prev cmds.
Proof.
  intros Hle. revert prev. induction cmds as [|cmd cmds IH]; intros prev.
  - trivial.
  - simpl. intros (H1 & H2 & H3). split; [lia|]. split; [exact H2|].
    apply IH. exact H3.
Qed.

Section CycleFacts.
Context {C : Type} {client_ops : MatterClient C} {runtime : PyRuntime}.

Lemma dry_round (config : BridgeConfig) (zone_cfg : ZoneConfig)
    (b : bridge C) (data : list Byte.byte) (cmd : UdpCommand)
    (st : ZoneState) :
  at_phase b = DryRun ->
  items (queue b) = [] -> maxsize (queue b) = 100 ->
  decodes_to (dom (zones config)) data cmd ->
  zones config !! zone cmd = Some zone_cfg ->
  zone_states b !! zone cmd = Some st ->
  brightness_multiplier zone_cfg = f_one ->
  0 < min_kelvin zone_cfg ->
  0 <= brightness cmd <= 254 ->
  dedup_brightness_threshold config
    <= Z.abs (brightness cmd - last_brightness st) ->
  let b' := step config (step config b (Datagram data)) Dequeue in
  if writable cmd zone_cfg then
    at_phase b' = DryRun
    /\ items (queue b') = [] /\ maxsize (queue b') = 100
    /\ (exists m,
          zone_states b'
          = <[zone cmd := {| last_mireds := m;
                             last_brightness := brightness cmd |}]>
              (zone_states b))
    /\ printed_commands (trace b') = printed_commands (trace b) ++ [cmd]
  else
    at_phase b' = Exited (Uncaught ValueError)
    /\ printed_commands (trace b') = printed_commands (trace b).
Proof.
  intros Hp Hitems Hmax Hdec Hcfg Hst Hmul Hmin Hb Hthr.
  destruct b as [p d [mx its] zs tr]. simpl in Hp, Hitems, Hmax, Hst.
  subst p its mx. unfold decodes_to in Hdec.
  assert (Hfirst : step config
                     {| at_phase := DryRun; delay := d;
                        queue := {| maxsize := 100; items := [] |};
                        zone_states := zs; trace := tr |} (Datagram data)
                   = {| at_phase := DryRun; delay := d;
                        queue := {| maxsize := 100; items := [cmd] |};
                        zone_states := zs;
                        trace := tr ++ [Log DEBUG (MsgUdpPacket (length data));
                                        Log DEBUG (MsgQueued cmd)] |}).
  { unfold step. cbn [at_phase]. unfold on_datagram, datagram_received.
    cbn [queue]. rewrite Hdec. reflexivity. }
  rewrite Hfirst. clear Hfirst.
  unfold step. cbn [at_phase]. unfold on_dequeue, get_nowait.
  cbn [queue items maxsize]. unfold command_loop_body. cbn [zone_states].
  rewrite Hcfg, Hst.
  assert (Hlevel : clamp_brightness (brightness cmd)
                     (brightness_multiplier zone_cfg) = Ok (brightness cmd))
    by (rewrite Hmul; apply clamp_brightness_unit; exact Hb).
  pose proof (kelvin_to_mireds_positive (kelvin cmd) (min_kelvin zone_cfg)
                (max_kelvin zone_cfg) Hmin) as Hmireds.
  rewrite (send_zone_command_converted _ _ _ _ _ _ _ _ Hlevel Hmireds).
  assert (Hskip : forall m, dedup_skip st config m (brightness cmd) = false).
  { intros m. unfold dedup_skip. apply andb_false_intro2.
    apply Z.ltb_ge. exact Hthr. }
  rewrite Hskip. unfold transmit.
  rewrite (printable_writable _ _ _ _ Hlevel Hmireds).
  destruct (writable cmd zone_cfg);
    cbn [result state_after client_after effects at_phase queue items
         maxsize zone_states trace goto].
  - split; [reflexivity|]. split; [reflexivity|]. split; [reflexivity|].
    split; [eexists; reflexivity|].
    rewrite !printed_commands_app. cbn [printed_commands flat_map app].
    rewrite !app_nil_r. reflexivity.
  - split; [reflexivity|].
    rewrite !printed_commands_app. cbn [printed_commands flat_map app].
    rewrite !app_nil_r. reflexivity.
Qed.

Lemma run_exited (config : BridgeConfig) (evs : list (event C))
    (b : bridge C) (t : termination) :
  at_phase b = Exited t -> run config b evs = b.
Proof.
  intros Hp. induction evs as [|ev evs IH]; [reflexivity|].
  unfold run in *. cbn [fold_left]. unfold step at 2. rewrite Hp. exact IH.
Qed.

Lemma dry_rounds (config : BridgeConfig) (zone_cfg : ZoneConfig) (z : string)
    (datas : list (list Byte.byte)) (cmds : list UdpCommand) :
  zones config !! z = Some zone_cfg ->
  brightness_multiplier zone_cfg = f_one ->
  0 < min_kelvin zone_cfg ->
  Forall2 (decodes_to (dom (zones config))) datas cmds ->
  Forall (fun cmd => zone cmd = z) cmds ->
  Forall (fun cmd => writable cmd zone_cfg = true) cmds ->
  forall (b : bridge C) (st : ZoneState),
    at_phase b = DryRun ->
    items (queue b) = [] -> maxsize (queue b) = 100 ->
    zone_states b !! z = Some st ->
    spaced (dedup_brightness_threshold config) (last_brightness st) cmds ->
    let b' :=
      run config b (flat_map (fun data => [Datagram data; Dequeue]) datas) in
    at_phase b' = DryRun
    /\ printed_commands (trace b') = printed_commands (trace b) ++ cmds.
Proof.
  intros Hcfg Hmul Hmin Hdec.
  induction Hdec as [|data cmd datas cmds Hd _ IH];
    intros Hzone Hwr b st Hp Hi Hm Hst Hsp.
  - simpl. rewrite app_nil_r. auto.
  - apply Forall_cons in Hzone as [Hz Hzone].
    apply Forall_cons in Hwr as [Hw Hwr].
    destruct Hsp as (Hthr & Hb & Hsp).
    rewrite <- Hz in Hcfg, Hst.
    pose proof (dry_round config zone_cfg b data cmd st Hp Hi Hm Hd Hcfg Hst
                  Hmul Hmin Hb Hthr) as Hround.
    cbv zeta in Hround. rewrite Hw in Hround.
    destruct Hround as (Hp' & Hi' & Hm' & (m & Hzs') & Htr').
    cbn [flat_map app]. unfold run. cbn [fold_left].
    fold (run config (step config (step config b (Datagram data)) Dequeue)
            (flat_map (fun data => [Datagram data; Dequeue]) datas)).
    rewrite Hz in Hcfg.
    destruct (IH Hzone Hwr _
                {| last_mireds := m; last_brightness := brightness cmd |}
                Hp' Hi' Hm')
      as [Hp'' Htr''].
    + rewrite Hzs', Hz. apply lookup_insert_eq.
    + exact Hsp.
    + split; [exact Hp''|]. rewrite Htr'', Htr', <- app_assoc. reflexivity.
Qed.

(** When the first command of a sequence cannot be printed the bridge
    ends there, whatever follows. *)
Lemma dry_rounds_unwritable (config : BridgeConfig) (zone_cfg : ZoneConfig)
    (data : list Byte.byte) (cmd : UdpCommand)
    (datas : list (list Byte.byte)) (b : bridge C) (st : ZoneState) :
  zones config !! zone cmd = Some zone_cfg ->
  brightness_multiplier zone_cfg = f_one ->
  0 < min_kelvin zone_cfg ->
  decodes_to (dom (zones config)) data cmd ->
  writable cmd zone_cfg = false ->
  at_phase b = DryRun ->
  items (queue b) = [] -> maxsize (queue b) = 100 ->
  zone_states b !! zone cmd = Some st ->
  0 <= brightness cmd <= 254 ->
  dedup_brightness_threshold config
    <= Z.abs (brightness cmd - last_brightness st) ->
  let b' :=
    run config b
      (flat_map (fun data => [Datagram data; Dequeue]) (data :: datas)) in
  at_phase b' = Exited (Uncaught ValueError)
  /\ printed_commands (trace b') = printed_commands (trace b).
Proof.
  intros Hcfg Hmul Hmin Hd Hw Hp Hi Hm Hst Hb Hthr.
  pose proof (dry_round config zone_cfg b data cmd st Hp Hi Hm Hd Hcfg Hst
                Hmul Hmin Hb Hthr) as Hround.
  cbv zeta in Hround. rewrite Hw in Hround. destruct Hround as [Hp' Htr'].
  cbn [flat_map app]. unfold run. cbn [fold_left].
  fold (run config (step config (step config b (Datagram data)) Dequeue)
          (flat_map (fun data => [Datagram data; Dequeue]) datas)).
  rewrite (run_exited _ _ _ _ Hp'). auto.
Qed.

End CycleFacts.

Lemma DAY_CYCLE_spaced (z : string) :
  Forall (fun cmd => zone cmd = z)
    (omap (TestSender.row_command z) TestSender.DAY_CYCLE)
  /\ spaced 5 (-1) (omap (TestSender.row_command z) TestSender.DAY_CYCLE).
Proof.
  cbv [omap list_omap TestSender.row_command TestSender.DAY_CYCLE].
  split.
  - repeat (constructor; [reflexivity|]). constructor.
  - cbv [spaced brightness]. repeat split; lia.
Qed.

(** The numbers of the table are short: whether a command of the day
    cycle can be printed depends on the node ids of the zone alone. *)
Lemma DAY_CYCLE_writable (z : string) (zone_cfg : ZoneConfig) :
  Forall
    (fun cmd =>
       writable cmd zone_cfg = forallb str_int_ok (node_ids zone_cfg))
    (omap (TestSender.row_command z) TestSender.DAY_CYCLE).
Proof.
  cbv [omap list_omap TestSender.row_command TestSender.DAY_CYCLE].
  repeat (constructor;
          [unfold writable; cbn [kelvin brightness transition];
           rewrite !str_int_ok_small by lia; reflexivity|]).
  constructor.
Qed.

(** X30: sender and bridge together: in dry-run mode, with a zone whose
    multiplier is 1.0 and whose lower kelvin bound is positive, and a
    brightness threshold of at most 5 (the default), the bridge prints
    every command of the sender's day cycle, in order: deduplication
    suppresses no step.  (With a node id too long to be written the
    bridge ends at the first print instead.) *)
Theorem day_cycle_is_never_deduplicated {C : Type}
    {client_ops : MatterClient C} {runtime : PyRuntime}
    {sender_runtime : TestSender.SenderRuntime}
    (config : BridgeConfig) (zone_cfg : ZoneConfig)
    (args : TestSender.Namespace) :
  Forall round_trip
    (omap (TestSender.row_payload (TestSender.arg_zone args))
       TestSender.DAY_CYCLE) ->
  zones config !! TestSender.arg_zone args = Some zone_cfg ->
  brightness_multiplier zone_cfg = f_one ->
  0 < min_kelvin zone_cfg ->
  dedup_brightness_threshold config <= 5 ->
  let sent := TestSender.packets (TestSender.run args None).2 in
  let b :=
    run config (run_bridge config true)
      (flat_map (fun data => [Datagram data; Dequeue]) sent) in
  if forallb str_int_ok (node_ids zone_cfg) then
    at_phase b = DryRun
    /\ printed_commands (trace b)
       = omap (TestSender.row_command (TestSender.arg_zone args))
           TestSender.DAY_CYCLE
  else
    at_phase b = Exited (Uncaught ValueError)
    /\ printed_commands (trace b) = [].
Proof.
  intros Hrt Hcfg Hmul Hmin Hthr sent b. subst sent b.
  rewrite run_packets.
  destruct (DAY_CYCLE_spaced (TestSender.arg_zone args)) as [Hzone Hsp].
  pose proof (DAY_CYCLE_writable (TestSender.arg_zone args) zone_cfg)
    as Hwr.
  assert (Hknown : TestSender.arg_zone args ∈ dom (zones config))
    by (apply elem_of_dom; eauto).
  pose proof (cycle_decodes _ args
                (if TestSender.arg_fast args then TestSender.f_three_halves
                 else TestSender.f_three)
                (Z.of_nat (length TestSender.DAY_CYCLE)) 1
                TestSender.DAY_CYCLE Hrt (DAY_CYCLE_rows_complete _) Hknown)
    as Hdec.
  assert (Hstart : zone_states (run_bridge (C := C) config true)
                     !! TestSender.arg_zone args = Some ZoneState_default).
  { unfold run_bridge. cbn [zone_states]. rewrite lookup_fmap, Hcfg.
    reflexivity. }
  apply (spaced_weaken 5 _ _ _ Hthr) in Hsp.
  destruct (forallb str_int_ok (node_ids zone_cfg)) eqn:Hnodes.
  - apply (dry_rounds config zone_cfg (TestSender.arg_zone args) _ _ Hcfg
             Hmul Hmin Hdec Hzone Hwr (run_bridge config true)
             ZoneState_default); try reflexivity; assumption.
  - revert Hdec. generalize (TestSender.packets
                               (TestSender.cycle args
                                  (if TestSender.arg_fast args
                                   then TestSender.f_three_halves
                                   else TestSender.f_three)
                                  (Z.of_nat (length TestSender.DAY_CYCLE)) 1
                                  TestSender.DAY_CYCLE)).
    intros sent Hdec.
    cbv [omap list_omap TestSender.row_command TestSender.DAY_CYCLE]
      in Hdec, Hzone, Hwr, Hsp.
    inversion Hdec as [|data cmd datas cmds Hd _ Hdatas Hcmd]. subst cmd.
    apply Forall_cons in Hzone as [Hz _].
    apply Forall_cons in Hwr as [Hw _].
    destruct Hsp as (Hthr1 & Hb1 & _).
    rewrite <- Hz in Hcfg, Hstart.
    apply (dry_rounds_unwritable config zone_cfg data
             {| zone := TestSender.arg_zone args; kelvin := 2700;
                brightness := 20; transition := 0 |} datas
             (run_bridge config true) ZoneState_default);
      try reflexivity; assumption.
Qed.

Lemma day_cycle_is_never_deduplicated_witness :
  let sent :=
    TestSender.packets
      (@TestSender.run loopback_sender default_args None).2 in
  let b :=
    @run live_client live_client_sends loopback_runtime fixture_config
      (run_bridge fixture_config true)
      (flat_map (fun data => [Datagram data; Dequeue]) sent) in
  at_phase b = DryRun
  /\ printed_commands (trace b)
     = omap (TestSender.row_command "ceiling") TestSender.DAY_CYCLE.
Proof.
  apply (day_cycle_is_never_deduplicated (client_ops := live_client_sends)
           (runtime := loopback_runtime) (sender_runtime := loopback_sender)
           fixture_config ceiling default_args).
  - cbv [omap list_omap TestSender.row_payload TestSender.DAY_CYCLE
         default_args TestSender.arg_zone].
    repeat (constructor; [split; vm_compute; reflexivity|]). constructor.
  - reflexivity.
  - reflexivity.
  - reflexivity.
  - reflexivity.
Defined.

(** The bound is sharp: with a brightness threshold of 6 the last step,
    5 levels from the one before it, is skipped. *)
Example return_to_night_is_skipped_at_threshold_6 :
  let config :=
    {| reconnect_initial_delay := f_two; reconnect_max_delay := f_sixty;
       reconnect_multiplier := f_two; dedup_mireds_threshold := 10;
       dedup_brightness_threshold := 6;
       zones := {[ "ceiling"%string := ceiling ]} |} in
  let sent :=
    TestSender.packets
      (@TestSender.run loopback_sender default_args None).2 in
  let b :=
    @run live_client live_client_sends loopback_runtime config
      (run_bridge config true)
      (flat_map (fun data => [Datagram data; Dequeue]) sent) in
  length (printed_commands (trace b)) = 16%nat.
Proof. vm_compute. reflexivity. Qed.
